(** * kubernetes-aws-eks-auto-scaler: a shallow embedding of [script.py]

    The script scales Kubernetes workloads and AWS Auto Scaling Groups down
    to zero, remembering what they were in two AWS SSM parameters, and scales
    them up again from what it remembered.

    The embedding follows [script.py] function by function.  The three
    services the script talks to (the Kubernetes API, the AWS Auto Scaling
    API and the AWS SSM parameter store) are one record, [World]; every
    function of the script is a computation in a state-and-exception monad
    over it.  When a Python exception is raised the world keeps what had
    been done until then, as the services do. *)

From Stdlib Require Import ZArith Ascii String.
From stdpp Require Import base option list strings gmap.

Local Open Scope Z_scope.
Local Open Scope string_scope.
Local Open Scope list_scope.

(** ** Strings *)

Module Str.

(** [str.lower()], for strings of ASCII characters: the letters A to Z
    become a to z, and every other character stays.  On other characters
    [str.lower()] follows Unicode; what is proved of the case of a string
    is proved of ASCII strings. *)
Definition lower_ascii (c : ascii) : ascii :=
  let n := nat_of_ascii c in
  if (Nat.leb 65 n && Nat.leb n 90)%bool then ascii_of_nat (n + 32) else c.

Fixpoint lower (s : string) : string :=
  match s with
  | EmptyString => EmptyString
  | String c s' => String (lower_ascii c) (lower s')
  end.

(** [s.split(sep)] for a separator of one character: the pieces between
    the occurrences of [sep], of which there is always at least one. *)
Fixpoint split (sep : ascii) (s : string) : list string :=
  match s with
  | EmptyString => [EmptyString]
  | String c s' =>
      if Ascii.eqb c sep then EmptyString :: split sep s'
      else match split sep s' with
           | [] => [String c EmptyString]
           | piece :: pieces => String c piece :: pieces
           end
  end.

(** [sep not in s] *)
Fixpoint free_of (sep : ascii) (s : string) : bool :=
  match s with
  | EmptyString => true
  | String c s' => negb (Ascii.eqb c sep) && free_of sep s'
  end.

End Str.

(** ** JSON documents and Python dictionaries *)

(** What [json.loads] returns.  Numbers are the integers: the script stores
    nothing else. *)
#[warnings="-register-all"]
Inductive json : Type :=
  | JNull
  | JBool (b : bool)
  | JNum (z : Z)
  | JStr (s : string)
  | JArr (items : list json)
  | JObj (fields : list (string * json)).

(** A Python [dict] with string keys keeps its keys in insertion order,
    and [scale_up] walks the stored dictionaries in that order, so a
    dictionary is an association list.  A key occurs once; assigning to a
    key that is there replaces the value where it stands, assigning to a
    new key appends. *)
Module Dict.

Definition t (V : Type) : Type := list (string * V).

Section Ops.
Context {V : Type}.

Fixpoint get (k : string) (d : t V) : option V :=
  match d with
  | [] => None
  | (k', v) :: d' => if String.eqb k k' then Some v else get k d'
  end.

(** [d[k] = v] *)
Fixpoint set (k : string) (v : V) (d : t V) : t V :=
  match d with
  | [] => [(k, v)]
  | (k', v') :: d' =>
      if String.eqb k k' then (k, v) :: d' else (k', v') :: set k v d'
  end.

(** [d.update(new)] *)
Definition update (d new : t V) : t V :=
  fold_left (fun acc kv => set (fst kv) (snd kv) acc) new d.

Definition keys (d : t V) : list string := map fst d.

End Ops.

End Dict.

(** ** The services *)

(** [MinSize], [DesiredCapacity] and [MaxSize] of a group. *)
Record asg : Type := Asg {
  MinSize : Z;
  DesiredCapacity : Z;
  MaxSize : Z
}.

(** A workload object as a list or read call returns it: its
    [metadata.namespace], [metadata.name] and [spec.replicas]. *)
Record workload : Type := Workload {
  w_namespace : string;
  w_name : string;
  w_replicas : Z
}.

(** A CronJob object: [metadata.namespace], [metadata.name],
    [spec.suspend]. *)
Record cronjob : Type := CronJob {
  c_namespace : string;
  c_name : string;
  c_suspend : bool
}.

(** The calls the script makes to the three services. *)
Inductive call : Type :=
  | GetParameter (name : string)
  | PutParameter (name : string) (value : json)
  | ListDeployments
  | ListStatefulSets
  | ListCronJobs
  | ReadDeployment (namespace name : string)
  | ReadStatefulSet (namespace name : string)
  | ReadCronJob (namespace name : string)
  | PatchDeployment (namespace name : string) (replicas : json)
  | PatchStatefulSet (namespace name : string) (replicas : json)
  | PatchCronJob (namespace name : string) (suspend : bool)
  | DescribeAllAsgs
  | DescribeAsg (name : string)
  | UpdateAsg (name : string) (min desired max : json).

(** The state of the three services, and the calls made so far, the most
    recent one first.  A stored parameter is held as the JSON document its
    [Value] parses to.  Workloads are keyed by (namespace, name). *)
Record World : Type := MkWorld {
  ssm : gmap string json;
  deployments : gmap (string * string) Z;
  statefulsets : gmap (string * string) Z;
  cronjobs : gmap (string * string) bool;
  asgs : gmap string asg;
  calls : list call
}.

Definition set_ssm (f : gmap string json -> gmap string json) (w : World) : World :=
  MkWorld (f (ssm w)) (deployments w) (statefulsets w) (cronjobs w) (asgs w) (calls w).
Definition set_deployments (f : gmap (string * string) Z -> gmap (string * string) Z)
    (w : World) : World :=
  MkWorld (ssm w) (f (deployments w)) (statefulsets w) (cronjobs w) (asgs w) (calls w).
Definition set_statefulsets (f : gmap (string * string) Z -> gmap (string * string) Z)
    (w : World) : World :=
  MkWorld (ssm w) (deployments w) (f (statefulsets w)) (cronjobs w) (asgs w) (calls w).
Definition set_cronjobs (f : gmap (string * string) bool -> gmap (string * string) bool)
    (w : World) : World :=
  MkWorld (ssm w) (deployments w) (statefulsets w) (f (cronjobs w)) (asgs w) (calls w).
Definition set_asgs (f : gmap string asg -> gmap string asg) (w : World) : World :=
  MkWorld (ssm w) (deployments w) (statefulsets w) (cronjobs w) (f (asgs w)) (calls w).
Definition set_calls (f : list call -> list call) (w : World) : World :=
  MkWorld (ssm w) (deployments w) (statefulsets w) (cronjobs w) (asgs w) (f (calls w)).

(** ** The monad *)

(** The Python exceptions the script can meet. *)
Inductive exn : Type :=
  | ParameterNotFound
  | ApiException
  | ClientError
  | ParamValidationError
  | ValueError
  | KeyError
  | TypeError
  | AttributeError
  | IndexError.

Inductive result (A : Type) : Type :=
  | Ok (a : A)
  | Raise (e : exn).
Arguments Ok {A} a.
Arguments Raise {A} e.

Definition M (A : Type) : Type := World -> result A * World.

#[export] Instance M_ret : MRet M := fun A a w => (Ok a, w).
#[export] Instance M_bind : MBind M := fun A B f m w =>
  match m w with
  | (Ok a, w') => f a w'
  | (Raise e, w') => (Raise e, w')
  end.

Definition raise {A : Type} (e : exn) : M A := fun w => (Raise e, w).

(** [try: body except ssm_client.exceptions.ParameterNotFound: handler] *)
Definition try_except_ParameterNotFound {A : Type} (body handler : M A) : M A :=
  fun w =>
    match body w with
    | (Raise ParameterNotFound, w') => handler w'
    | r => r
    end.

Definition gets {A : Type} (f : World -> A) : M A := fun w => (Ok (f w), w).
Definition modify (f : World -> World) : M unit := fun w => (Ok tt, f w).
Definition log (c : call) : M unit := modify (set_calls (cons c)).

(** [for x in l: body x] *)
Fixpoint for_each {A : Type} (body : A -> M unit) (l : list A) : M unit :=
  match l with
  | [] => mret tt
  | x :: l' => body x ;; for_each body l'
  end.

(** A [for] loop that assigns to a local variable of type [S]. *)
Fixpoint for_fold {A S : Type} (body : S -> A -> M S) (l : list A) (s : S) : M S :=
  match l with
  | [] => mret s
  | x :: l' => s' ← body s x; for_fold body l' s'
  end.

(** [[f x for x in l]] where [f] calls a service. *)
Fixpoint for_list {A B : Type} (f : A -> M B) (l : list A) : M (list B) :=
  match l with
  | [] => mret []
  | x :: l' => y ← f x; ys ← for_list f l'; mret (y :: ys)
  end.

(** ** The clients *)

(** What the script relies on from [boto3] and the Kubernetes client.  A
    call is logged when it is issued, also when the service then refuses
    it.  Reading, patching or updating an object that does not exist is
    refused, and so is a replica count or a capacity that is not an
    integer.  A listing returns every object there is, in the order of
    [map_to_list]; a patch, whose body is the whole object, changes the one
    field the script has assigned. *)
Module Client.

(** [ssm_client.get_parameter(Name=name)["Parameter"]["Value"]], parsed. *)
Definition get_parameter (name : string) : M json :=
  log (GetParameter name) ;;
  stored ← gets (fun w => ssm w !! name);
  match stored with
  | Some value => mret value
  | None => raise ParameterNotFound
  end.

(** [ssm_client.put_parameter(Name=name, Value=json.dumps(value),
    Type="String", Overwrite=True)] *)
Definition put_parameter (name : string) (value : json) : M unit :=
  log (PutParameter name value) ;;
  modify (set_ssm <[name := value]>).

Definition workloads_of (m : gmap (string * string) Z) : list workload :=
  map (fun kv => Workload (fst (fst kv)) (snd (fst kv)) (snd kv)) (map_to_list m).

Definition cronjobs_of (m : gmap (string * string) bool) : list cronjob :=
  map (fun kv => CronJob (fst (fst kv)) (snd (fst kv)) (snd kv)) (map_to_list m).

Definition list_deployment_for_all_namespaces : M (list workload) :=
  log ListDeployments ;; gets (fun w => workloads_of (deployments w)).

Definition list_stateful_set_for_all_namespaces : M (list workload) :=
  log ListStatefulSets ;; gets (fun w => workloads_of (statefulsets w)).

Definition list_cron_job_for_all_namespaces : M (list cronjob) :=
  log ListCronJobs ;; gets (fun w => cronjobs_of (cronjobs w)).

Definition read_namespaced_deployment (name namespace : string) : M workload :=
  log (ReadDeployment namespace name) ;;
  live ← gets (fun w => deployments w !! (namespace, name));
  match live with
  | Some replicas => mret (Workload namespace name replicas)
  | None => raise ApiException
  end.

Definition read_namespaced_stateful_set (name namespace : string) : M workload :=
  log (ReadStatefulSet namespace name) ;;
  live ← gets (fun w => statefulsets w !! (namespace, name));
  match live with
  | Some replicas => mret (Workload namespace name replicas)
  | None => raise ApiException
  end.

Definition read_namespaced_cron_job (name namespace : string) : M cronjob :=
  log (ReadCronJob namespace name) ;;
  live ← gets (fun w => cronjobs w !! (namespace, name));
  match live with
  | Some suspend => mret (CronJob namespace name suspend)
  | None => raise ApiException
  end.

(** The body of the patch is the object with its [spec.replicas]
    assigned; [replicas] is what was assigned. *)
Definition patch_namespaced_deployment (name namespace : string) (replicas : json)
    : M unit :=
  log (PatchDeployment namespace name replicas) ;;
  live ← gets (fun w => deployments w !! (namespace, name));
  match live, replicas with
  | Some _, JNum n => modify (set_deployments <[(namespace, name) := n]>)
  | _, _ => raise ApiException
  end.

Definition patch_namespaced_stateful_set (name namespace : string) (replicas : json)
    : M unit :=
  log (PatchStatefulSet namespace name replicas) ;;
  live ← gets (fun w => statefulsets w !! (namespace, name));
  match live, replicas with
  | Some _, JNum n => modify (set_statefulsets <[(namespace, name) := n]>)
  | _, _ => raise ApiException
  end.

Definition patch_namespaced_cron_job (name namespace : string) (suspend : bool)
    : M unit :=
  log (PatchCronJob namespace name suspend) ;;
  live ← gets (fun w => cronjobs w !! (namespace, name));
  match live with
  | Some _ => modify (set_cronjobs <[(namespace, name) := suspend]>)
  | None => raise ApiException
  end.

(** The number of groups in one answer of [describe_auto_scaling_groups]
    when [MaxRecords] is not given. *)
Definition page_size : nat := 50.

(** The names in the first page of the groups.  The script asks for one
    page and follows no [NextToken]. *)
Definition first_page (groups : gmap string asg) : list string :=
  take page_size (map fst (map_to_list groups)).

(** [[asg["AutoScalingGroupName"] for asg in
    autoscaling_client.describe_auto_scaling_groups()["AutoScalingGroups"]]] *)
Definition describe_auto_scaling_group_names : M (list string) :=
  log DescribeAllAsgs ;; gets (fun w => first_page (asgs w)).

(** [autoscaling_client.describe_auto_scaling_groups(
    AutoScalingGroupNames=[name])["AutoScalingGroups"][0]]: the empty
    name does not pass the validation of the parameters; the answer for
    an unknown name is the empty list, whose first item is an
    [IndexError]. *)
Definition describe_auto_scaling_group (name : string) : M asg :=
  log (DescribeAsg name) ;;
  if String.eqb name "" then raise ParamValidationError
  else
    live ← gets (fun w => asgs w !! name);
    match live with
    | Some group => mret group
    | None => raise IndexError
    end.

Definition update_auto_scaling_group (name : string) (min desired max : json)
    : M unit :=
  log (UpdateAsg name min desired max) ;;
  match min, desired, max with
  | JNum lo, JNum want, JNum hi =>
      live ← gets (fun w => asgs w !! name);
      match live with
      | Some _ => modify (set_asgs <[name := Asg lo want hi]>)
      | None => raise ClientError
      end
  | _, _, _ => raise ParamValidationError
  end.

End Client.

(** ** Python values *)

(** A reference to a Kubernetes resource as the command line gives it:
    [{"namespace": ..., "kind": ..., "name": ...}]. *)
Record resource_ref : Type := ResourceRef {
  r_namespace : string;
  r_kind : string;
  r_name : string
}.

(** What the filters and loops use of a Kubernetes object: its
    [metadata.namespace] and [metadata.name]. *)
Class Metadata (A : Type) : Type := {
  namespace : A -> string;
  name : A -> string
}.

#[export] Instance workload_metadata : Metadata workload :=
  {| namespace := w_namespace; name := w_name |}.
#[export] Instance cronjob_metadata : Metadata cronjob :=
  {| namespace := c_namespace; name := c_name |}.

(** [not x] for an optional list argument: [None] and [[]] are false. *)
Definition py_not {A : Type} (x : option (list A)) : bool :=
  match x with
  | None | Some [] => true
  | Some (_ :: _) => false
  end.

(** The list itself, once [py_not] has been ruled out. *)
Definition items_of {A : Type} (x : option (list A)) : list A := default [] x.

(** [value[key]] *)
Definition subscript (value : json) (key : string) : M json :=
  match value with
  | JObj fields =>
      match Dict.get key fields with
      | Some v => mret v
      | None => raise KeyError
      end
  | _ => raise TypeError
  end.

(** [value.items()] *)
Definition dict_items (value : json) : M (list (string * json)) :=
  match value with
  | JObj fields => mret fields
  | _ => raise AttributeError
  end.

(** [kind, namespace, name = key.split("/")] *)
Definition unpack3 (parts : list string) : M (string * string * string) :=
  match parts with
  | [kind; namespace; name] => mret (kind, namespace, name)
  | _ => raise ValueError
  end.

(** ** The script *)

Definition K8S_AWS_SSM_PARAMETER_NAME : string :=
  "/kubernetes-aws-eks-auto-scaler/k8s-replica-counts".
Definition ASG_AWS_SSM_PARAMETER_NAME : string :=
  "/kubernetes-aws-eks-auto-scaler/asg-config".

Definition filter_excluded_k8s_resources {A : Type} `{Metadata A}
    (kind : string) (resources : list A) (exclude_list : option (list resource_ref))
    : list A :=
  if py_not exclude_list then resources
  else
    let exclude_set :=
      map (fun res => (r_namespace res, Str.lower (r_kind res), r_name res))
          (items_of exclude_list) in
    List.filter
      (fun res =>
         negb (bool_decide ((namespace res, Str.lower kind, name res) ∈ exclude_set)))
      resources.

Definition filter_excluded_asgs (asg_list : list string)
    (exclude_list : option (list string)) : list string :=
  if py_not exclude_list then asg_list
  else
    List.filter (fun asg => negb (bool_decide (asg ∈ items_of exclude_list))) asg_list.

Definition update_ssm_parameter (parameter_name : string) (new_data : Dict.t json)
    : M unit :=
  existing_data ←
    try_except_ParameterNotFound
      (Client.get_parameter parameter_name)
      (mret (JObj []));
  match existing_data with
  | JObj fields =>
      Client.put_parameter parameter_name (JObj (Dict.update fields new_data))
  | _ => raise AttributeError
  end.

(** The key a workload is remembered under. *)
Definition workload_key (kind : string) (res : workload) : string :=
  kind +:+ "/" +:+ w_namespace res +:+ "/" +:+ w_name res.

Definition asg_record (group : asg) : json :=
  JObj [("MinSize", JNum (MinSize group));
        ("DesiredCapacity", JNum (DesiredCapacity group));
        ("MaxSize", JNum (MaxSize group))].

Module ScaleDown.

(** Lines 80-89: the objects to work on. *)
Definition fetch (k8s_resources : option (list resource_ref))
    : M (list workload * list workload * list cronjob) :=
  if py_not k8s_resources then
    all_deployments ← Client.list_deployment_for_all_namespaces;
    all_statefulsets ← Client.list_stateful_set_for_all_namespaces;
    all_cronjobs ← Client.list_cron_job_for_all_namespaces;
    mret (all_deployments, all_statefulsets, all_cronjobs)
  else
    let of_kind kind :=
      List.filter (fun res => String.eqb (Str.lower (r_kind res)) kind)
                  (items_of k8s_resources) in
    all_deployments ←
      for_list (fun res => Client.read_namespaced_deployment (r_name res) (r_namespace res))
               (of_kind "deployment");
    all_statefulsets ←
      for_list (fun res => Client.read_namespaced_stateful_set (r_name res) (r_namespace res))
               (of_kind "statefulset");
    all_cronjobs ←
      for_list (fun res => Client.read_namespaced_cron_job (r_name res) (r_namespace res))
               (of_kind "cronjob");
    mret (all_deployments, all_statefulsets, all_cronjobs).

(** Lines 98-105: the body of the loop over the Deployments. *)
Definition deployment_step (k8s_scaling_data : Dict.t json) (deployment : workload)
    : M (Dict.t json) :=
  if (0 <? w_replicas deployment)%Z then
    let k8s_scaling_data :=
      Dict.set (workload_key "deployment" deployment)
               (JNum (w_replicas deployment)) k8s_scaling_data in
    Client.patch_namespaced_deployment
      (w_name deployment) (w_namespace deployment) (JNum 0) ;;
    mret k8s_scaling_data
  else mret k8s_scaling_data.

(** Lines 107-114: the body of the loop over the StatefulSets. *)
Definition statefulset_step (k8s_scaling_data : Dict.t json) (statefulset : workload)
    : M (Dict.t json) :=
  if (0 <? w_replicas statefulset)%Z then
    let k8s_scaling_data :=
      Dict.set (workload_key "statefulset" statefulset)
               (JNum (w_replicas statefulset)) k8s_scaling_data in
    Client.patch_namespaced_stateful_set
      (w_name statefulset) (w_namespace statefulset) (JNum 0) ;;
    mret k8s_scaling_data
  else mret k8s_scaling_data.

(** Lines 116-119. *)
Definition cronjob_step (cronjob : cronjob) : M unit :=
  Client.patch_namespaced_cron_job (c_name cronjob) (c_namespace cronjob) true.

(** Lines 136-143: the body of the loop over the group names. *)
Definition asg_step (asg_scaling_data : Dict.t json) (asg_name : string)
    : M (Dict.t json) :=
  asg ← Client.describe_auto_scaling_group asg_name;
  if ((0 <? MinSize asg) || negb (DesiredCapacity asg =? 0) || negb (MaxSize asg =? 0))%Z
  then
    let asg_scaling_data := Dict.set asg_name (asg_record asg) asg_scaling_data in
    Client.update_auto_scaling_group asg_name (JNum 0) (JNum 0) (JNum 0) ;;
    mret asg_scaling_data
  else mret asg_scaling_data.

(** [if data: update_ssm_parameter(ssm_client, parameter_name, data)] *)
Definition store (parameter_name : string) (data : Dict.t json) : M unit :=
  match data with
  | [] => mret tt
  | _ :: _ => update_ssm_parameter parameter_name data
  end.

(** Lines 76-123: the Kubernetes half. *)
Definition k8s (k8s_resources exclude_k8s_resources : option (list resource_ref))
    : M unit :=
  fetched ← fetch k8s_resources;
  let '(all_deployments, all_statefulsets, all_cronjobs) := fetched in
  let all_deployments :=
    filter_excluded_k8s_resources "Deployment" all_deployments exclude_k8s_resources in
  let all_statefulsets :=
    filter_excluded_k8s_resources "StatefulSet" all_statefulsets exclude_k8s_resources in
  let all_cronjobs :=
    filter_excluded_k8s_resources "CronJob" all_cronjobs exclude_k8s_resources in
  k8s_scaling_data ← for_fold deployment_step all_deployments [];
  k8s_scaling_data ← for_fold statefulset_step all_statefulsets k8s_scaling_data;
  for_each cronjob_step all_cronjobs ;;
  store K8S_AWS_SSM_PARAMETER_NAME k8s_scaling_data.

(** Lines 126-147: the Auto Scaling half. *)
Definition aws (aws_asg_resources exclude_aws_asg_resources : option (list string))
    : M unit :=
  aws_asg_resources ←
    (if py_not aws_asg_resources then Client.describe_auto_scaling_group_names
     else mret (items_of aws_asg_resources));
  let aws_asg_resources :=
    filter_excluded_asgs aws_asg_resources exclude_aws_asg_resources in
  asg_scaling_data ← for_fold asg_step aws_asg_resources [];
  store ASG_AWS_SSM_PARAMETER_NAME asg_scaling_data.

End ScaleDown.

Definition scale_down
    (k8s_resources : option (list resource_ref))
    (aws_asg_resources : option (list string))
    (exclude_k8s_resources : option (list resource_ref))
    (exclude_aws_asg_resources : option (list string)) : M unit :=
  ScaleDown.k8s k8s_resources exclude_k8s_resources ;;
  ScaleDown.aws aws_asg_resources exclude_aws_asg_resources.

Module ScaleUp.

(** Lines 159-161: the body of the loop over the stored groups. *)
Definition asg_step (entry : string * json) : M unit :=
  let '(asg_name, config) := entry in
  min ← subscript config "MinSize";
  desired ← subscript config "DesiredCapacity";
  max ← subscript config "MaxSize";
  Client.update_auto_scaling_group asg_name min desired max.

(** Lines 169-179: the body of the loop over the stored workloads. *)
Definition k8s_step (entry : string * json) : M unit :=
  let '(key, replicas) := entry in
  parts ← unpack3 (Str.split "/" key);
  let '(kind, namespace, name) := parts in
  if String.eqb kind "deployment" then
    Client.read_namespaced_deployment name namespace ;;
    Client.patch_namespaced_deployment name namespace replicas
  else if String.eqb kind "statefulset" then
    Client.read_namespaced_stateful_set name namespace ;;
    Client.patch_namespaced_stateful_set name namespace replicas
  else mret tt.

(** Lines 156-163. *)
Definition aws : M unit :=
  try_except_ParameterNotFound
    (asg_scaling_data ← Client.get_parameter ASG_AWS_SSM_PARAMETER_NAME;
     entries ← dict_items asg_scaling_data;
     for_each asg_step entries)
    (mret tt).

(** Lines 166-181. *)
Definition k8s : M unit :=
  try_except_ParameterNotFound
    (k8s_scaling_data ← Client.get_parameter K8S_AWS_SSM_PARAMETER_NAME;
     entries ← dict_items k8s_scaling_data;
     for_each k8s_step entries)
    (mret tt).

(** Lines 185-189. *)
Definition cronjob_step (cronjob : cronjob) : M unit :=
  Client.patch_namespaced_cron_job (c_name cronjob) (c_namespace cronjob) false.

Definition resume : M unit :=
  cronjobs ← Client.list_cron_job_for_all_namespaces;
  for_each cronjob_step cronjobs.

End ScaleUp.

Definition scale_up : M unit :=
  ScaleUp.aws ;; ScaleUp.k8s ;; ScaleUp.resume.

(** The parsed command line. *)
Inductive action : Type := scale_down_action | scale_up_action.

Record arguments : Type := Arguments {
  arg_action : action;
  arg_k8s_resources : option (list resource_ref);
  arg_exclude_k8s_resources : option (list resource_ref);
  arg_aws_asg_resources : option (list string);
  arg_exclude_aws_asg_resources : option (list string)
}.

(** [main], after the configuration is loaded and the command line parsed. *)
Definition main (args : arguments) : M unit :=
  match arg_action args with
  | scale_down_action =>
      scale_down (arg_k8s_resources args) (arg_aws_asg_resources args)
                 (arg_exclude_k8s_resources args) (arg_exclude_aws_asg_resources args)
  | scale_up_action => scale_up
  end.

(** The exit status of the process: an exception that reaches the top
    ends it with status 1. *)
Definition exit_status {A : Type} (r : result A) : Z :=
  match r with
  | Ok _ => 0
  | Raise _ => 1
  end.

(** * Properties *)

(** ** Running a computation *)

Lemma bind_run {A B : Type} (m : M A) (f : A -> M B) (w : World) :
  (m ≫= f) w =
  match m w with
  | (Ok a, w') => f a w'
  | (Raise e, w') => (Raise e, w')
  end.
Proof. reflexivity. Qed.

Ltac run := repeat (rewrite bind_run; simpl).

Lemma bind_raise {A B : Type} (m : M A) (f : A -> M B) (w w' : World) (e : exn) :
  m w = (Raise e, w') -> (m ≫= f) w = (Raise e, w').
Proof. intros Hm. rewrite bind_run, Hm. reflexivity. Qed.

Lemma for_each_app {A : Type} (body : A -> M unit) (l1 l2 : list A) (w : World) :
  for_each body (l1 ++ l2) w = (for_each body l1 ;; for_each body l2) w.
Proof.
  revert w. induction l1 as [|x l1 IH]; intros w; simpl.
  - reflexivity.
  - rewrite !bind_run. destruct (body x w) as [[[]|e] w1]; [|reflexivity].
    rewrite IH. reflexivity.
Qed.

(** ** Dictionaries *)

Module DictFacts.
Import Dict.

Section Facts.
Context {V : Type}.
Implicit Types (d new : t V) (k : string) (v : V).

Lemma get_set k k' v d :
  get k (set k' v d) = if String.eqb k k' then Some v else get k d.
Proof.
  induction d as [|[k0 v0] d IH]; simpl.
  - reflexivity.
  - destruct (String.eqb_spec k' k0) as [->|Hne]; simpl.
    + destruct (String.eqb k k0); reflexivity.
    + rewrite IH. destruct (String.eqb_spec k k0) as [->|]; [|reflexivity].
      destruct (String.eqb_spec k0 k'); congruence.
Qed.

Lemma get_set_eq k v d : get k (set k v d) = Some v.
Proof. rewrite get_set, String.eqb_refl. reflexivity. Qed.

Lemma get_set_ne k k' v d : k <> k' -> get k (set k' v d) = get k d.
Proof.
  intros Hne. rewrite get_set. destruct (String.eqb_spec k k'); congruence.
Qed.

Lemma get_None k d : get k d = None <-> k ∉ keys d.
Proof.
  unfold keys. induction d as [|[k0 v0] d IH]; simpl.
  - split; [intros _; apply not_elem_of_nil | reflexivity].
  - rewrite not_elem_of_cons.
    destruct (String.eqb_spec k k0) as [->|Hne]; split;
      try discriminate; try tauto.
Qed.

Lemma get_Some_keys k d : is_Some (get k d) <-> k ∈ keys d.
Proof.
  rewrite <- not_eq_None_Some, get_None.
  destruct (decide (k ∈ keys d)); tauto.
Qed.

Lemma keys_set k v d :
  keys (set k v d) = if bool_decide (k ∈ keys d) then keys d else keys d ++ [k].
Proof.
  unfold keys. induction d as [|[k0 v0] d IH]; simpl.
  - reflexivity.
  - destruct (String.eqb_spec k k0) as [->|Hne]; simpl.
    + rewrite bool_decide_eq_true_2 by left. reflexivity.
    + rewrite IH. destruct (decide (k ∈ map fst d)) as [Hin|Hin].
      * rewrite !bool_decide_eq_true_2; [reflexivity | by right | done].
      * rewrite !bool_decide_eq_false_2; [reflexivity | | done].
        rewrite not_elem_of_cons. done.
Qed.

Lemma set_NoDup k v d : NoDup (keys d) -> NoDup (keys (set k v d)).
Proof.
  intros Hd. rewrite keys_set. case_bool_decide as Hin; [done|].
  apply NoDup_app. split_and!; [done | | apply NoDup_singleton].
  intros x Hx ->%list_elem_of_singleton. done.
Qed.

Lemma update_NoDup d new : NoDup (keys d) -> NoDup (keys (update d new)).
Proof.
  revert d. unfold update.
  induction new as [|[k v] new IH]; intros d Hd; simpl; [done|].
  apply IH, set_NoDup, Hd.
Qed.

(** What [d.update(new)] holds at a key: the value of [new] where [new]
    has the key, the value of [d] elsewhere. *)
Lemma get_update k d new :
  NoDup (keys new) ->
  get k (update d new) =
  match get k new with
  | Some v => Some v
  | None => get k d
  end.
Proof.
  revert d. unfold update.
  induction new as [|[k0 v0] new IH]; intros d Hnew; simpl; [reflexivity|].
  simpl in Hnew. apply NoDup_cons in Hnew as [Hk0 Hnew].
  rewrite IH by done.
  destruct (String.eqb_spec k k0) as [->|Hne].
  - apply get_None in Hk0. rewrite Hk0. apply get_set_eq.
  - rewrite get_set_ne by done. reflexivity.
Qed.

Lemma keys_update k d new :
  k ∈ keys (update d new) <-> k ∈ keys d \/ k ∈ keys new.
Proof.
  revert d. unfold update.
  induction new as [|[k0 v0] new IH]; intros d; simpl.
  - split; [by left | intros [|Hnil]; [done|]].
    by apply not_elem_of_nil in Hnil.
  - rewrite IH, keys_set, elem_of_cons.
    case_bool_decide as Hin; [|rewrite elem_of_app, list_elem_of_singleton].
    + split; [tauto|]. intros [|[->|]]; tauto.
    + tauto.
Qed.

(** The keys [d] had stay where they were. *)
Lemma keys_update_prefix d new : keys d `prefix_of` keys (update d new).
Proof.
  revert d. unfold update.
  induction new as [|[k0 v0] new IH]; intros d; simpl; [done|].
  etrans; [|apply IH]. rewrite keys_set.
  case_bool_decide; [done | by apply prefix_app_r].
Qed.

End Facts.

End DictFacts.

(** ** The exclusion filters *)

Section Exclusion.
Context {A : Type} `{Metadata A}.

(** An entry of the exclusion list names the resource [res] of kind
    [kind]: same namespace, same name, and the same kind up to case. *)
Definition excludes (kind : string) (res : A) (entry : resource_ref) : bool :=
  String.eqb (r_namespace entry) (namespace res)
  && String.eqb (Str.lower (r_kind entry)) (Str.lower kind)
  && String.eqb (r_name entry) (name res).

Lemma in_exclude_set (kind : string) (res : A) (exclude_list : list resource_ref) :
  bool_decide
    ((namespace res, Str.lower kind, name res)
       ∈ map (fun e => (r_namespace e, Str.lower (r_kind e), r_name e)) exclude_list)
  = existsb (excludes kind res) exclude_list.
Proof.
  induction exclude_list as [|e l IH]; cbn [existsb map].
  - apply bool_decide_eq_false_2, not_elem_of_nil.
  - rewrite <- IH. unfold excludes.
    destruct (String.eqb_spec (r_namespace e) (namespace res)) as [Hns|Hns];
    destruct (String.eqb_spec (Str.lower (r_kind e)) (Str.lower kind)) as [Hk|Hk];
    destruct (String.eqb_spec (r_name e) (name res)) as [Hn|Hn]; cbn [andb orb];
      try (rewrite <- Hns, <- Hk, <- Hn; apply bool_decide_eq_true_2; left);
      apply bool_decide_ext; rewrite elem_of_cons;
      split; try tauto; intros [Heq|Hin]; try tauto;
      exfalso; congruence.
Qed.

End Exclusion.

(** *** Kinds that differ by case only *)

(** A string of ASCII characters. *)
Definition ascii_only (s : string) : Prop :=
  Forall (fun c => (nat_of_ascii c < 128)%nat) (list_ascii_of_string s).

(** The capital letters, A to Z. *)
Definition capital (c : ascii) : bool :=
  (Nat.leb 65 (nat_of_ascii c) && Nat.leb (nat_of_ascii c) 90)%bool.

(** [a] and [b] are the same character, or the capital and the small form
    of one letter: the small letter is 32 places after the capital. *)
Definition same_letter (a b : ascii) : bool :=
  Ascii.eqb a b
  || (capital a && Nat.eqb (nat_of_ascii b) (nat_of_ascii a + 32))
  || (capital b && Nat.eqb (nat_of_ascii a) (nat_of_ascii b + 32)).

(** [s] and [t] are the same string when case is ignored. *)
Fixpoint same_ignoring_case (s t : string) : bool :=
  match s, t with
  | EmptyString, EmptyString => true
  | String a s', String b t' => same_letter a b && same_ignoring_case s' t'
  | _, _ => false
  end.

Lemma nat_of_lower_ascii (c : ascii) :
  nat_of_ascii (Str.lower_ascii c)
  = if capital c then (nat_of_ascii c + 32)%nat else nat_of_ascii c.
Proof.
  unfold Str.lower_ascii, capital.
  destruct (Nat.leb 65 (nat_of_ascii c) && Nat.leb (nat_of_ascii c) 90)%bool eqn:Hc;
    [|reflexivity].
  apply nat_ascii_embedding.
  apply andb_true_iff in Hc as [_ Hc%Nat.leb_le]. lia.
Qed.

Lemma ascii_eqb_nat (a b : ascii) :
  Ascii.eqb a b = Nat.eqb (nat_of_ascii a) (nat_of_ascii b).
Proof.
  destruct (Ascii.eqb_spec a b) as [->|Hne].
  - symmetry. apply Nat.eqb_refl.
  - symmetry. apply Nat.eqb_neq. intros Hsame. apply Hne.
    by rewrite <- (ascii_nat_embedding a), <- (ascii_nat_embedding b), Hsame.
Qed.

(** Two characters have the same lower case exactly when they are the same
    letter. *)
Lemma lower_ascii_same (a b : ascii) :
  Ascii.eqb (Str.lower_ascii a) (Str.lower_ascii b) = same_letter a b.
Proof.
  unfold same_letter. rewrite !ascii_eqb_nat, !nat_of_lower_ascii. unfold capital.
  destruct (Nat.leb_spec 65 (nat_of_ascii a)), (Nat.leb_spec (nat_of_ascii a) 90),
    (Nat.leb_spec 65 (nat_of_ascii b)), (Nat.leb_spec (nat_of_ascii b) 90);
    cbn [andb orb];
    repeat match goal with
      | |- context [Nat.eqb ?x ?y] => destruct (Nat.eqb_spec x y)
      end; cbn [andb orb]; try reflexivity; lia.
Qed.

Lemma lower_same (s t : string) :
  String.eqb (Str.lower s) (Str.lower t) = same_ignoring_case s t.
Proof.
  revert t. induction s as [|a s IH]; intros [|b t]; try reflexivity.
  cbn [Str.lower String.eqb same_ignoring_case].
  rewrite lower_ascii_same, IH. by destruct (same_letter a b).
Qed.

Section ExclusionInWords.
Context {A : Type} `{Metadata A}.

(** An entry of the exclusion list names the resource [res] of kind
    [kind]: the namespace and the name of the entry are those of the
    resource, and its kind is [kind] when case is ignored. *)
Definition names_resource (kind : string) (res : A) (entry : resource_ref) : bool :=
  String.eqb (r_namespace entry) (namespace res)
  && same_ignoring_case (r_kind entry) kind
  && String.eqb (r_name entry) (name res).

Lemma excludes_names_resource (kind : string) (res : A) (entry : resource_ref) :
  excludes kind res entry = names_resource kind res entry.
Proof. unfold excludes, names_resource. by rewrite lower_same. Qed.

End ExclusionInWords.

Lemma in_exclude_names (asg : string) (exclude_list : list string) :
  bool_decide (asg ∈ exclude_list) = existsb (String.eqb asg) exclude_list.
Proof.
  induction exclude_list as [|e l IH]; cbn [existsb].
  - apply bool_decide_eq_false_2, not_elem_of_nil.
  - rewrite <- IH. destruct (String.eqb_spec asg e) as [->|Hne]; cbn [orb].
    + apply bool_decide_eq_true_2. left.
    + apply bool_decide_ext. rewrite elem_of_cons. tauto.
Qed.

Lemma filter_all {A : Type} (l : list A) : List.filter (fun _ => true) l = l.
Proof. induction l as [|x l IH]; simpl; congruence. Qed.

Lemma filter_excluded_k8s_resources_eq {A : Type} `{Metadata A}
    (kind : string) (resources : list A) (exclude_list : option (list resource_ref)) :
  filter_excluded_k8s_resources kind resources exclude_list
  = List.filter (fun res => negb (existsb (excludes kind res) (items_of exclude_list)))
                resources.
Proof.
  unfold filter_excluded_k8s_resources.
  destruct exclude_list as [[|e l]|]; simpl; try (symmetry; apply filter_all).
  apply List.filter_ext. intros res.
  f_equal. apply (in_exclude_set kind res (e :: l)).
Qed.

Lemma filter_excluded_asgs_eq (asg_list : list string) (exclude_asgs : option (list string)) :
  filter_excluded_asgs asg_list exclude_asgs
  = List.filter (fun asg => negb (existsb (String.eqb asg) (items_of exclude_asgs)))
                asg_list.
Proof.
  unfold filter_excluded_asgs.
  destruct exclude_asgs as [[|e l]|]; simpl; try (symmetry; apply filter_all).
  apply List.filter_ext. intros asg.
  f_equal. apply (in_exclude_names asg (e :: l)).
Qed.

(** C7.  Both exclusion filters keep, in the order of the input, exactly the
    items that no entry of the exclusion list names.  A workload is named by
    an entry with its namespace, its name and its kind, the kind compared
    with case ignored; a fleet group by an entry equal to its name.  With no
    exclusion list, or an empty one, the input comes back as it is.  The
    kinds are strings of ASCII characters. *)
Theorem exclusion_filters_correct {A : Type} `{Metadata A}
    (kind : string) (resources : list A) (exclude_list : option (list resource_ref))
    (asg_list : list string) (exclude_asgs : option (list string)) :
  ascii_only kind ->
  Forall (fun entry => ascii_only (r_kind entry)) (items_of exclude_list) ->
  filter_excluded_k8s_resources kind resources exclude_list
    = List.filter (fun res => negb (existsb (names_resource kind res)
                                            (items_of exclude_list)))
                  resources
  /\ filter_excluded_asgs asg_list exclude_asgs
    = List.filter (fun asg => negb (existsb (String.eqb asg) (items_of exclude_asgs)))
                  asg_list
  /\ filter_excluded_k8s_resources kind resources None = resources
  /\ filter_excluded_k8s_resources kind resources (Some []) = resources
  /\ filter_excluded_asgs asg_list None = asg_list
  /\ filter_excluded_asgs asg_list (Some []) = asg_list.
Proof.
  intros _ _. split_and!; try reflexivity.
  - rewrite filter_excluded_k8s_resources_eq. apply List.filter_ext. intros res.
    f_equal. induction (items_of exclude_list) as [|entry entries IH]; [done|].
    cbn [existsb]. by rewrite excludes_names_resource, IH.
  - apply filter_excluded_asgs_eq.
Qed.

(** Three Deployments, and an exclusion list that names the second of them
    with its kind in capitals, and a StatefulSet of the same name. *)
Lemma exclusion_filters_correct_witness :
  filter_excluded_k8s_resources "Deployment"
    [Workload "default" "a" 1; Workload "default" "b" 2; Workload "default" "c" 3]
    (Some [ResourceRef "default" "DEPLOYMENT" "b"; ResourceRef "default" "StatefulSet" "c"])
  = [Workload "default" "a" 1; Workload "default" "c" 3]
  /\ filter_excluded_asgs ["ng-1"; "ng-2"; "ng-3"] (Some ["ng-2"; "NG-3"])
     = ["ng-1"; "ng-3"].
Proof.
  destruct (exclusion_filters_correct "Deployment"
              [Workload "default" "a" 1; Workload "default" "b" 2; Workload "default" "c" 3]
              (Some [ResourceRef "default" "DEPLOYMENT" "b";
                     ResourceRef "default" "StatefulSet" "c"])
              ["ng-1"; "ng-2"; "ng-3"] (Some ["ng-2"; "NG-3"]))
    as (Hworkloads & Hgroups & _).
  - repeat constructor; vm_compute; lia.
  - repeat constructor; vm_compute; lia.
  - rewrite Hworkloads, Hgroups. split; reflexivity.
Defined.

(** ** The parameter store *)

(** The dictionary a parameter holds, a missing parameter counting as the
    empty dictionary.  A parameter that holds another kind of JSON value
    holds no dictionary. *)
Definition stored_object (w : World) (parameter_name : string) : option (Dict.t json) :=
  match ssm w !! parameter_name with
  | None => Some []
  | Some (JObj fields) => Some fields
  | Some _ => None
  end.

Lemma update_ssm_parameter_run (parameter_name : string) (E N : Dict.t json) (w : World) :
  stored_object w parameter_name = Some E ->
  update_ssm_parameter parameter_name N w =
  (Ok tt,
   set_ssm <[parameter_name := JObj (Dict.update E N)]>
     (set_calls (fun past => PutParameter parameter_name (JObj (Dict.update E N))
                               :: GetParameter parameter_name :: past) w)).
Proof.
  unfold stored_object, update_ssm_parameter, try_except_ParameterNotFound.
  intros HE. rewrite bind_run. unfold Client.get_parameter.
  rewrite bind_run. simpl. rewrite bind_run. simpl.
  destruct (ssm w !! parameter_name) as [[]|]; simplify_eq; reflexivity.
Qed.

(** C1.  When the parameter holds the dictionary [E] (or is missing, and [E]
    is empty), [update_ssm_parameter] with the accumulator [N] returns
    normally and leaves in the parameter the dictionary [E.update(N)]: at a
    key of [N] the value of [N], at any other key the value of [E], and no
    key that is in neither.  The other parameters are not touched.  This
    needs nothing of [N] but to be a dictionary, a key occurring once. *)
Theorem update_ssm_parameter_merges
    (parameter_name : string) (E N : Dict.t json) (w : World) :
  stored_object w parameter_name = Some E ->
  NoDup (Dict.keys N) ->
  exists (w' : World) (merged : Dict.t json),
    update_ssm_parameter parameter_name N w = (Ok tt, w')
    /\ ssm w' = <[parameter_name := JObj merged]> (ssm w)
    /\ (forall k, Dict.get k merged =
                  match Dict.get k N with
                  | Some v => Some v
                  | None => Dict.get k E
                  end)
    /\ (forall k, k ∈ Dict.keys merged <-> k ∈ Dict.keys E \/ k ∈ Dict.keys N).
Proof.
  intros HE HN. eexists _, (Dict.update E N). split_and!.
  - apply update_ssm_parameter_run, HE.
  - reflexivity.
  - intros k. apply DictFacts.get_update, HN.
  - intros k. apply DictFacts.keys_update.
Qed.

(** The example of the specification: [{"deployment/ns/a": 3}] is stored,
    [{"deployment/ns/b": 2}] is captured. *)
Lemma update_ssm_parameter_merges_witness :
  exists (w' : World) (merged : Dict.t json),
    update_ssm_parameter K8S_AWS_SSM_PARAMETER_NAME [("deployment/ns/b", JNum 2)]
      (MkWorld {[K8S_AWS_SSM_PARAMETER_NAME := JObj [("deployment/ns/a", JNum 3)]]}
               ∅ ∅ ∅ ∅ [])
    = (Ok tt, w')
    /\ ssm w' = <[K8S_AWS_SSM_PARAMETER_NAME := JObj merged]>
                  {[K8S_AWS_SSM_PARAMETER_NAME := JObj [("deployment/ns/a", JNum 3)]]}
    /\ (forall k, Dict.get k merged =
                  match Dict.get k [("deployment/ns/b", JNum 2)] with
                  | Some v => Some v
                  | None => Dict.get k [("deployment/ns/a", JNum 3)]
                  end)
    /\ (forall k, k ∈ Dict.keys merged <->
                  k ∈ Dict.keys [("deployment/ns/a", JNum 3)]
                  \/ k ∈ Dict.keys [("deployment/ns/b", JNum 2)]).
Proof.
  apply (update_ssm_parameter_merges K8S_AWS_SSM_PARAMETER_NAME
           [("deployment/ns/a", JNum 3)] [("deployment/ns/b", JNum 2)]).
  - reflexivity.
  - apply NoDup_singleton.
Defined.

(** ** What a computation leaves alone *)

(** [preserves R m]: whatever the world [w], and whether [m] returns or
    raises, the world [m] leaves is related to [w] by [R]. *)
Definition preserves {A : Type} (R : World -> World -> Prop) (m : M A) : Prop :=
  forall w, R w (m w).2.

Section Preserves.
Context (R : relation World) `{!PreOrder R}.

Lemma preserves_ret {A : Type} (a : A) : preserves R (mret a).
Proof. intros w. reflexivity. Qed.

Lemma preserves_raise {A : Type} (e : exn) : preserves R (@raise A e).
Proof. intros w. reflexivity. Qed.

Lemma preserves_gets {A : Type} (f : World -> A) : preserves R (gets f).
Proof. intros w. reflexivity. Qed.

Lemma preserves_bind {A B : Type} (m : M A) (f : A -> M B) :
  preserves R m -> (forall a, preserves R (f a)) -> preserves R (m ≫= f).
Proof.
  intros Hm Hf w. rewrite bind_run. specialize (Hm w).
  destruct (m w) as [[a|e] w1]; simpl in *; [|done].
  etrans; [exact Hm | apply Hf].
Qed.

Lemma preserves_try {A : Type} (body handler : M A) :
  preserves R body -> preserves R handler ->
  preserves R (try_except_ParameterNotFound body handler).
Proof.
  intros Hb Hh w. unfold try_except_ParameterNotFound. specialize (Hb w).
  destruct (body w) as [[a|[]] w1]; simpl in *; try done.
  etrans; [exact Hb | apply Hh].
Qed.

Lemma preserves_for_each {A : Type} (body : A -> M unit) (l : list A) :
  (forall x, preserves R (body x)) -> preserves R (for_each body l).
Proof.
  intros Hbody. induction l as [|x l IH]; simpl.
  - apply preserves_ret.
  - apply preserves_bind; [apply Hbody | intros _; apply IH].
Qed.

Lemma preserves_for_fold {A S : Type} (body : S -> A -> M S) (l : list A) (s : S) :
  (forall s x, preserves R (body s x)) -> preserves R (for_fold body l s).
Proof.
  intros Hbody. revert s. induction l as [|x l IH]; intros s; simpl.
  - apply preserves_ret.
  - apply preserves_bind; [apply Hbody | apply IH].
Qed.

Lemma preserves_for_list {A B : Type} (f : A -> M B) (l : list A) :
  (forall x, preserves R (f x)) -> preserves R (for_list f l).
Proof.
  intros Hf. induction l as [|x l IH]; simpl.
  - apply preserves_ret.
  - apply preserves_bind; [apply Hf | intros y].
    apply preserves_bind; [apply IH | intros ys; apply preserves_ret].
Qed.

End Preserves.

(** Takes a computation of the script apart down to the calls of the
    clients, which [client] has to settle. *)
Ltac preserves_with client :=
  repeat match goal with
    | |- preserves ?R (mret _) => apply (preserves_ret R)
    | |- preserves ?R (raise _) => apply (preserves_raise R)
    | |- preserves ?R (gets _) => apply (preserves_gets R)
    | |- preserves ?R (try_except_ParameterNotFound _ _) => apply (preserves_try R)
    | |- preserves ?R (for_each _ _) => apply (preserves_for_each R); intros ?
    | |- preserves ?R (for_fold _ _ _) => apply (preserves_for_fold R); intros ? ?
    | |- preserves ?R (for_list _ _) => apply (preserves_for_list R); intros ?
    | |- preserves ?R (_ ≫= _) => apply (preserves_bind R); [| intros ?]
    | |- preserves _ (match ?x with _ => _ end) => destruct x
    | |- preserves _ _ => client
    end.

(** *** Parts of the world a computation does not touch *)

(** Since [w], the part [field] of the world has not changed and no call
    in [forbidden] was made. *)
Definition untouched {X : Type} (field : World -> X) (forbidden : call -> Prop)
    : relation World := fun w w' =>
  field w' = field w
  /\ exists new, calls w' = new ++ calls w /\ Forall (fun c => ~ forbidden c) new.

#[export] Instance untouched_preorder {X : Type} (field : World -> X)
    (forbidden : call -> Prop) : PreOrder (untouched field forbidden).
Proof.
  split.
  - intros w. split; [done|]. exists []. by split.
  - intros w1 w2 w3 [Hs1 (n1 & Hc1 & Hn1)] [Hs2 (n2 & Hc2 & Hn2)].
    split; [congruence|]. exists (n2 ++ n1). split.
    + rewrite Hc2, Hc1. apply (assoc_L (++)).
    + by apply Forall_app.
Qed.

Lemma untouched_log {X : Type} (field : World -> X) (forbidden : call -> Prop)
    (c : call) :
  (forall w f, field (set_calls f w) = field w) ->
  ~ forbidden c -> preserves (untouched field forbidden) (log c).
Proof.
  intros Hf Hc w. split; [apply Hf|]. exists [c]. split; [done|].
  by apply Forall_singleton.
Qed.

Lemma untouched_modify {X : Type} (field : World -> X) (forbidden : call -> Prop)
    (f : World -> World) :
  (forall w, field (f w) = field w) -> (forall w, calls (f w) = calls w) ->
  preserves (untouched field forbidden) (modify f).
Proof.
  intros Hs Hc w. split; [apply Hs|]. exists []. split; [apply Hc | done].
Qed.

Ltac untouched_client :=
  first [ apply untouched_log; [intros ? ?; reflexivity | simpl; tauto]
        | apply untouched_modify; intros ?; reflexivity ].

Ltac unfold_script :=
  unfold scale_up, ScaleUp.aws, ScaleUp.k8s, ScaleUp.resume,
    ScaleUp.asg_step, ScaleUp.k8s_step, ScaleUp.cronjob_step,
    subscript, dict_items, unpack3,
    Client.get_parameter, Client.list_cron_job_for_all_namespaces,
    Client.update_auto_scaling_group,
    Client.read_namespaced_deployment, Client.patch_namespaced_deployment,
    Client.read_namespaced_stateful_set, Client.patch_namespaced_stateful_set,
    Client.patch_namespaced_cron_job.

(** *** The parameter store under [scale_up] *)

Definition is_put (c : call) : Prop :=
  match c with
  | PutParameter _ _ => True
  | _ => False
  end.

Lemma scale_up_store_untouched : preserves (untouched ssm is_put) scale_up.
Proof. unfold_script. preserves_with untouched_client. Qed.

(** C9.  [scale_up] never writes to the parameter store.  Whatever the two
    parameters hold, and whether the run completes or an exception ends it,
    the store after the run is the store before it, and the run has made no
    [put_parameter] call: what was captured is still there after the
    restore. *)
Theorem scale_up_never_writes_store (w : World) :
  ssm (scale_up w).2 = ssm w
  /\ exists new : list call,
       calls (scale_up w).2 = new ++ calls w
       /\ forall parameter_name value, PutParameter parameter_name value ∉ new.
Proof.
  destruct (scale_up_store_untouched w) as [Hssm (new & Hcalls & Hnew)].
  split; [exact Hssm|]. exists new. split; [exact Hcalls|].
  intros parameter_name value Hin.
  rewrite Forall_forall in Hnew. apply (Hnew _ Hin). exact I.
Qed.

(** ** Keys *)

Module StrFacts.
Import Str.

Lemma split_free (sep : ascii) (s : string) :
  free_of sep s = true -> split sep s = [s].
Proof.
  induction s as [|c s IH]; simpl; [reflexivity|].
  destruct (Ascii.eqb c sep); simpl; [discriminate|].
  intros Hs. rewrite (IH Hs). reflexivity.
Qed.

Lemma split_app (sep : ascii) (a b : string) :
  free_of sep a = true -> split sep (a +:+ String sep b) = a :: split sep b.
Proof.
  induction a as [|c a IH]; simpl.
  - rewrite Ascii.eqb_refl. reflexivity.
  - destruct (Ascii.eqb c sep); simpl; [discriminate|].
    intros Ha. rewrite (IH Ha). reflexivity.
Qed.

(** [f"{kind}/{namespace}/{name}".split("/")] gives the three parts back
    when none of them holds a slash. *)
Lemma split_key (kind namespace name : string) :
  free_of "/" kind = true -> free_of "/" namespace = true -> free_of "/" name = true ->
  split "/" (kind +:+ "/" +:+ namespace +:+ "/" +:+ name) = [kind; namespace; name].
Proof.
  intros Hkind Hns Hname.
  change ("/" +:+ namespace +:+ "/" +:+ name)
    with (String "/" (namespace +:+ String "/" name)).
  rewrite (split_app _ _ _ Hkind), (split_app _ _ _ Hns), (split_free _ _ Hname).
  reflexivity.
Qed.

End StrFacts.

(** ** Which exceptions a computation raises *)

Definition raises_only {A : Type} (P : exn -> Prop) (m : M A) : Prop :=
  forall w e w', m w = (Raise e, w') -> P e.

Section RaisesOnly.
Context (P : exn -> Prop).

Lemma raises_only_ret {A : Type} (a : A) : raises_only P (mret a).
Proof. intros w e w' Hm. discriminate Hm. Qed.

Lemma raises_only_gets {A : Type} (f : World -> A) : raises_only P (gets f).
Proof. intros w e w' Hm. discriminate Hm. Qed.

Lemma raises_only_modify (f : World -> World) : raises_only P (modify f).
Proof. intros w e w' Hm. discriminate Hm. Qed.

Lemma raises_only_log (c : call) : raises_only P (log c).
Proof. apply raises_only_modify. Qed.

Lemma raises_only_raise {A : Type} (e : exn) : P e -> raises_only P (@raise A e).
Proof. intros He w e' w' Hm. injection Hm as <- _. exact He. Qed.

Lemma raises_only_bind {A B : Type} (m : M A) (f : A -> M B) :
  raises_only P m -> (forall a, raises_only P (f a)) -> raises_only P (m ≫= f).
Proof.
  intros Hm Hf w e w'. rewrite bind_run.
  destruct (m w) as [[a|e1] w1] eqn:Hrun.
  - apply Hf.
  - intros [= <- _]. eapply Hm, Hrun.
Qed.

Lemma raises_only_for_each {A : Type} (body : A -> M unit) (l : list A) :
  (forall x, raises_only P (body x)) -> raises_only P (for_each body l).
Proof.
  intros Hbody. induction l as [|x l IH]; simpl.
  - apply raises_only_ret.
  - apply raises_only_bind; [apply Hbody | intros _; apply IH].
Qed.

End RaisesOnly.

Ltac raises_only_tac :=
  repeat match goal with
    | |- raises_only _ (mret _) => apply raises_only_ret
    | |- raises_only _ (gets _) => apply raises_only_gets
    | |- raises_only _ (modify _) => apply raises_only_modify
    | |- raises_only _ (log _) => apply raises_only_log
    | |- raises_only _ (raise _) => apply raises_only_raise; simpl; tauto
    | |- raises_only _ (for_each _ _) => apply raises_only_for_each; intros ?
    | |- raises_only _ (_ ≫= _) => apply raises_only_bind; [| intros ?]
    | |- raises_only _ (match ?x with _ => _ end) => destruct x
    end.

(** The loops of [scale_up] raise what the clients and the unpacking of a
    key or of a stored capacity raise, and never [ParameterNotFound]. *)
Definition restore_exn (e : exn) : Prop :=
  match e with
  | ParameterNotFound => False
  | _ => True
  end.

Lemma k8s_step_raises (entry : string * json) :
  raises_only restore_exn (ScaleUp.k8s_step entry).
Proof. unfold_script. raises_only_tac. Qed.

Lemma asg_step_raises (entry : string * json) :
  raises_only restore_exn (ScaleUp.asg_step entry).
Proof. unfold_script. raises_only_tac. Qed.

(** ** [scale_up] and the keys of the stored workloads *)

(** C10.  A stored key with three parts whose first part is neither
    "deployment" nor "statefulset" is passed over: its step returns
    normally and leaves the world as it was, the log of calls included, so
    no object is read or patched for it; and the loop over the stored keys
    does what it does on the keys without this one. *)
Theorem unknown_kind_is_skipped
    (key kind namespace name : string) (replicas : json)
    (before after : list (string * json)) (w : World) :
  Str.split "/" key = [kind; namespace; name] ->
  kind <> "deployment" ->
  kind <> "statefulset" ->
  ScaleUp.k8s_step (key, replicas) w = (Ok tt, w)
  /\ for_each ScaleUp.k8s_step (before ++ (key, replicas) :: after) w
     = for_each ScaleUp.k8s_step (before ++ after) w.
Proof.
  intros Hsplit Hd Hs.
  assert (Hstep : forall w0, ScaleUp.k8s_step (key, replicas) w0 = (Ok tt, w0)).
  { intros w0. unfold ScaleUp.k8s_step. rewrite Hsplit. simpl. rewrite bind_run. simpl.
    destruct (String.eqb_spec kind "deployment"); [done|].
    destruct (String.eqb_spec kind "statefulset"); [done|]. reflexivity. }
  split; [apply Hstep|].
  rewrite !for_each_app, !bind_run.
  destruct (for_each ScaleUp.k8s_step before w) as [[[]|e] w1]; [|reflexivity].
  cbn [for_each]. rewrite bind_run, Hstep. reflexivity.
Qed.

(** A key a CronJob would have, had CronJobs been captured. *)
Lemma unknown_kind_is_skipped_witness :
  ScaleUp.k8s_step ("cronjob/default/nightly", JNum 1)
    (MkWorld ∅ {[("default", "web") := 0]} ∅ {[("default", "nightly") := true]} ∅ [])
  = (Ok tt,
     MkWorld ∅ {[("default", "web") := 0]} ∅ {[("default", "nightly") := true]} ∅ [])
  /\ for_each ScaleUp.k8s_step
       ([] ++ ("cronjob/default/nightly", JNum 1) :: [("deployment/default/web", JNum 5)])
       (MkWorld ∅ {[("default", "web") := 0]} ∅ {[("default", "nightly") := true]} ∅ [])
     = for_each ScaleUp.k8s_step ([] ++ [("deployment/default/web", JNum 5)])
         (MkWorld ∅ {[("default", "web") := 0]} ∅ {[("default", "nightly") := true]} ∅ []).
Proof.
  apply (unknown_kind_is_skipped _ "cronjob" "default" "nightly").
  - reflexivity.
  - discriminate.
  - discriminate.
Defined.

(** *** The CronJobs under the two restore passes *)

Definition is_cronjob_patch (c : call) : Prop :=
  match c with
  | PatchCronJob _ _ _ => True
  | _ => False
  end.

Lemma bind_assoc {A B C : Type} (m : M A) (f : A -> M B) (g : B -> M C) (w : World) :
  ((m ≫= f) ≫= g) w = (m ≫= fun a => f a ≫= g) w.
Proof. rewrite !bind_run. destruct (m w) as [[a|e] w1]; reflexivity. Qed.

Lemma restore_passes_leave_cronjobs :
  preserves (untouched cronjobs is_cronjob_patch) (ScaleUp.aws ;; ScaleUp.k8s).
Proof. unfold_script. preserves_with untouched_client. Qed.

Lemma aws_pass_leaves_store : preserves (untouched ssm is_put) ScaleUp.aws.
Proof. unfold_script. preserves_with untouched_client. Qed.

(** The unpacking of a key that has not three parts. *)
Lemma k8s_step_malformed (key : string) (replicas : json) (w : World) :
  length (Str.split "/" key) <> 3%nat ->
  ScaleUp.k8s_step (key, replicas) w = (Raise ValueError, w).
Proof.
  intros Hlen. unfold ScaleUp.k8s_step.
  destruct (Str.split "/" key) as [|a [|b [|c [|d l]]]]; simpl in Hlen; done.
Qed.

Lemma k8s_loop_malformed (key : string) (replicas : json)
    (before after : list (string * json)) (w : World) :
  length (Str.split "/" key) <> 3%nat ->
  for_each ScaleUp.k8s_step (before ++ (key, replicas) :: after) w
  = (for_each ScaleUp.k8s_step before ;; raise ValueError) w.
Proof.
  intros Hlen. rewrite for_each_app, !bind_run.
  destruct (for_each ScaleUp.k8s_step before w) as [[[]|e] w1]; [|reflexivity].
  cbn [for_each]. rewrite bind_run, k8s_step_malformed by done. reflexivity.
Qed.

Lemma k8s_pass_malformed (key : string) (replicas : json)
    (before after : list (string * json)) (w : World) :
  length (Str.split "/" key) <> 3%nat ->
  ssm w !! K8S_AWS_SSM_PARAMETER_NAME = Some (JObj (before ++ (key, replicas) :: after)) ->
  exists e w', ScaleUp.k8s w = (Raise e, w').
Proof.
  intros Hlen Hstored.
  unfold ScaleUp.k8s, try_except_ParameterNotFound, Client.get_parameter.
  rewrite !bind_run. simpl. rewrite !bind_run. simpl. rewrite Hstored. simpl.
  rewrite bind_run. simpl. rewrite k8s_loop_malformed by done.
  rewrite bind_run.
  destruct (for_each ScaleUp.k8s_step before _) as [[[]|e] w1] eqn:Hbefore.
  - eexists _, _. reflexivity.
  - apply (raises_only_for_each restore_exn) in Hbefore; [|apply k8s_step_raises].
    destruct e; try done; eexists _, _; reflexivity.
Qed.

(** C4, as the code has it.  A stored key that does not split into three
    parts is not passed over.  The keys before it are restored as usual;
    at the key the unpacking raises [ValueError], which nothing handles, so
    the loop stops there and [scale_up] ends with an exception: no key
    after it is restored and the CronJobs are not resumed. *)
Theorem malformed_key_aborts_scale_up
    (key : string) (replicas : json) (before after : list (string * json)) (w : World) :
  length (Str.split "/" key) <> 3%nat ->
  ssm w !! K8S_AWS_SSM_PARAMETER_NAME = Some (JObj (before ++ (key, replicas) :: after)) ->
  (forall w0,
     for_each ScaleUp.k8s_step (before ++ (key, replicas) :: after) w0
     = (for_each ScaleUp.k8s_step before ;; raise ValueError) w0)
  /\ exists (e : exn) (w' : World) (new : list call),
       scale_up w = (Raise e, w')
       /\ cronjobs w' = cronjobs w
       /\ calls w' = new ++ calls w
       /\ forall namespace name suspend, PatchCronJob namespace name suspend ∉ new.
Proof.
  intros Hlen Hstored. split.
  { intros w0. by apply k8s_loop_malformed. }
  assert (Hpre : exists e w', (ScaleUp.aws ;; ScaleUp.k8s) w = (Raise e, w')).
  { rewrite bind_run. pose proof (aws_pass_leaves_store w) as [Hssm _].
    destruct (ScaleUp.aws w) as [[[]|e1] w1]; [|by eexists _, _].
    simpl in Hssm. apply (k8s_pass_malformed key replicas before after); [done|].
    rewrite Hssm. exact Hstored. }
  destruct Hpre as (e & w' & Hpre).
  destruct (restore_passes_leave_cronjobs w) as [Hcron (new & Hcalls & Hnew)].
  rewrite Hpre in Hcron, Hcalls. simpl in Hcron, Hcalls.
  exists e, w', new. split_and!; [|done|done|].
  - unfold scale_up.
    change ((ScaleUp.aws ≫= fun _ => ScaleUp.k8s ≫= fun _ => ScaleUp.resume) w
            = (Raise e, w')).
    rewrite <- bind_assoc. apply bind_raise, Hpre.
  - intros namespace name suspend Hin. rewrite Forall_forall in Hnew.
    apply (Hnew _ Hin). exact I.
Qed.

(** A store that holds a key of one part before the key of a Deployment
    that [scale_down] has set to zero. *)
Definition malformed_example : World :=
  MkWorld
    {[K8S_AWS_SSM_PARAMETER_NAME :=
        JObj [("bad", JNum 1); ("deployment/default/web", JNum 5)]]}
    {[("default", "web") := 0]} ∅ {[("default", "nightly") := true]} ∅ [].

Lemma malformed_key_aborts_scale_up_witness :
  (forall w0,
     for_each ScaleUp.k8s_step ([] ++ ("bad", JNum 1) :: [("deployment/default/web", JNum 5)]) w0
     = (for_each ScaleUp.k8s_step [] ;; raise ValueError) w0)
  /\ exists (e : exn) (w' : World) (new : list call),
       scale_up malformed_example = (Raise e, w')
       /\ cronjobs w' = cronjobs malformed_example
       /\ calls w' = new ++ calls malformed_example
       /\ forall namespace name suspend, PatchCronJob namespace name suspend ∉ new.
Proof.
  apply (malformed_key_aborts_scale_up "bad" (JNum 1) [] [("deployment/default/web", JNum 5)]
           malformed_example).
  - vm_compute. discriminate.
  - reflexivity.
Defined.

(** On [malformed_example] the key "bad" is not logged and skipped:
    [scale_up] ends with [ValueError] after its two reads of the store, the
    Deployment behind it is still at zero and the CronJob still suspended. *)
Lemma malformed_key_is_not_skipped :
  (scale_up malformed_example).1 = Raise ValueError
  /\ calls (scale_up malformed_example).2
     = [GetParameter K8S_AWS_SSM_PARAMETER_NAME; GetParameter ASG_AWS_SSM_PARAMETER_NAME]
  /\ deployments (scale_up malformed_example).2 !! ("default", "web") = Some 0
  /\ cronjobs (scale_up malformed_example).2 !! ("default", "nightly") = Some true
  /\ deployments
       (for_each ScaleUp.k8s_step [("deployment/default/web", JNum 5)] malformed_example).2
       !! ("default", "web") = Some 5.
Proof. vm_compute. repeat split. Qed.

(** ** Patching CronJobs *)

(** [scale_down] and [scale_up] run the same loop over CronJob objects,
    one with [suspend = True], the other with [suspend = False]. *)

Definition cronjob_key (cj : cronjob) : string * string := (c_namespace cj, c_name cj).

Definition cronjob_patch_call (suspend : bool) (cj : cronjob) : call :=
  PatchCronJob (c_namespace cj) (c_name cj) suspend.

(** The world after one accepted patch. *)
Definition patched_cronjob (suspend : bool) (w : World) (cj : cronjob) : World :=
  set_cronjobs <[cronjob_key cj := suspend]>
    (set_calls (cons (cronjob_patch_call suspend cj)) w).

Lemma patch_cron_job_run (suspend : bool) (cj : cronjob) (w : World) :
  is_Some (cronjobs w !! cronjob_key cj) ->
  Client.patch_namespaced_cron_job (c_name cj) (c_namespace cj) suspend w
  = (Ok tt, patched_cronjob suspend w cj).
Proof.
  intros [live Hlive]. unfold Client.patch_namespaced_cron_job, cronjob_key in *.
  run. rewrite Hlive. reflexivity.
Qed.

Section PatchedCronjobs.
Context (suspend : bool).
Implicit Types (l : list cronjob) (w : World).

Lemma patched_cronjobs_ssm l w : ssm (fold_left (patched_cronjob suspend) l w) = ssm w.
Proof. revert w. induction l as [|cj l IH]; intros w; simpl; [done|]. by rewrite IH. Qed.

Lemma patched_cronjobs_deployments l w :
  deployments (fold_left (patched_cronjob suspend) l w) = deployments w.
Proof. revert w. induction l as [|cj l IH]; intros w; simpl; [done|]. by rewrite IH. Qed.

Lemma patched_cronjobs_statefulsets l w :
  statefulsets (fold_left (patched_cronjob suspend) l w) = statefulsets w.
Proof. revert w. induction l as [|cj l IH]; intros w; simpl; [done|]. by rewrite IH. Qed.

Lemma patched_cronjobs_asgs l w : asgs (fold_left (patched_cronjob suspend) l w) = asgs w.
Proof. revert w. induction l as [|cj l IH]; intros w; simpl; [done|]. by rewrite IH. Qed.

Lemma patched_cronjobs_calls l w :
  calls (fold_left (patched_cronjob suspend) l w)
  = rev (map (cronjob_patch_call suspend) l) ++ calls w.
Proof.
  revert w. induction l as [|cj l IH]; intros w; simpl; [done|].
  rewrite IH. simpl. by rewrite <- (assoc_L (++)).
Qed.

Lemma patched_cronjobs_lookup l w (k : string * string) :
  cronjobs (fold_left (patched_cronjob suspend) l w) !! k
  = if bool_decide (k ∈ map cronjob_key l) then Some suspend else cronjobs w !! k.
Proof.
  revert w. induction l as [|cj l IH]; intros w; cbn [fold_left map].
  - rewrite bool_decide_eq_false_2; [done | apply not_elem_of_nil].
  - rewrite IH.
    change (cronjobs (patched_cronjob suspend w cj))
      with (<[cronjob_key cj := suspend]> (cronjobs w)).
    destruct (decide (k ∈ map cronjob_key l)) as [Hin|Hin].
    + rewrite !bool_decide_eq_true_2; [done | by right | done].
    + rewrite (bool_decide_eq_false_2 _ Hin).
      destruct (decide (k = cronjob_key cj)) as [->|Hne].
      * rewrite lookup_insert_eq, bool_decide_eq_true_2; [done | left].
      * rewrite lookup_insert_ne by done.
        rewrite bool_decide_eq_false_2; [done|]. rewrite not_elem_of_cons. done.
Qed.

(** The loop returns normally when the objects it is given exist. *)
Lemma patch_cron_jobs_run l w :
  Forall (fun cj => is_Some (cronjobs w !! cronjob_key cj)) l ->
  for_each (fun cj => Client.patch_namespaced_cron_job (c_name cj) (c_namespace cj) suspend)
           l w
  = (Ok tt, fold_left (patched_cronjob suspend) l w).
Proof.
  revert w. induction l as [|cj l IH]; intros w Hl; simpl; [done|].
  apply Forall_cons in Hl as [Hcj Hl].
  rewrite bind_run, patch_cron_job_run by done. apply IH.
  eapply Forall_impl; [exact Hl|]. intros cj' [live Hlive]. simpl.
  destruct (decide (cronjob_key cj = cronjob_key cj')) as [->|Hne].
  - rewrite lookup_insert_eq. by eexists.
  - rewrite lookup_insert_ne by done. by eexists.
Qed.

End PatchedCronjobs.

(** The objects a list call returns are the objects that exist. *)
Lemma cronjobs_of_key (m : gmap (string * string) bool) (k : string * string) :
  k ∈ map cronjob_key (Client.cronjobs_of m) <-> is_Some (m !! k).
Proof.
  unfold Client.cronjobs_of. rewrite list_elem_of_fmap. split.
  - intros (cj & -> & Hcj). apply list_elem_of_fmap in Hcj as ([k' b] & -> & Hkv).
    apply elem_of_map_to_list in Hkv. destruct k'. by eexists.
  - intros [b Hb]. exists (CronJob k.1 k.2 b). split; [by destruct k|].
    apply list_elem_of_fmap. exists (k, b). split; [done|].
    by apply elem_of_map_to_list.
Qed.

Lemma cronjobs_of_exist (m : gmap (string * string) bool) :
  Forall (fun cj => is_Some (m !! cronjob_key cj)) (Client.cronjobs_of m).
Proof.
  apply Forall_forall. intros cj Hcj. apply cronjobs_of_key.
  apply list_elem_of_fmap. by exists cj.
Qed.

(** The resume pass of [scale_up] always returns, and this is what it
    leaves. *)
Lemma resume_run (w : World) :
  ScaleUp.resume w
  = (Ok tt,
     fold_left (patched_cronjob false) (Client.cronjobs_of (cronjobs w))
       (set_calls (cons ListCronJobs) w)).
Proof.
  unfold ScaleUp.resume, Client.list_cron_job_for_all_namespaces.
  rewrite !bind_run. simpl.
  apply (patch_cron_jobs_run false). apply cronjobs_of_exist.
Qed.

Lemma resume_cronjobs (w : World) (k : string * string) :
  cronjobs (ScaleUp.resume w).2 !! k = (fun _ => false) <$> cronjobs w !! k.
Proof.
  rewrite resume_run. simpl. rewrite patched_cronjobs_lookup. simpl.
  case_bool_decide as Hk.
  - apply cronjobs_of_key in Hk as [b ->]. reflexivity.
  - destruct (cronjobs w !! k) as [b|] eqn:Hb; [|done].
    exfalso. apply Hk, cronjobs_of_key. by eexists.
Qed.

(** ** [scale_up] with nothing stored *)

Lemma aws_pass_nothing_stored (w : World) :
  ssm w !! ASG_AWS_SSM_PARAMETER_NAME = None ->
  ScaleUp.aws w = (Ok tt, set_calls (cons (GetParameter ASG_AWS_SSM_PARAMETER_NAME)) w).
Proof.
  intros Hnone. unfold ScaleUp.aws, try_except_ParameterNotFound, Client.get_parameter.
  run. rewrite Hnone. reflexivity.
Qed.

Lemma k8s_pass_nothing_stored (w : World) :
  ssm w !! K8S_AWS_SSM_PARAMETER_NAME = None ->
  ScaleUp.k8s w = (Ok tt, set_calls (cons (GetParameter K8S_AWS_SSM_PARAMETER_NAME)) w).
Proof.
  intros Hnone. unfold ScaleUp.k8s, try_except_ParameterNotFound, Client.get_parameter.
  run. rewrite Hnone. reflexivity.
Qed.

(** C5.  When neither parameter exists, the scale-up action returns
    normally and the process exits with status 0.  The calls of the run are
    the two reads of the store, the listing of the CronJobs and one patch
    for each CronJob listed: no Deployment or StatefulSet is read or
    patched and no group is updated.  Deployments, StatefulSets, groups and
    the store are as they were; every CronJob is resumed. *)
Theorem scale_up_with_nothing_stored (args : arguments) (w : World) :
  arg_action args = scale_up_action ->
  ssm w !! ASG_AWS_SSM_PARAMETER_NAME = None ->
  ssm w !! K8S_AWS_SSM_PARAMETER_NAME = None ->
  exists w' : World,
    main args w = (Ok tt, w')
    /\ exit_status (main args w).1 = 0
    /\ calls w'
       = rev (map (cronjob_patch_call false) (Client.cronjobs_of (cronjobs w)))
         ++ [ListCronJobs;
             GetParameter K8S_AWS_SSM_PARAMETER_NAME;
             GetParameter ASG_AWS_SSM_PARAMETER_NAME]
         ++ calls w
    /\ deployments w' = deployments w
    /\ statefulsets w' = statefulsets w
    /\ asgs w' = asgs w
    /\ ssm w' = ssm w
    /\ forall k, cronjobs w' !! k = (fun _ => false) <$> cronjobs w !! k.
Proof.
  intros Haction Hasg Hk8s.
  assert (Hrun : main args w
                 = ScaleUp.resume
                     (set_calls (cons (GetParameter K8S_AWS_SSM_PARAMETER_NAME))
                        (set_calls (cons (GetParameter ASG_AWS_SSM_PARAMETER_NAME)) w))).
  { unfold main, scale_up. rewrite Haction.
    rewrite bind_run, aws_pass_nothing_stored by done.
    rewrite bind_run, k8s_pass_nothing_stored by done. reflexivity. }
  rewrite Hrun, resume_run. eexists. split_and!; try reflexivity.
  - rewrite patched_cronjobs_calls. reflexivity.
  - rewrite patched_cronjobs_deployments. reflexivity.
  - rewrite patched_cronjobs_statefulsets. reflexivity.
  - rewrite patched_cronjobs_asgs. reflexivity.
  - rewrite patched_cronjobs_ssm. reflexivity.
  - intros k. pose proof (resume_cronjobs
      (set_calls (cons (GetParameter K8S_AWS_SSM_PARAMETER_NAME))
         (set_calls (cons (GetParameter ASG_AWS_SSM_PARAMETER_NAME)) w)) k) as Hk.
    rewrite resume_run in Hk. exact Hk.
Qed.

(** A cluster that was never scaled down: a Deployment, a group, a
    suspended CronJob and a running one, and an empty store. *)
Definition fresh_example : World :=
  MkWorld ∅
    {[("default", "web") := 5]} ∅
    (<[("default", "nightly") := true]> {[("ops", "report") := false]})
    {[ "ng-1" := Asg 1 2 3 ]} [].

Lemma scale_up_with_nothing_stored_witness :
  exists w' : World,
    main (Arguments scale_up_action None None None None) fresh_example = (Ok tt, w')
    /\ exit_status (main (Arguments scale_up_action None None None None) fresh_example).1 = 0
    /\ calls w'
       = rev (map (cronjob_patch_call false) (Client.cronjobs_of (cronjobs fresh_example)))
         ++ [ListCronJobs;
             GetParameter K8S_AWS_SSM_PARAMETER_NAME;
             GetParameter ASG_AWS_SSM_PARAMETER_NAME]
         ++ calls fresh_example
    /\ deployments w' = deployments fresh_example
    /\ statefulsets w' = statefulsets fresh_example
    /\ asgs w' = asgs fresh_example
    /\ ssm w' = ssm fresh_example
    /\ forall k, cronjobs w' !! k = (fun _ => false) <$> cronjobs fresh_example !! k.
Proof.
  apply (scale_up_with_nothing_stored
           (Arguments scale_up_action None None None None) fresh_example).
  - reflexivity.
  - reflexivity.
  - reflexivity.
Defined.

(** ** [scale_up] and the CronJobs *)

(** C6.  A run of [scale_up] that completes has patched every CronJob
    that exists, with [suspend = False], and every CronJob is resumed after
    it: whatever its [suspend] was, and whether or not a scale-down ever
    touched it, since the pass works from the listing of all CronJobs and
    from nothing stored.  The pass itself, the last of the three, completes
    from any world and leaves every CronJob resumed. *)
Theorem scale_up_resumes_every_cronjob
    (w w' : World) (namespace name : string) :
  scale_up w = (Ok tt, w') ->
  is_Some (cronjobs w !! (namespace, name)) ->
  (cronjobs w' !! (namespace, name) = Some false
   /\ exists new : list call,
        calls w' = new ++ calls w /\ PatchCronJob namespace name false ∈ new)
  /\ forall w0, exists w0',
       ScaleUp.resume w0 = (Ok tt, w0')
       /\ forall key, cronjobs w0' !! key = (fun _ => false) <$> cronjobs w0 !! key.
Proof.
  intros Hrun Hlive. split.
  2:{ intros w0. eexists. split; [apply resume_run|].
      intros key. pose proof (resume_cronjobs w0 key) as Hkey.
      rewrite resume_run in Hkey. exact Hkey. }
  unfold scale_up in Hrun.
  change ((ScaleUp.aws ≫= fun _ => ScaleUp.k8s ≫= fun _ => ScaleUp.resume) w
          = (Ok tt, w')) in Hrun.
  rewrite <- bind_assoc, bind_run in Hrun.
  destruct (restore_passes_leave_cronjobs w) as [Hcron (n1 & Hcalls & _)].
  destruct ((ScaleUp.aws ;; ScaleUp.k8s) w) as [[[]|e] w1]; [|discriminate].
  simpl in Hcron, Hcalls. rewrite resume_run in Hrun. injection Hrun as <-.
  assert (Hlisted : (namespace, name) ∈ map cronjob_key (Client.cronjobs_of (cronjobs w1))).
  { apply cronjobs_of_key. by rewrite Hcron. }
  split.
  - rewrite patched_cronjobs_lookup, bool_decide_eq_true_2 by done. reflexivity.
  - rewrite patched_cronjobs_calls. simpl. rewrite Hcalls.
    exists (rev (map (cronjob_patch_call false) (Client.cronjobs_of (cronjobs w1)))
            ++ ListCronJobs :: n1).
    split; [by rewrite <- (assoc_L (++)) |].
    apply elem_of_app. left.
    apply list_elem_of_In. rewrite <- in_rev. apply list_elem_of_In.
    apply list_elem_of_fmap in Hlisted as (cj & Hkey & Hcj).
    apply list_elem_of_fmap. exists cj. split; [|done].
    unfold cronjob_patch_call. unfold cronjob_key in Hkey. by injection Hkey as -> ->.
Qed.

(** On [fresh_example] no scale-down has run; "report" is not suspended. *)
Lemma scale_up_resumes_every_cronjob_witness :
  (cronjobs (scale_up fresh_example).2 !! ("ops", "report") = Some false
   /\ exists new : list call,
        calls (scale_up fresh_example).2 = new ++ calls fresh_example
        /\ PatchCronJob "ops" "report" false ∈ new)
  /\ forall w0, exists w0',
       ScaleUp.resume w0 = (Ok tt, w0')
       /\ forall key, cronjobs w0' !! key = (fun _ => false) <$> cronjobs w0 !! key.
Proof.
  apply (scale_up_resumes_every_cronjob fresh_example (scale_up fresh_example).2).
  - vm_compute. reflexivity.
  - vm_compute. eexists. reflexivity.
Defined.

(** ** [scale_down] and the fleet groups *)

(** The test of line 138. *)
Definition not_all_zero (group : asg) : bool :=
  ((0 <? MinSize group) || negb (DesiredCapacity group =? 0)
   || negb (MaxSize group =? 0))%Z.

Definition zero_call (asg_name : string) : call :=
  UpdateAsg asg_name (JNum 0) (JNum 0) (JNum 0).

Definition is_update_of (asg_name : string) (c : call) : Prop :=
  match c with
  | UpdateAsg updated _ _ _ => updated = asg_name
  | _ => False
  end.

(** The world after a group was described and set to zero, and after it was
    described and left alone. *)
Definition zeroed_asg (asg_name : string) (w : World) : World :=
  set_asgs <[asg_name := Asg 0 0 0]>
    (set_calls (cons (zero_call asg_name))
       (set_calls (cons (DescribeAsg asg_name)) w)).

Definition described_asg (asg_name : string) (w : World) : World :=
  set_calls (cons (DescribeAsg asg_name)) w.

(** A name that [describe_auto_scaling_groups] answers with a group. *)
Definition describable (w : World) (asg_name : string) : Prop :=
  asg_name <> "" /\ is_Some (asgs w !! asg_name).

Lemma asg_step_run (data : Dict.t json) (asg_name : string) (group : asg) (w : World) :
  asg_name <> "" ->
  asgs w !! asg_name = Some group ->
  ScaleDown.asg_step data asg_name w
  = if not_all_zero group
    then (Ok (Dict.set asg_name (asg_record group) data), zeroed_asg asg_name w)
    else (Ok data, described_asg asg_name w).
Proof.
  intros Hname%String.eqb_neq Hlive.
  unfold ScaleDown.asg_step, Client.describe_auto_scaling_group, not_all_zero.
  run. rewrite Hname. run. rewrite Hlive. simpl.
  destruct ((0 <? MinSize group) || negb (DesiredCapacity group =? 0)
            || negb (MaxSize group =? 0))%Z; [|reflexivity].
  unfold Client.update_auto_scaling_group. run. rewrite Hlive. reflexivity.
Qed.

(** Whether the loop over [names] sets the group [asg_name] to zero. *)
Definition zeroes (names : list string) (w : World) (asg_name : string) : bool :=
  bool_decide (asg_name ∈ names) && from_option not_all_zero false (asgs w !! asg_name).

Lemma asg_loop_run (names : list string) (data : Dict.t json) (w : World) :
  Forall (describable w) names ->
  exists (data' : Dict.t json) (w' : World) (new : list call),
    for_fold ScaleDown.asg_step names data w = (Ok data', w')
    /\ calls w' = new ++ calls w
    /\ ssm w' = ssm w
    /\ deployments w' = deployments w
    /\ statefulsets w' = statefulsets w
    /\ cronjobs w' = cronjobs w
    /\ forall asg_name,
         Dict.get asg_name data'
         = (if zeroes names w asg_name then asg_record <$> asgs w !! asg_name
            else Dict.get asg_name data)
         /\ asgs w' !! asg_name
            = (if zeroes names w asg_name then Some (Asg 0 0 0) else asgs w !! asg_name)
         /\ (if zeroes names w asg_name then zero_call asg_name ∈ new
             else Forall (fun c => ~ is_update_of asg_name c) new).
Proof.
  revert data w. induction names as [|n rest IH]; intros data w Hlive.
  { exists data, w, []. split_and!; try reflexivity. intros asg_name.
    unfold zeroes. rewrite bool_decide_eq_false_2 by apply not_elem_of_nil.
    simpl. split_and!; done. }
  apply Forall_cons in Hlive as [[Hname [group Hgroup]] Hrest].
  cbn [for_fold]. rewrite bind_run, (asg_step_run _ _ _ _ Hname Hgroup).
  destruct (not_all_zero group) eqn:Hnz.
  - destruct (IH (Dict.set n (asg_record group) data) (zeroed_asg n w))
      as (data' & w' & new & Hrun & Hcalls & Hssm & Hd & Hs & Hc & Hnames).
    { eapply Forall_impl; [exact Hrest|]. intros m [Hm [g Hg]]. split; [done|]. simpl.
      destruct (decide (n = m)) as [->|Hne].
      - rewrite lookup_insert_eq. by eexists.
      - rewrite lookup_insert_ne by done. by eexists. }
    exists data', w', (new ++ [zero_call n; DescribeAsg n]).
    split_and!; try done.
    { rewrite Hcalls. simpl. by rewrite <- (assoc_L (++)). }
    intros asg_name. specialize (Hnames asg_name). unfold zeroes in *. simpl in Hnames.
    destruct (decide (asg_name = n)) as [->|Hne].
    + rewrite lookup_insert_eq in Hnames. simpl in Hnames.
      rewrite andb_false_r in Hnames. rewrite DictFacts.get_set_eq in Hnames.
      rewrite bool_decide_eq_true_2 by left. rewrite Hgroup. simpl. rewrite Hnz.
      destruct Hnames as (Hget & Hasg & _). split_and!; [done | done |].
      apply elem_of_app. right. left.
    + rewrite lookup_insert_ne in Hnames by done.
      rewrite DictFacts.get_set_ne in Hnames by done.
      rewrite (bool_decide_ext (asg_name ∈ n :: rest) (asg_name ∈ rest))
        by (rewrite elem_of_cons; tauto).
      destruct Hnames as (Hget & Hasg & Hnew). split_and!; [done | done |].
      destruct (bool_decide (asg_name ∈ rest)
                && from_option not_all_zero false (asgs w !! asg_name)).
      * apply elem_of_app. by left.
      * apply Forall_app. split; [done|].
        repeat constructor; simpl; congruence.
  - destruct (IH data (described_asg n w))
      as (data' & w' & new & Hrun & Hcalls & Hssm & Hd & Hs & Hc & Hnames).
    { exact Hrest. }
    exists data', w', (new ++ [DescribeAsg n]).
    split_and!; try done.
    { rewrite Hcalls. simpl. by rewrite <- (assoc_L (++)). }
    intros asg_name. specialize (Hnames asg_name). unfold zeroes in *. simpl in Hnames.
    assert (Hsame : bool_decide (asg_name ∈ n :: rest)
                    && from_option not_all_zero false (asgs w !! asg_name)
                    = bool_decide (asg_name ∈ rest)
                      && from_option not_all_zero false (asgs w !! asg_name)).
    { destruct (decide (asg_name = n)) as [->|Hne].
      - rewrite Hgroup. simpl. rewrite Hnz, !andb_false_r. reflexivity.
      - f_equal. apply bool_decide_ext. rewrite elem_of_cons. tauto. }
    rewrite Hsame. destruct Hnames as (Hget & Hasg & Hnew). split_and!; [done | done |].
    destruct (bool_decide (asg_name ∈ rest)
              && from_option not_all_zero false (asgs w !! asg_name)).
    + apply elem_of_app. by left.
    + apply Forall_app. split; [done|]. repeat constructor; simpl; tauto.
Qed.

(** Two groups, one in use and one already at zero. *)
Definition fleet_example : World :=
  MkWorld ∅ ∅ ∅ ∅ (<["ng-1" := Asg 1 2 3]> {["ng-0" := Asg 0 0 0]}) [].

(** ** Deployments and StatefulSets *)

(** The script treats the two kinds of workload with two copies of the same
    code.  The properties of the copies are proved once, for a kind [k]. *)
Inductive wkind : Type := KDeployment | KStatefulSet.

Module Kind.

Definition name (k : wkind) : string :=
  match k with
  | KDeployment => "deployment"
  | KStatefulSet => "statefulset"
  end.

Definition live (k : wkind) (w : World) : gmap (string * string) Z :=
  match k with
  | KDeployment => deployments w
  | KStatefulSet => statefulsets w
  end.

Definition other (k : wkind) : wkind :=
  match k with
  | KDeployment => KStatefulSet
  | KStatefulSet => KDeployment
  end.

Definition set_live (k : wkind)
    (f : gmap (string * string) Z -> gmap (string * string) Z) (w : World) : World :=
  match k with
  | KDeployment => set_deployments f w
  | KStatefulSet => set_statefulsets f w
  end.

Definition read_call (k : wkind) (namespace name : string) : call :=
  match k with
  | KDeployment => ReadDeployment namespace name
  | KStatefulSet => ReadStatefulSet namespace name
  end.

Definition patch_call (k : wkind) (namespace name : string) (replicas : json) : call :=
  match k with
  | KDeployment => PatchDeployment namespace name replicas
  | KStatefulSet => PatchStatefulSet namespace name replicas
  end.

Definition read (k : wkind) : string -> string -> M workload :=
  match k with
  | KDeployment => Client.read_namespaced_deployment
  | KStatefulSet => Client.read_namespaced_stateful_set
  end.

Definition patch (k : wkind) : string -> string -> json -> M unit :=
  match k with
  | KDeployment => Client.patch_namespaced_deployment
  | KStatefulSet => Client.patch_namespaced_stateful_set
  end.

Definition capture_step (k : wkind) : Dict.t json -> workload -> M (Dict.t json) :=
  match k with
  | KDeployment => ScaleDown.deployment_step
  | KStatefulSet => ScaleDown.statefulset_step
  end.

End Kind.

Definition workload_id (res : workload) : string * string :=
  (w_namespace res, w_name res).

(** The world after an accepted patch of the replicas of a workload. *)
Definition patched_workload (k : wkind) (namespace name : string) (n : Z) (w : World)
    : World :=
  Kind.set_live k <[(namespace, name) := n]>
    (set_calls (cons (Kind.patch_call k namespace name (JNum n))) w).

Section KindFacts.
Context (k : wkind).
Implicit Types (w : World) (res : workload) (data : Dict.t json).

Lemma patch_workload_run (namespace name : string) (n : Z) w :
  is_Some (Kind.live k w !! (namespace, name)) ->
  Kind.patch k name namespace (JNum n) w = (Ok tt, patched_workload k namespace name n w).
Proof.
  intros [r Hlive]. destruct k; simpl in *;
    [unfold Client.patch_namespaced_deployment
    |unfold Client.patch_namespaced_stateful_set];
    run; rewrite Hlive; reflexivity.
Qed.

Lemma read_workload_run (namespace name : string) (r : Z) w :
  Kind.live k w !! (namespace, name) = Some r ->
  Kind.read k name namespace w
  = (Ok (Workload namespace name r), set_calls (cons (Kind.read_call k namespace name)) w).
Proof.
  intros Hlive. destruct k; simpl in *;
    [unfold Client.read_namespaced_deployment
    |unfold Client.read_namespaced_stateful_set];
    run; rewrite Hlive; reflexivity.
Qed.

Lemma read_workload_raise (namespace name : string) w :
  Kind.live k w !! (namespace, name) = None ->
  Kind.read k name namespace w
  = (Raise ApiException, set_calls (cons (Kind.read_call k namespace name)) w).
Proof.
  intros Hlive. destruct k; simpl in *;
    [unfold Client.read_namespaced_deployment
    |unfold Client.read_namespaced_stateful_set];
    run; rewrite Hlive; reflexivity.
Qed.

Lemma patched_workload_live (namespace name : string) (n : Z) w :
  Kind.live k (patched_workload k namespace name n w)
  = <[(namespace, name) := n]> (Kind.live k w).
Proof. destruct k; reflexivity. Qed.

Lemma patched_workload_other (namespace name : string) (n : Z) w :
  Kind.live (Kind.other k) (patched_workload k namespace name n w)
  = Kind.live (Kind.other k) w.
Proof. destruct k; reflexivity. Qed.

Lemma patched_workload_calls (namespace name : string) (n : Z) w :
  calls (patched_workload k namespace name n w)
  = Kind.patch_call k namespace name (JNum n) :: calls w.
Proof. destruct k; reflexivity. Qed.

Lemma patched_workload_rest (namespace name : string) (n : Z) w :
  ssm (patched_workload k namespace name n w) = ssm w
  /\ cronjobs (patched_workload k namespace name n w) = cronjobs w
  /\ asgs (patched_workload k namespace name n w) = asgs w.
Proof. destruct k; done. Qed.

(** One turn of the capture loop, on an object that exists. *)
Lemma capture_step_run data res w :
  is_Some (Kind.live k w !! workload_id res) ->
  Kind.capture_step k data res w
  = if (0 <? w_replicas res)%Z
    then (Ok (Dict.set (workload_key (Kind.name k) res) (JNum (w_replicas res)) data),
          patched_workload k (w_namespace res) (w_name res) 0 w)
    else (Ok data, w).
Proof.
  intros Hlive.
  assert (Hstep : Kind.capture_step k data res
                  = if (0 <? w_replicas res)%Z
                    then Kind.patch k (w_name res) (w_namespace res) (JNum 0) ;;
                         mret (Dict.set (workload_key (Kind.name k) res)
                                        (JNum (w_replicas res)) data)
                    else mret data).
  { destruct k; reflexivity. }
  rewrite Hstep. destruct (0 <? w_replicas res)%Z; [|reflexivity].
  rewrite bind_run, patch_workload_run by exact Hlive. reflexivity.
Qed.

(** The loop does nothing on objects that are at zero. *)
Lemma capture_loop_idle (l : list workload) data w :
  Forall (fun res => w_replicas res <= 0) l ->
  for_fold (Kind.capture_step k) l data w = (Ok data, w).
Proof.
  induction 1 as [|res l Hres Hl IH]; simpl; [reflexivity|].
  rewrite bind_run.
  assert (Hstep : Kind.capture_step k data res w = (Ok data, w)).
  { destruct k; simpl;
      [unfold ScaleDown.deployment_step | unfold ScaleDown.statefulset_step];
      destruct (Z.ltb_spec 0 (w_replicas res)); (lia || reflexivity). }
  rewrite Hstep. exact IH.
Qed.

End KindFacts.

Lemma dict_set_entries {V : Type} (k : string) (v : V) (d : Dict.t V) (kv : string * V) :
  kv ∈ Dict.set k v d -> kv = (k, v) \/ kv ∈ d.
Proof.
  induction d as [|[k0 v0] d IH]; simpl.
  - intros ->%list_elem_of_singleton. by left.
  - destruct (String.eqb k k0).
    + rewrite !elem_of_cons. tauto.
    + rewrite !elem_of_cons. intros [->|Hin]; [tauto|]. destruct (IH Hin); tauto.
Qed.

Lemma dict_set_keys {V : Type} (k : string) (v : V) (d : Dict.t V) (key : string) :
  key ∈ Dict.keys (Dict.set k v d) <-> key = k \/ key ∈ Dict.keys d.
Proof.
  rewrite DictFacts.keys_set. case_bool_decide as Hin.
  - split; [tauto|]. intros [->|]; done.
  - rewrite elem_of_app, list_elem_of_singleton. tauto.
Qed.

Lemma dict_update_entries {V : Type} (d new : Dict.t V) (kv : string * V) :
  kv ∈ Dict.update d new -> kv ∈ new \/ kv ∈ d.
Proof.
  revert d. unfold Dict.update. induction new as [|[k v] new IH]; intros d; simpl.
  - by right.
  - intros Hin. apply IH in Hin as [Hin|Hin]; [left; by right|].
    apply dict_set_entries in Hin as [->|Hin]; [left; left | by right].
Qed.

Lemma dict_get_entry {V : Type} (k : string) (v : V) (d : Dict.t V) :
  Dict.get k d = Some v -> (k, v) ∈ d.
Proof.
  induction d as [|[k0 v0] d IH]; simpl; [done|].
  destruct (String.eqb_spec k k0) as [->|Hne].
  - intros [= ->]. left.
  - intros Hget. right. by apply IH.
Qed.

(** Whether the capture loop over the objects [l] sets the workload [key]
    to zero; and what it records for an object it sets to zero. *)
Definition captured (l : list workload) (key : string * string) : bool :=
  existsb (fun res => bool_decide (workload_id res = key) && (0 <? w_replicas res)%Z) l.

Definition capture_pair (k : wkind) (res : workload) : string * json :=
  (workload_key (Kind.name k) res, JNum (w_replicas res)).

Lemma capture_loop_run (k : wkind) (l : list workload) (data : Dict.t json) (w : World) :
  Forall (fun res => is_Some (Kind.live k w !! workload_id res)) l ->
  exists (data' : Dict.t json) (w' : World) (new : list call),
    for_fold (Kind.capture_step k) l data w = (Ok data', w')
    /\ calls w' = new ++ calls w
    /\ Forall (fun c => ~ is_put c) new
    /\ ssm w' = ssm w
    /\ cronjobs w' = cronjobs w
    /\ asgs w' = asgs w
    /\ Kind.live (Kind.other k) w' = Kind.live (Kind.other k) w
    /\ (forall key, Kind.live k w' !! key
                    = if captured l key then Some 0 else Kind.live k w !! key)
    /\ Forall (fun kv => kv ∈ data
                         \/ exists res, res ∈ l /\ 0 < w_replicas res
                                        /\ kv = capture_pair k res) data'
    /\ (forall res, res ∈ l -> 0 < w_replicas res ->
                    workload_key (Kind.name k) res ∈ Dict.keys data')
    /\ (forall key, key ∈ Dict.keys data -> key ∈ Dict.keys data')
    /\ (NoDup (Dict.keys data) -> NoDup (Dict.keys data')).
Proof.
  revert data w. induction l as [|res l IH]; intros data w Hlive.
  { exists data, w, []. split_and!; try done.
    - apply Forall_forall. intros kv Hkv. by left.
    - intros res Hres. by apply not_elem_of_nil in Hres. }
  apply Forall_cons in Hlive as [Hres Hl].
  cbn [for_fold]. rewrite bind_run, capture_step_run by exact Hres.
  destruct (Z.ltb_spec 0 (w_replicas res)) as [Hpos|Hzero].
  - set (data1 := Dict.set (workload_key (Kind.name k) res) (JNum (w_replicas res)) data).
    set (w1 := patched_workload k (w_namespace res) (w_name res) 0 w).
    destruct (IH data1 w1)
      as (data' & w' & new & Hrun & Hcalls & Hputs & Hssm & Hc & Ha & Hother
          & Hlookup & Hentries & Hkeys & Hold & Hnodup).
    { eapply Forall_impl; [exact Hl|]. intros res' [r Hr]. unfold w1.
      rewrite patched_workload_live.
      destruct (decide ((w_namespace res, w_name res) = workload_id res')) as [->|Hne].
      - rewrite lookup_insert_eq. by eexists.
      - rewrite lookup_insert_ne by done. by eexists. }
    destruct (patched_workload_rest k (w_namespace res) (w_name res) 0 w)
      as (Hssm1 & Hc1 & Ha1).
    exists data', w', (new ++ [Kind.patch_call k (w_namespace res) (w_name res) (JNum 0)]).
    split_and!; try done.
    + rewrite Hcalls. unfold w1. rewrite patched_workload_calls.
      by rewrite <- (assoc_L (++)).
    + apply Forall_app. split; [done|]. apply Forall_singleton.
      clear. destruct k; simpl; tauto.
    + by rewrite Hssm.
    + by rewrite Hc.
    + by rewrite Ha.
    + rewrite Hother. apply patched_workload_other.
    + intros key. rewrite Hlookup. unfold w1. rewrite patched_workload_live.
      cbn [captured existsb]. fold (captured l key).
      destruct (captured l key); [by rewrite orb_true_r|]. rewrite orb_false_r.
      destruct (Z.ltb_spec 0 (w_replicas res)); [|lia]. rewrite andb_true_r.
      case_bool_decide as Hkey.
      * unfold workload_id in Hkey. rewrite <- Hkey. apply lookup_insert_eq.
      * apply lookup_insert_ne. exact Hkey.
    + eapply Forall_impl; [exact Hentries|]. intros kv [Hin|(res' & Hin & Hr & ->)].
      * apply dict_set_entries in Hin as [->|Hin]; [|by left].
        right. exists res. split_and!; [left | done | done].
      * right. exists res'. split_and!; [by right | done | done].
    + intros res' [->|Hin]%elem_of_cons Hr.
      * apply Hold. unfold data1. apply dict_set_keys. by left.
      * by apply Hkeys.
    + intros key Hkey. apply Hold. unfold data1. apply dict_set_keys. by right.
    + intros Hnd. apply Hnodup. unfold data1. by apply DictFacts.set_NoDup.
  - destruct (IH data w Hl)
      as (data' & w' & new & Hrun & Hcalls & Hputs & Hssm & Hc & Ha & Hother
          & Hlookup & Hentries & Hkeys & Hold & Hnodup).
    exists data', w', new. split_and!; try done.
    + intros key. rewrite Hlookup. cbn [captured existsb]. fold (captured l key).
      destruct (Z.ltb_spec 0 (w_replicas res)); [lia|]. by rewrite andb_false_r.
    + eapply Forall_impl; [exact Hentries|]. intros kv [Hin|(res' & Hin & Hr & ->)].
      * by left.
      * right. exists res'. split_and!; [by right | done | done].
    + intros res' [->|Hin]%elem_of_cons Hr; [lia|]. by apply Hkeys.
Qed.

(** ** What [scale_down] works on *)

(** Everything in the world but the log of calls, and the part of it that
    lives on the two platforms. *)
Definition state (w : World) :=
  (ssm w, deployments w, statefulsets w, cronjobs w, asgs w).

Definition live_state (w : World) :=
  (deployments w, statefulsets w, cronjobs w, asgs w).

Definition no_call (c : call) : Prop := False.

(** The filter looks at the namespace and the name of an object only. *)
Lemma filter_excluded_k8s_resources_In {A : Type} `{Metadata A}
    (kind : string) (resources : list A) (exclude_list : option (list resource_ref))
    (res : A) :
  res ∈ filter_excluded_k8s_resources kind resources exclude_list
  <-> res ∈ resources
      /\ existsb (excludes kind res) (items_of exclude_list) = false.
Proof.
  rewrite filter_excluded_k8s_resources_eq, !list_elem_of_In, filter_In.
  rewrite negb_true_iff. reflexivity.
Qed.

Lemma excludes_same_id {A B : Type} `{Metadata A} `{Metadata B}
    (kind : string) (a : A) (b : B) (entry : resource_ref) :
  namespace a = namespace b -> name a = name b ->
  excludes kind a entry = excludes kind b entry.
Proof. intros Hns Hn. unfold excludes. by rewrite Hns, Hn. Qed.

Lemma filter_excluded_asgs_In (asg_list : list string)
    (exclude_asgs : option (list string)) (asg_name : string) :
  asg_name ∈ filter_excluded_asgs asg_list exclude_asgs
  <-> asg_name ∈ asg_list
      /\ existsb (String.eqb asg_name) (items_of exclude_asgs) = false.
Proof.
  rewrite filter_excluded_asgs_eq, !list_elem_of_In, filter_In.
  rewrite negb_true_iff. reflexivity.
Qed.

(** An object read or listed in [w] carries the replicas it has in [w]. *)
Definition consistent (k : wkind) (w : World) (l : list workload) : Prop :=
  Forall (fun res => Kind.live k w !! workload_id res = Some (w_replicas res)) l.

Definition cronjobs_consistent (w : World) (l : list cronjob) : Prop :=
  Forall (fun cj => cronjobs w !! cronjob_key cj = Some (c_suspend cj)) l.

Lemma workloads_of_consistent (m : gmap (string * string) Z) :
  Forall (fun res => m !! workload_id res = Some (w_replicas res)) (Client.workloads_of m).
Proof.
  apply Forall_forall. intros res Hres. unfold Client.workloads_of in Hres.
  apply list_elem_of_fmap in Hres as ([[ns n] r] & -> & Hkv).
  by apply elem_of_map_to_list in Hkv.
Qed.

Lemma workloads_of_id (m : gmap (string * string) Z) (key : string * string) :
  key ∈ map workload_id (Client.workloads_of m) <-> is_Some (m !! key).
Proof.
  unfold Client.workloads_of. rewrite list_elem_of_fmap. split.
  - intros (res & -> & Hres). apply list_elem_of_fmap in Hres as ([k' r] & -> & Hkv).
    apply elem_of_map_to_list in Hkv. destruct k'. by eexists.
  - intros [r Hr]. exists (Workload key.1 key.2 r). split; [by destruct key|].
    apply list_elem_of_fmap. exists (key, r). split; [done|].
    by apply elem_of_map_to_list.
Qed.

Lemma cronjobs_of_consistent (m : gmap (string * string) bool) :
  Forall (fun cj => m !! cronjob_key cj = Some (c_suspend cj)) (Client.cronjobs_of m).
Proof.
  apply Forall_forall. intros cj Hcj. unfold Client.cronjobs_of in Hcj.
  apply list_elem_of_fmap in Hcj as ([[ns n] b] & -> & Hkv).
  by apply elem_of_map_to_list in Hkv.
Qed.

Definition ref_id (res : resource_ref) : string * string := (r_namespace res, r_name res).

Lemma live_set_calls (k : wkind) (f : list call -> list call) (w : World) :
  Kind.live k (set_calls f w) = Kind.live k w.
Proof. destruct k; reflexivity. Qed.

(** Reading the same references in a world [w2] that has the objects of
    [w]: the reads succeed again and return objects with the same
    identities, carrying the replicas of [w2]. *)
Lemma reads_again (k : wkind) (refs : list resource_ref) (w w2 wa : World)
    (l : list workload) :
  for_list (fun res => Kind.read k (r_name res) (r_namespace res)) refs w = (Ok l, wa) ->
  (forall key, is_Some (Kind.live k w !! key) -> is_Some (Kind.live k w2 !! key)) ->
  state wa = state w
  /\ exists (l2 : list workload) (wb : World),
       for_list (fun res => Kind.read k (r_name res) (r_namespace res)) refs w2 = (Ok l2, wb)
       /\ state wb = state w2
       /\ consistent k w2 l2
       /\ map workload_id l2 = map workload_id l.
Proof.
  revert w w2 wa l. induction refs as [|res rest IH]; intros w w2 wa l Hrun Hsame.
  { injection Hrun as <- <-. split; [done|]. exists [], w2.
    split_and!; [done | done | constructor | done]. }
  cbn [for_list] in *. rewrite bind_run in Hrun.
  destruct (Kind.live k w !! (r_namespace res, r_name res)) as [r|] eqn:Hlive;
    [|by rewrite read_workload_raise in Hrun].
  rewrite (read_workload_run _ _ _ _ _ Hlive), bind_run in Hrun.
  destruct (for_list _ rest _) as [[l'|e] w'] eqn:Hrest; [|discriminate].
  injection Hrun as <- <-.
  destruct (Hsame _ (mk_is_Some _ _ Hlive)) as [r2 Hlive2].
  destruct (IH _ (set_calls (cons (Kind.read_call k (r_namespace res) (r_name res))) w2)
               _ _ Hrest) as (Hstate & l2 & wb & Hrun2 & Hstate2 & Hcons & Hids).
  { intros key. rewrite !live_set_calls. apply Hsame. }
  split; [exact Hstate|].
  exists (Workload (r_namespace res) (r_name res) r2 :: l2), wb.
  rewrite bind_run, (read_workload_run _ _ _ _ _ Hlive2), bind_run, Hrun2.
  split_and!; [done | done | | by simpl; rewrite Hids].
  constructor; [exact Hlive2|].
  unfold consistent in *. by setoid_rewrite live_set_calls in Hcons.
Qed.

Lemma read_cron_job_run (namespace name : string) (b : bool) (w : World) :
  cronjobs w !! (namespace, name) = Some b ->
  Client.read_namespaced_cron_job name namespace w
  = (Ok (CronJob namespace name b), set_calls (cons (ReadCronJob namespace name)) w).
Proof.
  intros Hlive. unfold Client.read_namespaced_cron_job. run. by rewrite Hlive.
Qed.

Lemma read_cron_job_raise (namespace name : string) (w : World) :
  cronjobs w !! (namespace, name) = None ->
  Client.read_namespaced_cron_job name namespace w
  = (Raise ApiException, set_calls (cons (ReadCronJob namespace name)) w).
Proof.
  intros Hlive. unfold Client.read_namespaced_cron_job. run. by rewrite Hlive.
Qed.

Lemma cronjob_reads_again (refs : list resource_ref) (w w2 wa : World) (l : list cronjob) :
  for_list (fun res => Client.read_namespaced_cron_job (r_name res) (r_namespace res))
           refs w = (Ok l, wa) ->
  (forall key, is_Some (cronjobs w !! key) -> is_Some (cronjobs w2 !! key)) ->
  state wa = state w
  /\ exists (l2 : list cronjob) (wb : World),
       for_list (fun res => Client.read_namespaced_cron_job (r_name res) (r_namespace res))
                refs w2 = (Ok l2, wb)
       /\ state wb = state w2
       /\ cronjobs_consistent w2 l2
       /\ map cronjob_key l2 = map cronjob_key l.
Proof.
  revert w w2 wa l. induction refs as [|res rest IH]; intros w w2 wa l Hrun Hsame.
  { injection Hrun as <- <-. split; [done|]. exists [], w2.
    split_and!; [done | done | constructor | done]. }
  cbn [for_list] in *. rewrite bind_run in Hrun.
  destruct (cronjobs w !! (r_namespace res, r_name res)) as [b|] eqn:Hlive;
    [|by rewrite read_cron_job_raise in Hrun].
  rewrite (read_cron_job_run _ _ _ _ Hlive), bind_run in Hrun.
  destruct (for_list _ rest _) as [[l'|e] w'] eqn:Hrest; [|discriminate].
  injection Hrun as <- <-.
  destruct (Hsame _ (mk_is_Some _ _ Hlive)) as [b2 Hlive2].
  destruct (IH _ (set_calls (cons (ReadCronJob (r_namespace res) (r_name res))) w2)
               _ _ Hrest) as (Hstate & l2 & wb & Hrun2 & Hstate2 & Hcons & Hids).
  { exact Hsame. }
  split; [exact Hstate|].
  exists (CronJob (r_namespace res) (r_name res) b2 :: l2), wb.
  rewrite bind_run, (read_cron_job_run _ _ _ _ Hlive2), bind_run, Hrun2.
  split_and!; [done | done | | by simpl; rewrite Hids].
  constructor; [exact Hlive2 | exact Hcons].
Qed.

Lemma state_eq (w w' : World) :
  state w' = state w ->
  ssm w' = ssm w /\ deployments w' = deployments w /\ statefulsets w' = statefulsets w
  /\ cronjobs w' = cronjobs w /\ asgs w' = asgs w.
Proof. intros [= -> -> -> -> ->]. done. Qed.

(** [w2] has the Kubernetes objects of [w], whatever their replicas and
    flags. *)
Definition same_objects (w w2 : World) : Prop :=
  (forall key, is_Some (deployments w !! key) <-> is_Some (deployments w2 !! key))
  /\ (forall key, is_Some (statefulsets w !! key) <-> is_Some (statefulsets w2 !! key))
  /\ (forall key, is_Some (cronjobs w !! key) <-> is_Some (cronjobs w2 !! key)).

(** Fetching with the same arguments in a world that has the same objects
    succeeds again, and returns objects of the same identities that carry
    what the second world holds. *)
Lemma fetch_again (k8s_resources : option (list resource_ref)) (w w2 wa : World)
    (ds ss : list workload) (cs : list cronjob) :
  ScaleDown.fetch k8s_resources w = (Ok (ds, ss, cs), wa) ->
  same_objects w w2 ->
  exists (ds2 ss2 : list workload) (cs2 : list cronjob) (wb : World),
    ScaleDown.fetch k8s_resources w2 = (Ok (ds2, ss2, cs2), wb)
    /\ state wb = state w2
    /\ consistent KDeployment w2 ds2
    /\ consistent KStatefulSet w2 ss2
    /\ cronjobs_consistent w2 cs2
    /\ (forall key, key ∈ map workload_id ds2 -> key ∈ map workload_id ds)
    /\ (forall key, key ∈ map workload_id ss2 -> key ∈ map workload_id ss)
    /\ (forall key, key ∈ map cronjob_key cs2 -> key ∈ map cronjob_key cs).
Proof.
  intros Hrun (Hd & Hs & Hc). unfold ScaleDown.fetch in *.
  destruct (py_not k8s_resources).
  - unfold Client.list_deployment_for_all_namespaces,
      Client.list_stateful_set_for_all_namespaces,
      Client.list_cron_job_for_all_namespaces in *.
    revert Hrun. run. intros [= <- <- <- <-].
    eexists _, _, _, _. split_and!; try reflexivity.
    + apply workloads_of_consistent.
    + apply workloads_of_consistent.
    + apply cronjobs_of_consistent.
    + intros key. rewrite !workloads_of_id. apply Hd.
    + intros key. rewrite !workloads_of_id. apply Hs.
    + intros key. rewrite !cronjobs_of_key. apply Hc.
  - rewrite bind_run in Hrun.
    destruct (for_list _ _ w) as [[l1|e] w1] eqn:H1; [|discriminate].
    rewrite bind_run in Hrun.
    destruct (for_list _ _ w1) as [[l2|e] w1'] eqn:H2; [|discriminate].
    rewrite bind_run in Hrun.
    destruct (for_list _ _ w1') as [[l3|e] w1''] eqn:H3; [|discriminate].
    injection Hrun as <- <- <- <-.
    destruct (reads_again KDeployment _ w w2 _ _ H1)
      as (Hw1 & ds2 & wb1 & Hrun1 & Hwb1 & Hcons1 & Hids1).
    { intros key. apply Hd. }
    apply state_eq in Hw1 as (_ & _ & Hw1s & Hw1c & _).
    pose proof (state_eq _ _ Hwb1) as (_ & _ & Hwb1s & Hwb1c & _).
    destruct (reads_again KStatefulSet _ w1 wb1 _ _ H2)
      as (Hw2 & ss2 & wb2 & Hrun2 & Hwb2 & Hcons2 & Hids2).
    { intros key. simpl. rewrite Hw1s, Hwb1s. apply Hs. }
    apply state_eq in Hw2 as (_ & _ & _ & Hw2c & _).
    pose proof (state_eq _ _ Hwb2) as (_ & _ & Hwb2s & Hwb2c & _).
    destruct (cronjob_reads_again _ w1' wb2 _ _ H3)
      as (_ & cs2 & wb3 & Hrun3 & Hwb3 & Hcons3 & Hids3).
    { intros key. rewrite Hw2c, Hw1c, Hwb2c, Hwb1c. apply Hc. }
    exists ds2, ss2, cs2, wb3. cbn [Kind.read] in Hrun1, Hrun2.
    rewrite bind_run, Hrun1, bind_run, Hrun2, bind_run, Hrun3.
    split_and!; try done.
    + by rewrite Hwb3, Hwb2.
    + unfold consistent, cronjobs_consistent in *. simpl in *.
      eapply Forall_impl; [exact Hcons2|]. intros res. simpl. by rewrite Hwb1s.
    + unfold cronjobs_consistent in *.
      eapply Forall_impl; [exact Hcons3|]. intros cj. simpl. by rewrite Hwb2c, Hwb1c.
    + intros key. by rewrite Hids1.
    + intros key. by rewrite Hids2.
    + intros key. by rewrite Hids3.
Qed.

Lemma same_objects_refl (w : World) : same_objects w w.
Proof. by repeat split. Qed.

(** ** A completed [scale_down], taken apart *)

Lemma update_ssm_parameter_not_object (parameter_name : string) (N : Dict.t json)
    (w : World) :
  stored_object w parameter_name = None ->
  exists w', update_ssm_parameter parameter_name N w = (Raise AttributeError, w').
Proof.
  unfold stored_object, update_ssm_parameter, try_except_ParameterNotFound,
    Client.get_parameter.
  intros Hstored. run.
  destruct (ssm w !! parameter_name) as [[]|]; simplify_eq; eexists; reflexivity.
Qed.

Lemma store_inv (parameter_name : string) (data : Dict.t json) (w w' : World) :
  ScaleDown.store parameter_name data w = (Ok tt, w') ->
  live_state w' = live_state w
  /\ ((data = [] /\ w' = w)
      \/ (exists E, stored_object w parameter_name = Some E
                    /\ ssm w' = <[parameter_name := JObj (Dict.update E data)]> (ssm w))).
Proof.
  destruct data as [|kv data]; simpl.
  - intros [= <-]. split; [done|]. by left.
  - destruct (stored_object w parameter_name) as [E|] eqn:Hstored.
    + rewrite (update_ssm_parameter_run _ _ _ _ Hstored). intros [= <-].
      split; [done|]. right. by exists E.
    + destruct (update_ssm_parameter_not_object parameter_name (kv :: data) w Hstored)
        as [w'' ->]. discriminate.
Qed.

Lemma consistent_exists (k : wkind) (w w' : World) (l : list workload) :
  consistent k w l -> Kind.live k w' = Kind.live k w ->
  Forall (fun res => is_Some (Kind.live k w' !! workload_id res)) l.
Proof.
  intros Hcons Hlive. eapply Forall_impl; [exact Hcons|].
  intros res Hres. simpl in Hres. rewrite Hlive. by eexists.
Qed.

Lemma consistent_filter (k : wkind) (w : World) (kind : string) (l : list workload)
    (exclude_list : option (list resource_ref)) :
  consistent k w l -> consistent k w (filter_excluded_k8s_resources kind l exclude_list).
Proof.
  unfold consistent. rewrite !Forall_forall. intros Hcons res Hres.
  apply filter_excluded_k8s_resources_In in Hres as [Hres _]. by apply Hcons.
Qed.

Lemma cronjobs_consistent_filter (w : World) (kind : string) (l : list cronjob)
    (exclude_list : option (list resource_ref)) :
  cronjobs_consistent w l ->
  cronjobs_consistent w (filter_excluded_k8s_resources kind l exclude_list).
Proof.
  unfold cronjobs_consistent. rewrite !Forall_forall. intros Hcons cj Hcj.
  apply filter_excluded_k8s_resources_In in Hcj as [Hcj _]. by apply Hcons.
Qed.

(** What a completed Kubernetes half of [scale_down] has done, in terms of
    the objects it fetched. *)
Lemma k8s_pass_inv (k8s_resources exclude_k8s_resources : option (list resource_ref))
    (w0 wk : World) :
  ScaleDown.k8s k8s_resources exclude_k8s_resources w0 = (Ok tt, wk) ->
  exists (ds ss : list workload) (cs : list cronjob) (wa : World) (data : Dict.t json),
    let fd := filter_excluded_k8s_resources "Deployment" ds exclude_k8s_resources in
    let fs := filter_excluded_k8s_resources "StatefulSet" ss exclude_k8s_resources in
    let fc := filter_excluded_k8s_resources "CronJob" cs exclude_k8s_resources in
    ScaleDown.fetch k8s_resources w0 = (Ok (ds, ss, cs), wa)
    /\ consistent KDeployment w0 ds
    /\ consistent KStatefulSet w0 ss
    /\ cronjobs_consistent w0 cs
    /\ (forall key, deployments wk !! key
                    = if captured fd key then Some 0 else deployments w0 !! key)
    /\ (forall key, statefulsets wk !! key
                    = if captured fs key then Some 0 else statefulsets w0 !! key)
    /\ (forall key, cronjobs wk !! key
                    = if bool_decide (key ∈ map cronjob_key fc) then Some true
                      else cronjobs w0 !! key)
    /\ asgs wk = asgs w0
    /\ Forall (fun kv =>
                 (exists res, res ∈ fd /\ 0 < w_replicas res
                              /\ kv = capture_pair KDeployment res)
                 \/ (exists res, res ∈ fs /\ 0 < w_replicas res
                                 /\ kv = capture_pair KStatefulSet res)) data
    /\ (forall res, res ∈ fd -> 0 < w_replicas res ->
                    workload_key "deployment" res ∈ Dict.keys data)
    /\ (forall res, res ∈ fs -> 0 < w_replicas res ->
                    workload_key "statefulset" res ∈ Dict.keys data)
    /\ NoDup (Dict.keys data)
    /\ ((data = [] /\ ssm wk = ssm w0)
        \/ (exists E, stored_object w0 K8S_AWS_SSM_PARAMETER_NAME = Some E
                      /\ ssm wk = <[K8S_AWS_SSM_PARAMETER_NAME
                                     := JObj (Dict.update E data)]> (ssm w0))).
Proof.
  intros Hrun. unfold ScaleDown.k8s in Hrun. rewrite bind_run in Hrun.
  destruct (ScaleDown.fetch k8s_resources w0) as [[[[ds ss] cs]|e] wa] eqn:Hfetch;
    [|discriminate].
  destruct (fetch_again _ _ w0 _ _ _ _ Hfetch (same_objects_refl w0))
    as (ds' & ss' & cs' & wa' & Hfetch' & Hwa & Hcd & Hcs & Hcc & _).
  rewrite Hfetch in Hfetch'. injection Hfetch' as <- <- <- <-.
  apply state_eq in Hwa as (Hssm_a & Hd_a & Hs_a & Hc_a & Ha_a).
  set (fd := filter_excluded_k8s_resources "Deployment" ds exclude_k8s_resources) in *.
  set (fs := filter_excluded_k8s_resources "StatefulSet" ss exclude_k8s_resources) in *.
  set (fc := filter_excluded_k8s_resources "CronJob" cs exclude_k8s_resources) in *.
  destruct (capture_loop_run KDeployment fd [] wa)
    as (data1 & wb & new1 & Hrun1 & _ & _ & Hssm_b & Hc_b & Ha_b & Hs_b
        & Hd_b & Hent1 & Hkeys1 & _ & Hnd1).
  { apply (consistent_exists _ w0); [by apply consistent_filter | exact Hd_a]. }
  cbn [Kind.capture_step Kind.live Kind.other Kind.name] in *.
  rewrite bind_run, Hrun1 in Hrun.
  destruct (capture_loop_run KStatefulSet fs data1 wb)
    as (data2 & wc & new2 & Hrun2 & _ & _ & Hssm_c & Hc_c & Ha_c & Hd_c
        & Hs_c & Hent2 & Hkeys2 & Hold2 & Hnd2).
  { apply (consistent_exists _ w0); [by apply consistent_filter|].
    simpl. by rewrite Hs_b. }
  cbn [Kind.capture_step Kind.live Kind.other Kind.name] in *.
  rewrite bind_run, Hrun2 in Hrun.
  rewrite bind_run in Hrun. unfold ScaleDown.cronjob_step in Hrun.
  rewrite (patch_cron_jobs_run true) in Hrun.
  2:{ pose proof (cronjobs_consistent_filter w0 "CronJob" cs exclude_k8s_resources Hcc)
        as Hfc.
      eapply Forall_impl; [exact Hfc|]. intros cj Hcj. simpl in Hcj.
      rewrite Hc_c, Hc_b, Hc_a, Hcj. by eexists. }
  apply store_inv in Hrun as [Hlive Hstore].
  injection Hlive as Hd_k Hs_k Hc_k Ha_k.
  rewrite patched_cronjobs_deployments in Hd_k.
  rewrite patched_cronjobs_statefulsets in Hs_k.
  rewrite patched_cronjobs_asgs in Ha_k.
  exists ds, ss, cs, wa, data2. cbn zeta. fold fd fs fc.
  split_and!; try done.
  - intros key. by rewrite Hd_k, Hd_c, Hd_b, Hd_a.
  - intros key. by rewrite Hs_k, Hs_c, Hs_b, Hs_a.
  - intros key. by rewrite Hc_k, patched_cronjobs_lookup, Hc_c, Hc_b, Hc_a.
  - by rewrite Ha_k, Ha_c, Ha_b, Ha_a.
  - eapply Forall_impl; [exact Hent2|]. intros kv [Hin|Hnew]; [|by right].
    rewrite Forall_forall in Hent1. destruct (Hent1 _ Hin) as [Hnil|Hnew].
    + by apply not_elem_of_nil in Hnil.
    + by left.
  - intros res Hres Hr. apply Hold2. by apply Hkeys1.
  - apply Hnd2, Hnd1. constructor.
  - destruct Hstore as [[-> ->]|(E & HE & Hssm_k)].
    + left. split; [done|]. by rewrite patched_cronjobs_ssm, Hssm_c, Hssm_b.
    + right. exists E. unfold stored_object in *.
      rewrite patched_cronjobs_ssm, Hssm_c, Hssm_b, Hssm_a in HE.
      rewrite patched_cronjobs_ssm, Hssm_c, Hssm_b, Hssm_a in Hssm_k. done.
Qed.

(** *** Runs that change nothing *)

(** Since [w], nothing but the log of calls has changed, and the store was
    not written to. *)
Definition quiet : relation World := untouched state is_put.

Lemma quiet_log (c : call) (w : World) : ~ is_put c -> quiet w (set_calls (cons c) w).
Proof. intros Hc. split; [done|]. exists [c]. split; [done|]. by constructor. Qed.

Lemma fetch_quiet (k8s_resources : option (list resource_ref)) :
  preserves quiet (ScaleDown.fetch k8s_resources).
Proof.
  unfold quiet, ScaleDown.fetch, Client.list_deployment_for_all_namespaces,
    Client.list_stateful_set_for_all_namespaces, Client.list_cron_job_for_all_namespaces,
    Client.read_namespaced_deployment, Client.read_namespaced_stateful_set,
    Client.read_namespaced_cron_job.
  preserves_with untouched_client.
Qed.

(** Patching CronJobs that are suspended with [suspend = True]. *)
Lemma suspend_again_quiet (l : list cronjob) (w : World) :
  Forall (fun cj => cronjobs w !! cronjob_key cj = Some true) l ->
  quiet w (fold_left (patched_cronjob true) l w).
Proof.
  intros Hl. split.
  - unfold state.
    rewrite patched_cronjobs_ssm, patched_cronjobs_deployments,
      patched_cronjobs_statefulsets, patched_cronjobs_asgs.
    do 2 f_equal. apply map_eq. intros key. rewrite patched_cronjobs_lookup.
    case_bool_decide as Hkey; [|done].
    apply list_elem_of_fmap in Hkey as (cj & -> & Hcj).
    rewrite Forall_forall in Hl. symmetry. by apply Hl.
  - exists (rev (map (cronjob_patch_call true) l)).
    split; [apply patched_cronjobs_calls|].
    apply Forall_forall. intros c Hc.
    apply list_elem_of_In in Hc. rewrite <- in_rev in Hc. apply list_elem_of_In in Hc.
    apply list_elem_of_fmap in Hc as (cj & -> & _). simpl. tauto.
Qed.

(** The Kubernetes half of [scale_down] when every selected workload is at
    zero or below and every selected CronJob is suspended. *)
Lemma k8s_pass_idle (k8s_resources exclude_k8s_resources : option (list resource_ref))
    (w wa : World) (ds ss : list workload) (cs : list cronjob) :
  ScaleDown.fetch k8s_resources w = (Ok (ds, ss, cs), wa) ->
  Forall (fun res => w_replicas res <= 0)
         (filter_excluded_k8s_resources "Deployment" ds exclude_k8s_resources) ->
  Forall (fun res => w_replicas res <= 0)
         (filter_excluded_k8s_resources "StatefulSet" ss exclude_k8s_resources) ->
  Forall (fun cj => cronjobs w !! cronjob_key cj = Some true)
         (filter_excluded_k8s_resources "CronJob" cs exclude_k8s_resources) ->
  exists wk,
    ScaleDown.k8s k8s_resources exclude_k8s_resources w = (Ok tt, wk) /\ quiet w wk.
Proof.
  intros Hfetch Hd Hs Hc.
  pose proof (fetch_quiet k8s_resources w) as Hwa. rewrite Hfetch in Hwa. simpl in Hwa.
  pose proof Hwa as [Hstate _]. apply state_eq in Hstate as (_ & _ & _ & Hcron & _).
  unfold ScaleDown.k8s. rewrite bind_run, Hfetch.
  rewrite bind_run, (capture_loop_idle KDeployment _ _ _ Hd).
  rewrite bind_run, (capture_loop_idle KStatefulSet _ _ _ Hs).
  rewrite bind_run. unfold ScaleDown.cronjob_step.
  rewrite (patch_cron_jobs_run true).
  2:{ eapply Forall_impl; [exact Hc|]. intros cj Hcj. simpl in Hcj.
      rewrite Hcron, Hcj. by eexists. }
  eexists. split; [reflexivity|]. etrans; [exact Hwa|].
  apply suspend_again_quiet.
  eapply Forall_impl; [exact Hc|]. intros cj Hcj. simpl in Hcj. by rewrite Hcron.
Qed.

(** *** The fleet half *)

(** The step for the empty name, and for a name that has no group. *)
Lemma asg_step_empty (data : Dict.t json) (w : World) :
  ScaleDown.asg_step data "" w = (Raise ParamValidationError, described_asg "" w).
Proof. reflexivity. Qed.

Lemma asg_step_missing (data : Dict.t json) (asg_name : string) (w : World) :
  asg_name <> "" ->
  asgs w !! asg_name = None ->
  ScaleDown.asg_step data asg_name w = (Raise IndexError, described_asg asg_name w).
Proof.
  intros Hname%String.eqb_neq Hnone.
  unfold ScaleDown.asg_step, Client.describe_auto_scaling_group.
  run. rewrite Hname. run. by rewrite Hnone.
Qed.

Lemma asg_step_describable (data data' : Dict.t json) (asg_name : string) (w w' : World) :
  ScaleDown.asg_step data asg_name w = (Ok data', w') -> describable w asg_name.
Proof.
  destruct (decide (asg_name = "")) as [->|Hname]; [by rewrite asg_step_empty|].
  destruct (asgs w !! asg_name) as [group|] eqn:Hgroup.
  - intros _. split; [done | by eexists].
  - by rewrite asg_step_missing.
Qed.

(** The loop completes only when every name it is given has a group. *)
Lemma asg_loop_exists (names : list string) (data data' : Dict.t json) (w w' : World) :
  for_fold ScaleDown.asg_step names data w = (Ok data', w') ->
  Forall (describable w) names.
Proof.
  revert data w. induction names as [|n rest IH]; intros data w Hrun; [constructor|].
  cbn [for_fold] in Hrun. rewrite bind_run in Hrun.
  destruct (ScaleDown.asg_step data n w) as [[data1|e] w1] eqn:Hstep; [|discriminate].
  pose proof (asg_step_describable _ _ _ _ _ Hstep) as Hn.
  constructor; [exact Hn|]. destruct Hn as [Hname [group Hgroup]].
  rewrite (asg_step_run _ _ _ _ Hname Hgroup) in Hstep.
  destruct (not_all_zero group); injection Hstep as <- <-.
  - apply IH in Hrun. eapply Forall_impl; [exact Hrun|]. intros m [Hm Hlive].
    split; [done|]. simpl in Hlive.
    destruct (decide (n = m)) as [<-|Hne].
    + by eexists.
    + by rewrite lookup_insert_ne in Hlive.
  - apply IH in Hrun. exact Hrun.
Qed.

(** The loop on groups for which the test of line 138 fails. *)
Lemma asg_loop_idle (names : list string) (data : Dict.t json) (w : World) :
  Forall (fun asg_name => asg_name <> ""
                          /\ exists group,
                               asgs w !! asg_name = Some group
                               /\ not_all_zero group = false) names ->
  exists w', for_fold ScaleDown.asg_step names data w = (Ok data, w') /\ quiet w w'.
Proof.
  revert w. induction names as [|n rest IH]; intros w Hnames.
  { exists w. split; [done|]. reflexivity. }
  apply Forall_cons in Hnames as [(Hname & group & Hgroup & Hzero) Hrest].
  destruct (IH (described_asg n w) Hrest) as (w' & Hrun & Hquiet).
  exists w'. cbn [for_fold].
  rewrite bind_run, (asg_step_run _ _ _ _ Hname Hgroup), Hzero. split; [exact Hrun|].
  etrans; [|exact Hquiet]. apply quiet_log. simpl. tauto.
Qed.

(** The group names [scale_down] starts from. *)
Definition asg_names (aws_asg_resources : option (list string)) (w : World) : list string :=
  if py_not aws_asg_resources then Client.first_page (asgs w)
  else items_of aws_asg_resources.

Lemma asg_names_run (aws_asg_resources : option (list string)) (w : World) :
  exists wn,
    (if py_not aws_asg_resources then Client.describe_auto_scaling_group_names
     else mret (items_of aws_asg_resources)) w
    = (Ok (asg_names aws_asg_resources w), wn)
    /\ quiet w wn.
Proof.
  unfold asg_names. destruct (py_not aws_asg_resources).
  - unfold Client.describe_auto_scaling_group_names. run. eexists.
    split; [reflexivity|]. apply quiet_log. simpl. tauto.
  - exists w. split; [reflexivity|]. reflexivity.
Qed.

Lemma asg_names_all (m : gmap string asg) (asg_name : string) :
  asg_name ∈ map fst (map_to_list m) <-> is_Some (m !! asg_name).
Proof.
  rewrite list_elem_of_fmap. split.
  - intros ([n g] & -> & Hkv). apply elem_of_map_to_list in Hkv. by eexists.
  - intros [g Hg]. exists (asg_name, g). split; [done|]. by apply elem_of_map_to_list.
Qed.

(** The first page holds groups only, and all of them when they fit. *)
Lemma first_page_exists (m : gmap string asg) (asg_name : string) :
  asg_name ∈ Client.first_page m -> is_Some (m !! asg_name).
Proof.
  unfold Client.first_page. intros Hin. apply asg_names_all.
  apply list_elem_of_lookup in Hin as [i Hi].
  apply lookup_take_Some in Hi as [Hi _]. by eapply list_elem_of_lookup_2.
Qed.

Lemma first_page_all (m : gmap string asg) (asg_name : string) :
  (size m <= Client.page_size)%nat ->
  asg_name ∈ Client.first_page m <-> is_Some (m !! asg_name).
Proof.
  intros Hsize. unfold Client.first_page.
  rewrite take_ge; [apply asg_names_all|].
  rewrite length_map, length_map_to_list. exact Hsize.
Qed.

(** The first page depends on the names of the groups only. *)
Lemma first_page_names (m1 m2 : gmap string asg) :
  (forall asg_name, is_Some (m1 !! asg_name) <-> is_Some (m2 !! asg_name)) ->
  Client.first_page m1 = Client.first_page m2.
Proof.
  intros Hdom. unfold Client.first_page. f_equal.
  assert ((fun _ => tt) <$> m1 = (fun _ : asg => tt) <$> m2) as Hunit.
  { apply map_eq. intros n. rewrite !lookup_fmap. specialize (Hdom n).
    destruct (m1 !! n), (m2 !! n); simpl; try done.
    - destruct Hdom as [Hdom _]. by destruct Hdom.
    - destruct Hdom as [_ Hdom]. by destruct Hdom. }
  apply (f_equal map_to_list) in Hunit. rewrite !map_to_list_fmap in Hunit.
  apply (f_equal (map fst)) in Hunit. rewrite !map_map in Hunit.
  exact Hunit.
Qed.

(** What a completed fleet half of [scale_down] has done. *)
Lemma aws_pass_inv (aws_asg_resources exclude_aws_asg_resources : option (list string))
    (w w' : World) :
  ScaleDown.aws aws_asg_resources exclude_aws_asg_resources w = (Ok tt, w') ->
  let selected :=
    filter_excluded_asgs (asg_names aws_asg_resources w) exclude_aws_asg_resources in
  Forall (describable w) selected
  /\ deployments w' = deployments w
  /\ statefulsets w' = statefulsets w
  /\ cronjobs w' = cronjobs w
  /\ ssm w' !! K8S_AWS_SSM_PARAMETER_NAME = ssm w !! K8S_AWS_SSM_PARAMETER_NAME
  /\ forall asg_name,
       asgs w' !! asg_name
       = if zeroes selected w asg_name then Some (Asg 0 0 0) else asgs w !! asg_name.
Proof.
  intros Hrun selected. unfold ScaleDown.aws in Hrun. rewrite bind_run in Hrun.
  destruct (asg_names_run aws_asg_resources w) as (wn & Hnames & Hquiet).
  rewrite Hnames in Hrun. fold selected in Hrun. rewrite bind_run in Hrun.
  destruct Hquiet as [Hstate _].
  apply state_eq in Hstate as (Hssm_n & Hd_n & Hs_n & Hc_n & Ha_n).
  destruct (for_fold ScaleDown.asg_step selected [] wn) as [[data|e] wl] eqn:Hloop;
    [|discriminate].
  pose proof (asg_loop_exists _ _ _ _ _ Hloop) as Hexists.
  destruct (asg_loop_run selected [] wn Hexists)
    as (data' & wl' & new & Hloop' & _ & Hssm_l & Hd_l & Hs_l & Hc_l & Hlookup).
  rewrite Hloop in Hloop'. injection Hloop' as <- <-.
  apply store_inv in Hrun as [Hlive Hstore]. injection Hlive as Hd Hs Hc Ha.
  split_and!.
  - eapply Forall_impl; [exact Hexists|]. intros n. unfold describable. by rewrite Ha_n.
  - by rewrite Hd, Hd_l.
  - by rewrite Hs, Hs_l.
  - by rewrite Hc, Hc_l.
  - destruct Hstore as [[_ ->]|(E & _ & ->)].
    + by rewrite Hssm_l, Hssm_n.
    + rewrite lookup_insert_ne by done. by rewrite Hssm_l, Hssm_n.
  - intros asg_name. destruct (Hlookup asg_name) as (_ & Hasg & _).
    rewrite Ha, Hasg. unfold zeroes. by rewrite Ha_n.
Qed.

(** After it, the groups it selected are groups the loop leaves alone, in
    any world with the same groups. *)
Lemma aws_pass_settles (aws_asg_resources exclude_aws_asg_resources : option (list string))
    (w w' w2 : World) :
  ScaleDown.aws aws_asg_resources exclude_aws_asg_resources w = (Ok tt, w') ->
  asgs w2 = asgs w' ->
  Forall (fun asg_name => asg_name <> ""
                          /\ exists group,
                               asgs w2 !! asg_name = Some group
                               /\ not_all_zero group = false)
         (filter_excluded_asgs (asg_names aws_asg_resources w2) exclude_aws_asg_resources).
Proof.
  intros Hrun Hsame.
  destruct (aws_pass_inv _ _ _ _ Hrun) as (Hexists & _ & _ & _ & _ & Hlookup).
  set (selected := filter_excluded_asgs (asg_names aws_asg_resources w)
                     exclude_aws_asg_resources) in *.
  assert (Hnames : asg_names aws_asg_resources w2 = asg_names aws_asg_resources w).
  { unfold asg_names. destruct (py_not aws_asg_resources); [|done].
    apply first_page_names. intros n. rewrite Hsame, Hlookup.
    destruct (zeroes selected w n) eqn:Hz; [|done].
    unfold zeroes in Hz. apply andb_true_iff in Hz as [_ Hz].
    destruct (asgs w !! n); [|discriminate]. split; by eexists. }
  rewrite Hnames. fold selected.
  apply Forall_forall. intros n Hsel.
  rewrite Forall_forall in Hexists. destruct (Hexists _ Hsel) as [Hname [group Hgroup]].
  split; [exact Hname|].
  rewrite Hsame, Hlookup. unfold zeroes. rewrite bool_decide_eq_true_2 by exact Hsel.
  rewrite Hgroup. simpl. destruct (not_all_zero group) eqn:Hnz.
  - by exists (Asg 0 0 0).
  - by exists group.
Qed.

Lemma aws_pass_idle (aws_asg_resources exclude_aws_asg_resources : option (list string))
    (w : World) :
  Forall (fun asg_name => asg_name <> ""
                          /\ exists group,
                               asgs w !! asg_name = Some group
                               /\ not_all_zero group = false)
         (filter_excluded_asgs (asg_names aws_asg_resources w) exclude_aws_asg_resources) ->
  exists w',
    ScaleDown.aws aws_asg_resources exclude_aws_asg_resources w = (Ok tt, w')
    /\ quiet w w'.
Proof.
  intros Hidle. unfold ScaleDown.aws. rewrite bind_run.
  destruct (asg_names_run aws_asg_resources w) as (wn & -> & Hquiet).
  pose proof Hquiet as [Hstate _]. apply state_eq in Hstate as (_ & _ & _ & _ & Ha_n).
  destruct (asg_loop_idle
              (filter_excluded_asgs (asg_names aws_asg_resources w)
                 exclude_aws_asg_resources) [] wn) as (wl & Hloop & Hquiet_l).
  { eapply Forall_impl; [exact Hidle|]. intros n. simpl. by rewrite Ha_n. }
  rewrite bind_run, Hloop. simpl. exists wl. split; [done|]. by etrans.
Qed.

(** ** [scale_down] twice *)

Lemma captured_true (l : list workload) (key : string * string) :
  captured l key = true <->
  exists res, res ∈ l /\ workload_id res = key /\ 0 < w_replicas res.
Proof.
  unfold captured. rewrite existsb_exists. split.
  - intros (res & Hin & Hres). apply andb_true_iff in Hres as [Hid Hr].
    exists res. split_and!; [by apply list_elem_of_In | by apply bool_decide_eq_true in Hid |].
    by apply Z.ltb_lt.
  - intros (res & Hin & Hid & Hr). exists res. split; [by apply list_elem_of_In|].
    apply andb_true_iff. split; [by apply bool_decide_eq_true | by apply Z.ltb_lt].
Qed.

Lemma existsb_pointwise {A : Type} (f g : A -> bool) (l : list A) :
  (forall x, f x = g x) -> existsb f l = existsb g l.
Proof. intros Hfg. induction l as [|x l IH]; simpl; [done|]. by rewrite Hfg, IH. Qed.

Lemma same_id_filtered {A B : Type} `{Metadata A} `{Metadata B}
    (kind : string) (exclude_list : option (list resource_ref))
    (l : list A) (l2 : list B) (b : B) (a : A) :
  b ∈ filter_excluded_k8s_resources kind l2 exclude_list ->
  a ∈ l -> namespace a = namespace b -> name a = name b ->
  a ∈ filter_excluded_k8s_resources kind l exclude_list.
Proof.
  intros Hb Ha Hns Hn. apply filter_excluded_k8s_resources_In in Hb as [_ Hkept].
  apply filter_excluded_k8s_resources_In. split; [exact Ha|].
  rewrite <- Hkept. apply existsb_pointwise. intros entry. by apply excludes_same_id.
Qed.

(** After the capture loop, the workloads selected again are at zero or
    below. *)
Lemma capture_settles (k : wkind) (kind : string)
    (exclude_list : option (list resource_ref)) (l l2 : list workload) (w0 w1 : World) :
  consistent k w0 l -> consistent k w1 l2 ->
  (forall key, key ∈ map workload_id l2 -> key ∈ map workload_id l) ->
  (forall key, Kind.live k w1 !! key
               = if captured (filter_excluded_k8s_resources kind l exclude_list) key
                 then Some 0 else Kind.live k w0 !! key) ->
  Forall (fun res => w_replicas res <= 0)
         (filter_excluded_k8s_resources kind l2 exclude_list).
Proof.
  intros Hcons Hcons2 Hids Hlookup. apply Forall_forall. intros res2 Hres2.
  pose proof Hres2 as Hin2. apply filter_excluded_k8s_resources_In in Hin2 as [Hin2 _].
  unfold consistent in *. rewrite Forall_forall in Hcons, Hcons2.
  pose proof (Hcons2 _ Hin2) as Hlive2. rewrite Hlookup in Hlive2.
  assert (Hres : workload_id res2 ∈ map workload_id l).
  { apply Hids. apply list_elem_of_fmap. by exists res2. }
  apply list_elem_of_fmap in Hres as (res & Hid & Hin).
  destruct (captured _ (workload_id res2)) eqn:Hcap.
  - injection Hlive2 as <-. lia.
  - rewrite Hid, (Hcons _ Hin) in Hlive2. injection Hlive2 as <-.
    destruct (Z.le_gt_cases (w_replicas res) 0) as [|Hpos]; [done|].
    assert (captured (filter_excluded_k8s_resources kind l exclude_list)
                     (workload_id res2) = true) as Hcap'; [|congruence].
    apply captured_true. exists res. split_and!; [|done|lia].
    unfold workload_id in Hid. injection Hid as Hns Hn.
    by apply (same_id_filtered kind exclude_list l l2 res2 res).
Qed.

Lemma captured_exists (k : wkind) (w : World) (l : list workload) (key : string * string) :
  consistent k w l -> captured l key = true -> is_Some (Kind.live k w !! key).
Proof.
  intros Hcons (res & Hin & <- & _)%captured_true.
  unfold consistent in Hcons. rewrite Forall_forall in Hcons.
  rewrite (Hcons _ Hin). by eexists.
Qed.

(** C3.  After a [scale_down] that has completed, a second [scale_down]
    with the same arguments completes as well, and changes nothing but the
    log of calls: replicas, suspend flags, capacities and both stored
    parameters are what the first run left, and the second run makes no
    [put_parameter] call, so no record of the first run is replaced, by a
    zero or by anything else. *)
Theorem scale_down_twice
    (k8s_resources : option (list resource_ref)) (aws_asg_resources : option (list string))
    (exclude_k8s_resources : option (list resource_ref))
    (exclude_aws_asg_resources : option (list string)) (w0 w1 : World) :
  scale_down k8s_resources aws_asg_resources exclude_k8s_resources
             exclude_aws_asg_resources w0 = (Ok tt, w1) ->
  exists (w2 : World) (new : list call),
    scale_down k8s_resources aws_asg_resources exclude_k8s_resources
               exclude_aws_asg_resources w1 = (Ok tt, w2)
    /\ live_state w2 = live_state w1
    /\ ssm w2 = ssm w1
    /\ calls w2 = new ++ calls w1
    /\ forall parameter_name value, PutParameter parameter_name value ∉ new.
Proof.
  intros Hrun. unfold scale_down in *. rewrite bind_run in Hrun.
  destruct (ScaleDown.k8s k8s_resources exclude_k8s_resources w0)
    as [[[]|e] wk] eqn:Hk8s; [|discriminate].
  destruct (k8s_pass_inv _ _ _ _ Hk8s)
    as (ds & ss & cs & wa & data & Hfetch & Hcd & Hcs & Hcc & Hd_k & Hs_k & Hc_k & _).
  destruct (aws_pass_inv _ _ _ _ Hrun) as (_ & Hd_1 & Hs_1 & Hc_1 & _ & _).
  assert (Hsame : same_objects w0 w1).
  { split_and!; intros key.
    - rewrite Hd_1, Hd_k. destruct (captured _ key) eqn:Hcap; [|done].
      split; [by eexists|]. intros _.
      apply (captured_exists KDeployment w0 _ key (consistent_filter _ _ _ _ _ Hcd) Hcap).
    - rewrite Hs_1, Hs_k. destruct (captured _ key) eqn:Hcap; [|done].
      split; [by eexists|]. intros _.
      apply (captured_exists KStatefulSet w0 _ key (consistent_filter _ _ _ _ _ Hcs) Hcap).
    - rewrite Hc_1, Hc_k. case_bool_decide as Hkey; [|done].
      split; [by eexists|]. intros _.
      apply list_elem_of_fmap in Hkey as (cj & -> & Hcj).
      apply filter_excluded_k8s_resources_In in Hcj as [Hcj _].
      unfold cronjobs_consistent in Hcc. rewrite Forall_forall in Hcc.
      rewrite (Hcc _ Hcj). by eexists. }
  destruct (fetch_again _ _ w1 _ _ _ _ Hfetch Hsame)
    as (ds2 & ss2 & cs2 & wb & Hfetch2 & _ & Hcd2 & Hcs2 & Hcc2 & Hids_d & Hids_s & Hids_c).
  destruct (k8s_pass_idle k8s_resources exclude_k8s_resources w1 wb ds2 ss2 cs2 Hfetch2)
    as (wk2 & Hk8s2 & Hquiet_k).
  { apply (capture_settles KDeployment _ _ ds ds2 w0 w1); try done.
    intros key. simpl. by rewrite Hd_1. }
  { apply (capture_settles KStatefulSet _ _ ss ss2 w0 w1); try done.
    intros key. simpl. by rewrite Hs_1. }
  { apply Forall_forall. intros cj2 Hcj2. rewrite Hc_1, Hc_k.
    rewrite bool_decide_eq_true_2; [done|].
    pose proof Hcj2 as Hin2. apply filter_excluded_k8s_resources_In in Hin2 as [Hin2 _].
    assert (Hcj : cronjob_key cj2 ∈ map cronjob_key cs).
    { apply Hids_c. apply list_elem_of_fmap. by exists cj2. }
    apply list_elem_of_fmap in Hcj as (cj & Hid & Hin).
    apply list_elem_of_fmap. exists cj. split; [done|].
    unfold cronjob_key in Hid. injection Hid as Hns Hn.
    by apply (same_id_filtered "CronJob" exclude_k8s_resources cs cs2 cj2 cj). }
  pose proof Hquiet_k as [Hstate_k _].
  apply state_eq in Hstate_k as (_ & _ & _ & _ & Ha_k2).
  destruct (aws_pass_idle aws_asg_resources exclude_aws_asg_resources wk2)
    as (w2 & Haws2 & Hquiet_a).
  { by apply (aws_pass_settles _ _ wk w1 wk2). }
  assert (Hquiet : quiet w1 w2) by (by etrans).
  destruct Hquiet as [Hstate (new & Hcalls & Hnew)].
  apply state_eq in Hstate as (Hssm & Hd & Hs & Hc & Ha).
  exists w2, new. rewrite bind_run, Hk8s2. split_and!; try done.
  - unfold live_state. by rewrite Hd, Hs, Hc, Ha.
  - intros parameter_name value Hin. rewrite Forall_forall in Hnew.
    by apply (Hnew _ Hin).
Qed.

(** A cluster with a Deployment in use and one at zero, a StatefulSet, a
    CronJob and a group, and nothing stored. *)
Definition cluster_example : World :=
  MkWorld ∅
    (<[("default", "web") := 5]> {[("default", "api") := 0]})
    {[("db", "pg") := 2]}
    {[("default", "nightly") := false]}
    {[ "ng-1" := Asg 1 2 3 ]} [].

Lemma scale_down_twice_witness :
  exists (w2 : World) (new : list call),
    scale_down None None None None (scale_down None None None None cluster_example).2
    = (Ok tt, w2)
    /\ live_state w2 = live_state (scale_down None None None None cluster_example).2
    /\ ssm w2 = ssm (scale_down None None None None cluster_example).2
    /\ calls w2 = new ++ calls (scale_down None None None None cluster_example).2
    /\ forall parameter_name value, PutParameter parameter_name value ∉ new.
Proof.
  apply (scale_down_twice None None None None cluster_example).
  vm_compute. reflexivity.
Defined.

(** ** [scale_down], then [scale_up] *)

(** Kubernetes names hold no slash. *)
Definition slash_free (res : workload) : Prop :=
  Str.free_of "/" (w_namespace res) = true /\ Str.free_of "/" (w_name res) = true.

Definition valid_names (w : World) : Prop :=
  forall namespace name,
    is_Some (deployments w !! (namespace, name))
    \/ is_Some (statefulsets w !! (namespace, name)) ->
    Str.free_of "/" namespace = true /\ Str.free_of "/" name = true.

Lemma workload_key_split (k : wkind) (res : workload) :
  slash_free res ->
  Str.split "/" (workload_key (Kind.name k) res)
  = [Kind.name k; w_namespace res; w_name res].
Proof.
  intros [Hns Hn]. unfold workload_key. apply StrFacts.split_key; [|done|done].
  by destruct k.
Qed.

Lemma workload_key_inj (k k' : wkind) (res res' : workload) :
  slash_free res -> slash_free res' ->
  workload_key (Kind.name k) res = workload_key (Kind.name k') res' ->
  k = k' /\ workload_id res = workload_id res'.
Proof.
  intros Hres Hres' Hkey.
  pose proof (workload_key_split k res Hres) as Hsplit.
  rewrite Hkey, (workload_key_split k' res' Hres') in Hsplit.
  injection Hsplit as Hk Hns Hn. split.
  - destruct k, k'; done.
  - unfold workload_id. by rewrite Hns, Hn.
Qed.

(** One turn of the restore loop on what the capture loop recorded for an
    object that exists. *)
Lemma restore_step_run (k : wkind) (res : workload) (w : World) :
  slash_free res ->
  is_Some (Kind.live k w !! workload_id res) ->
  ScaleUp.k8s_step (capture_pair k res) w
  = (Ok tt,
     patched_workload k (w_namespace res) (w_name res) (w_replicas res)
       (set_calls (cons (Kind.read_call k (w_namespace res) (w_name res))) w)).
Proof.
  intros Hfree [r Hlive]. unfold ScaleUp.k8s_step, capture_pair.
  rewrite (workload_key_split k res Hfree). cbn [unpack3]. rewrite bind_run.
  cbn [mret M_ret].
  assert (Hstep :
            (if String.eqb (Kind.name k) "deployment"
             then Client.read_namespaced_deployment (w_name res) (w_namespace res) ;;
                  Client.patch_namespaced_deployment (w_name res) (w_namespace res)
                    (JNum (w_replicas res))
             else if String.eqb (Kind.name k) "statefulset"
                  then Client.read_namespaced_stateful_set (w_name res) (w_namespace res) ;;
                       Client.patch_namespaced_stateful_set (w_name res) (w_namespace res)
                         (JNum (w_replicas res))
                  else mret tt)
            = (Kind.read k (w_name res) (w_namespace res) ;;
               Kind.patch k (w_name res) (w_namespace res) (JNum (w_replicas res))))
    by (destruct k; reflexivity).
  rewrite Hstep, bind_run, (read_workload_run k _ _ r) by exact Hlive.
  apply patch_workload_run. rewrite live_set_calls. by eexists.
Qed.

#[export] Instance wkind_eq_dec : EqDecision wkind.
Proof. solve_decision. Defined.

Lemma patched_workload_lookup (k k' : wkind) (namespace name : string) (n : Z)
    (w : World) (key : string * string) :
  Kind.live k (patched_workload k' namespace name n w) !! key
  = if decide (k = k' /\ key = (namespace, name)) then Some n else Kind.live k w !! key.
Proof.
  destruct (decide (k = k' /\ key = (namespace, name))) as [[-> ->]|Hne].
  - rewrite patched_workload_live. apply lookup_insert_eq.
  - destruct (decide (k = k')) as [->|Hk].
    + rewrite patched_workload_live. apply lookup_insert_ne. naive_solver.
    + destruct k, k'; done.
Qed.

(** What the capture loop records for an object of [w0]. *)
Definition entry_of (w0 : World) (kv : string * json) : Prop :=
  exists k res,
    kv = capture_pair k res /\ slash_free res
    /\ Kind.live k w0 !! workload_id res = Some (w_replicas res).

(** An entry that is well formed and either of another kind, or for an
    object of [w0] that is not among the [protected] ones, with an integer
    for its replicas. *)
Definition foreign_entry (w0 : World) (protected : wkind -> string * string -> Prop)
    (kv : string * json) : Prop :=
  exists kind namespace name,
    Str.split "/" kv.1 = [kind; namespace; name]
    /\ forall k, kind = Kind.name k ->
         exists r, kv.2 = JNum r
                   /\ is_Some (Kind.live k w0 !! (namespace, name))
                   /\ ~ protected k (namespace, name).

(** One turn of the restore loop on a foreign entry: it patches at most the
    object the entry names. *)
Lemma foreign_step_run (w0 : World) (protected : wkind -> string * string -> Prop)
    (kv : string * json) (w : World) :
  foreign_entry w0 protected kv ->
  (forall k key, is_Some (Kind.live k w0 !! key) -> is_Some (Kind.live k w !! key)) ->
  ScaleUp.k8s_step kv w = (Ok tt, w)
  \/ exists k namespace name r,
       ~ protected k (namespace, name)
       /\ is_Some (Kind.live k w !! (namespace, name))
       /\ ScaleUp.k8s_step kv w
          = (Ok tt,
             patched_workload k namespace name r
               (set_calls (cons (Kind.read_call k namespace name)) w)).
Proof.
  intros (kind & namespace & name & Hsplit & Hkind) Hdom.
  destruct kv as [key replicas]. simpl in *.
  unfold ScaleUp.k8s_step. rewrite Hsplit. cbn [unpack3]. rewrite bind_run.
  cbn [mret M_ret].
  destruct (String.eqb_spec kind "deployment") as [->|Hnd].
  - destruct (Hkind KDeployment eq_refl) as (r & -> & Hlive & Hfree).
    right. exists KDeployment, namespace, name, r.
    pose proof (Hdom KDeployment _ Hlive) as Hw. split_and!; [done | done |].
    destruct Hw as [r' Hr']. rewrite bind_run.
    pose proof (read_workload_run KDeployment _ _ r' w Hr') as Hread.
    cbn [Kind.read] in Hread. rewrite Hread.
    apply (patch_workload_run KDeployment). rewrite live_set_calls. by eexists.
  - destruct (String.eqb_spec kind "statefulset") as [->|Hns]; [|by left].
    destruct (Hkind KStatefulSet eq_refl) as (r & -> & Hlive & Hfree).
    right. exists KStatefulSet, namespace, name, r.
    pose proof (Hdom KStatefulSet _ Hlive) as Hw. split_and!; [done | done |].
    destruct Hw as [r' Hr']. rewrite bind_run.
    pose proof (read_workload_run KStatefulSet _ _ r' w Hr') as Hread.
    cbn [Kind.read] in Hread. rewrite Hread.
    apply (patch_workload_run KStatefulSet). rewrite live_set_calls. by eexists.
Qed.

(** The restore loop over entries that were recorded from [w0] or are
    foreign, in a world that has the objects of [w0], completes.  A
    protected object is then as it was in [w0], or no recorded entry is
    for it and it is as it was before the loop. *)
Lemma restore_loop_run (w0 : World) (protected : wkind -> string * string -> Prop)
    (l : list (string * json)) (w : World) :
  Forall (fun kv => entry_of w0 kv \/ foreign_entry w0 protected kv) l ->
  (forall k key, is_Some (Kind.live k w0 !! key) -> is_Some (Kind.live k w !! key)) ->
  exists w',
    for_each ScaleUp.k8s_step l w = (Ok tt, w')
    /\ ssm w' = ssm w /\ cronjobs w' = cronjobs w /\ asgs w' = asgs w
    /\ forall k key,
         protected k key ->
         Kind.live k w' !! key = Kind.live k w0 !! key
         \/ (Kind.live k w' !! key = Kind.live k w !! key
             /\ forall res, slash_free res -> capture_pair k res ∈ l ->
                            workload_id res <> key).
Proof.
  revert w. induction l as [|kv rest IH]; intros w Hl Hdom.
  { exists w. split_and!; try done. intros k key _. right. split; [done|].
    intros res _ Hin. by apply not_elem_of_nil in Hin. }
  apply Forall_cons in Hl as [Hkv Hrest]. cbn [for_each]. rewrite bind_run.
  assert (Hstep : exists w1,
            ScaleUp.k8s_step kv w = (Ok tt, w1)
            /\ ssm w1 = ssm w /\ cronjobs w1 = cronjobs w /\ asgs w1 = asgs w
            /\ (forall k key, is_Some (Kind.live k w0 !! key) ->
                              is_Some (Kind.live k w1 !! key))
            /\ forall k key,
                 protected k key ->
                 Kind.live k w1 !! key = Kind.live k w0 !! key
                 \/ (Kind.live k w1 !! key = Kind.live k w !! key
                     /\ forall res, slash_free res -> capture_pair k res = kv ->
                                    workload_id res <> key)).
  { destruct Hkv as [(k' & res' & -> & Hfree & Hlive0)|Hforeign].
    - eexists. split; [apply (restore_step_run k' res' w Hfree); apply Hdom; by eexists|].
      destruct (patched_workload_rest k' (w_namespace res') (w_name res') (w_replicas res')
                  (set_calls (cons (Kind.read_call k' (w_namespace res') (w_name res'))) w))
        as (Hssm1 & Hcron1 & Hasg1).
      split_and!; [done | done | done | |].
      + intros k key Hkey. rewrite patched_workload_lookup.
        case_decide; [by eexists|]. rewrite live_set_calls. by apply Hdom.
      + intros k key _. rewrite patched_workload_lookup, live_set_calls.
        destruct (decide (k = k' /\ key = (w_namespace res', w_name res')))
          as [[-> ->]|Hne].
        * unfold workload_id in Hlive0. left. by rewrite Hlive0.
        * right. split; [done|]. intros res Hres Heq. injection Heq as Hkey _.
          destruct (workload_key_inj k k' res res' Hres Hfree Hkey) as [-> Hid].
          intros <-. apply Hne. by rewrite Hid.
    - pose proof Hforeign as (kind & namespace & name & Hsplit & Hkind).
      destruct (foreign_step_run w0 protected kv w Hforeign Hdom)
        as [Hrun|(k' & ns' & n' & r & Hfree & Hlive & Hrun)].
      + exists w. split_and!; try done. intros k key Hprot. right. split; [done|].
        intros res Hres <- <-. simpl in Hsplit.
        rewrite (workload_key_split k res Hres) in Hsplit.
        injection Hsplit as <- <- <-.
        destruct (Hkind k eq_refl) as (_ & _ & _ & Hnot). by apply Hnot.
      + eexists. split; [exact Hrun|].
        destruct (patched_workload_rest k' ns' n' r
                    (set_calls (cons (Kind.read_call k' ns' n')) w))
          as (Hssm1 & Hcron1 & Hasg1).
        split_and!; [done | done | done | |].
        * intros k key Hkey. rewrite patched_workload_lookup.
          case_decide; [by eexists|]. rewrite live_set_calls. by apply Hdom.
        * intros k key Hprot. rewrite patched_workload_lookup, live_set_calls.
          destruct (decide (k = k' /\ key = (ns', n'))) as [[-> ->]|Hne]; [done|].
          right. split; [done|].
          intros res Hres <- <-. simpl in Hsplit.
          rewrite (workload_key_split k res Hres) in Hsplit.
          injection Hsplit as <- <- <-.
          destruct (Hkind k eq_refl) as (_ & _ & _ & Hnot). by apply Hnot. }
  destruct Hstep as (w1 & Hrun1 & Hssm1 & Hcron1 & Hasg1 & Hdom1 & Hlive1).
  rewrite Hrun1.
  destruct (IH w1 Hrest Hdom1) as (w' & Hrun & Hssm & Hcron & Hasg & Hlive).
  exists w'. split_and!; [done | by rewrite Hssm | by rewrite Hcron | by rewrite Hasg |].
  intros k key Hprot. destruct (Hlive k key Hprot) as [Hw0|[Hw1 Hnone]]; [by left|].
  destruct (Hlive1 k key Hprot) as [Hw0|[Hsame Hnot]].
  - left. by rewrite Hw1.
  - right. split; [by rewrite Hw1|].
    intros res Hres [Heq|Hin]%elem_of_cons; [by apply Hnot | by apply Hnone].
Qed.

Lemma dict_entry_get {V : Type} (k : string) (v : V) (d : Dict.t V) :
  NoDup (Dict.keys d) -> (k, v) ∈ d -> Dict.get k d = Some v.
Proof.
  induction d as [|[k0 v0] d IH]; simpl.
  - intros _ Hin. by apply not_elem_of_nil in Hin.
  - intros [Hk0 Hd]%NoDup_cons [Heq|Hin]%elem_of_cons.
    + injection Heq as -> ->. by rewrite String.eqb_refl.
    + destruct (String.eqb_spec k k0) as [->|Hne]; [|by apply IH].
      exfalso. apply Hk0. apply list_elem_of_fmap. by exists (k0, v).
Qed.

(** The workloads of kind [k] that [scale_down] works on, from the objects
    [ds] and [ss] it fetched. *)
Definition selected_workloads (ds ss : list workload)
    (exclude_k8s_resources : option (list resource_ref)) (k : wkind) : list workload :=
  match k with
  | KDeployment => filter_excluded_k8s_resources "Deployment" ds exclude_k8s_resources
  | KStatefulSet => filter_excluded_k8s_resources "StatefulSet" ss exclude_k8s_resources
  end.

(** The workload entry of the store holds no conflicting key: it is a
    dictionary, and each of its entries either has the key of a selected
    workload in use, which this capture records again, or is a well-formed
    entry for something else than a selected workload. *)
Definition no_conflicting_keys (w0 : World) (selected : wkind -> list workload)
    (E : Dict.t json) : Prop :=
  NoDup (Dict.keys E)
  /\ Forall (fun kv =>
               (exists k res, res ∈ selected k /\ 0 < w_replicas res
                              /\ kv.1 = workload_key (Kind.name k) res)
               \/ foreign_entry w0 (fun k key => key ∈ map workload_id (selected k)) kv) E.

Lemma restore_aws_frame :
  preserves (untouched (fun w => (ssm w, deployments w, statefulsets w)) no_call)
            ScaleUp.aws.
Proof. unfold_script. preserves_with untouched_client. Qed.

(** The Kubernetes pass of [scale_up] is the loop over the stored entries,
    when the loop completes. *)
Lemma k8s_restore_run (L : list (string * json)) (w w' : World) :
  (ssm w !! K8S_AWS_SSM_PARAMETER_NAME = None /\ L = [])
  \/ ssm w !! K8S_AWS_SSM_PARAMETER_NAME = Some (JObj L) ->
  for_each ScaleUp.k8s_step L
    (set_calls (cons (GetParameter K8S_AWS_SSM_PARAMETER_NAME)) w) = (Ok tt, w') ->
  ScaleUp.k8s w = (Ok tt, w').
Proof.
  intros Hstored Hloop.
  unfold ScaleUp.k8s, try_except_ParameterNotFound, Client.get_parameter. run.
  destruct Hstored as [[-> ->] | ->]; simpl.
  - simpl in Hloop. by injection Hloop as <-.
  - rewrite bind_run. simpl. by rewrite Hloop.
Qed.

(** The entries the store holds for the workloads after the capture. *)
Lemma stored_entries_after_capture
    (w0 wk : World) (selected : wkind -> list workload) (data E : Dict.t json) :
  (forall k res, res ∈ selected k ->
     slash_free res /\ Kind.live k w0 !! workload_id res = Some (w_replicas res)) ->
  Forall (fun kv => exists k res, res ∈ selected k /\ 0 < w_replicas res
                                  /\ kv = capture_pair k res) data ->
  (forall k res, res ∈ selected k -> 0 < w_replicas res ->
                 workload_key (Kind.name k) res ∈ Dict.keys data) ->
  NoDup (Dict.keys data) ->
  stored_object w0 K8S_AWS_SSM_PARAMETER_NAME = Some E ->
  no_conflicting_keys w0 selected E ->
  (data = [] /\ ssm wk = ssm w0)
  \/ (exists E', stored_object w0 K8S_AWS_SSM_PARAMETER_NAME = Some E'
                 /\ ssm wk = <[K8S_AWS_SSM_PARAMETER_NAME
                                := JObj (Dict.update E' data)]> (ssm w0)) ->
  exists L : list (string * json),
    ((ssm wk !! K8S_AWS_SSM_PARAMETER_NAME = None /\ L = [])
     \/ ssm wk !! K8S_AWS_SSM_PARAMETER_NAME = Some (JObj L))
    /\ Forall (fun kv =>
                 entry_of w0 kv
                 \/ foreign_entry w0 (fun k key => key ∈ map workload_id (selected k)) kv) L
    /\ forall key, key ∈ Dict.keys data -> exists v, (key, v) ∈ L /\ (key, v) ∈ data.
Proof.
  intros Hsel Hdata Hkeys Hnd_data HE [Hnd Hentries] Hstore.
  rewrite Forall_forall in Hdata, Hentries.
  assert (Hrecorded : forall kv, kv ∈ data -> entry_of w0 kv).
  { intros kv (k & res & Hres & _ & ->)%Hdata. exists k, res.
    destruct (Hsel k res Hres). by split_and!. }
  destruct Hstore as [[-> Hssm]|(E' & HE' & Hssm)].
  - exists E. split_and!.
    + rewrite Hssm. unfold stored_object in HE.
      destruct (ssm w0 !! K8S_AWS_SSM_PARAMETER_NAME) as [[]|]; simplify_eq;
        [by right | by left].
    + apply Forall_forall. intros kv [(k & res & Hres & Hr & _)|Hforeign]%Hentries;
        [|by right].
      pose proof (Hkeys k res Hres Hr) as Hkey. by apply not_elem_of_nil in Hkey.
    + intros key Hkey. by apply not_elem_of_nil in Hkey.
  - rewrite HE in HE'. injection HE' as <-.
    exists (Dict.update E data). split_and!.
    + right. rewrite Hssm. apply lookup_insert_eq.
    + apply Forall_forall. intros [key v] Hkv.
      destruct (dict_update_entries _ _ _ Hkv) as [Hin|Hin]; [left; by apply Hrecorded|].
      destruct (Hentries _ Hin) as [(k & res & Hres & Hr & Hkey)|Hforeign]; [|by right].
      left. apply Hrecorded. simpl in Hkey.
      pose proof (Hkeys k res Hres Hr) as Hcaptured. rewrite <- Hkey in Hcaptured.
      apply DictFacts.get_Some_keys in Hcaptured as [v' Hv'].
      assert (Dict.get key (Dict.update E data) = Some v) as Hget.
      { apply dict_entry_get; [by apply DictFacts.update_NoDup | done]. }
      rewrite DictFacts.get_update, Hv' in Hget by done. injection Hget as <-.
      by apply dict_get_entry.
    + intros key Hkey. apply DictFacts.get_Some_keys in Hkey as [v Hv].
      exists v. split; [|by apply dict_get_entry].
      apply dict_get_entry. by rewrite DictFacts.get_update, Hv.
Qed.

(** C2.  Let [scale_down] complete from [w0], where it works on the
    Deployments and StatefulSets it fetched and did not exclude; let their
    names be Kubernetes names, and let the workload entry of the store hold
    no conflicting key.  Then a [scale_up] run right after it, once past its
    fleet pass, completes, and every one of these workloads has again the
    replicas it had in [w0]. *)
Theorem scale_down_then_scale_up
    (k8s_resources : option (list resource_ref)) (aws_asg_resources : option (list string))
    (exclude_k8s_resources : option (list resource_ref))
    (exclude_aws_asg_resources : option (list string))
    (w0 wa w1 wf : World) (ds ss : list workload) (cs : list cronjob) (E : Dict.t json) :
  ScaleDown.fetch k8s_resources w0 = (Ok (ds, ss, cs), wa) ->
  scale_down k8s_resources aws_asg_resources exclude_k8s_resources
             exclude_aws_asg_resources w0 = (Ok tt, w1) ->
  valid_names w0 ->
  stored_object w0 K8S_AWS_SSM_PARAMETER_NAME = Some E ->
  no_conflicting_keys w0 (selected_workloads ds ss exclude_k8s_resources) E ->
  ScaleUp.aws w1 = (Ok tt, wf) ->
  exists w2 : World,
    scale_up w1 = (Ok tt, w2)
    /\ (forall res,
          res ∈ filter_excluded_k8s_resources "Deployment" ds exclude_k8s_resources ->
          deployments w0 !! workload_id res = Some (w_replicas res)
          /\ deployments w2 !! workload_id res = Some (w_replicas res))
    /\ (forall res,
          res ∈ filter_excluded_k8s_resources "StatefulSet" ss exclude_k8s_resources ->
          statefulsets w0 !! workload_id res = Some (w_replicas res)
          /\ statefulsets w2 !! workload_id res = Some (w_replicas res)).
Proof.
  intros Hfetch Hrun Hvalid HE Hconflict Hfleet.
  set (selected := selected_workloads ds ss exclude_k8s_resources) in *.
  unfold scale_down in Hrun. rewrite bind_run in Hrun.
  destruct (ScaleDown.k8s k8s_resources exclude_k8s_resources w0)
    as [[[]|e] wk] eqn:Hk8s; [|discriminate].
  destruct (k8s_pass_inv _ _ _ _ Hk8s)
    as (ds' & ss' & cs' & wa' & data & Hfetch' & Hcd & Hcs & _ & Hd_k & Hs_k & _ & _
        & Hdata & Hkeys_d & Hkeys_s & Hnd_data & Hstore).
  rewrite Hfetch in Hfetch'. injection Hfetch' as <- <- <- <-.
  destruct (aws_pass_inv _ _ _ _ Hrun) as (_ & Hd_1 & Hs_1 & _ & Hssm_1 & _).
  pose proof (restore_aws_frame w1) as [Hframe _]. rewrite Hfleet in Hframe.
  simpl in Hframe. injection Hframe as Hssm_f Hd_f Hs_f.
  (* the two kinds at once *)
  assert (Hcons : forall k, consistent k w0 (selected k)).
  { intros []; by apply consistent_filter. }
  assert (Hlive_k : forall k key,
            Kind.live k wf !! key
            = if captured (selected k) key then Some 0 else Kind.live k w0 !! key).
  { intros [] key; simpl; [by rewrite Hd_f, Hd_1 | by rewrite Hs_f, Hs_1]. }
  assert (Hsel : forall k res, res ∈ selected k ->
            slash_free res /\ Kind.live k w0 !! workload_id res = Some (w_replicas res)).
  { intros k res Hres. pose proof (Hcons k) as Hk. unfold consistent in Hk.
    rewrite Forall_forall in Hk. specialize (Hk _ Hres). split; [|done].
    apply Hvalid. destruct k; [left | right]; simpl in Hk;
      unfold workload_id in Hk; rewrite Hk; by eexists. }
  assert (Hkeys : forall k res, res ∈ selected k -> 0 < w_replicas res ->
            workload_key (Kind.name k) res ∈ Dict.keys data).
  { intros []; [apply Hkeys_d | apply Hkeys_s]. }
  assert (Hdata' : Forall (fun kv => exists k res, res ∈ selected k /\ 0 < w_replicas res
                                                   /\ kv = capture_pair k res) data).
  { eapply Forall_impl; [exact Hdata|].
    intros kv [(res & ? & ? & ?)|(res & ? & ? & ?)];
      [exists KDeployment, res | exists KStatefulSet, res]; done. }
  destruct (stored_entries_after_capture w0 wk selected data E
              Hsel Hdata' Hkeys Hnd_data HE Hconflict Hstore)
    as (L & Hstored & Hentries & Hcovered).
  (* the restore loop *)
  destruct (restore_loop_run w0 (fun k key => key ∈ map workload_id (selected k)) L
              (set_calls (cons (GetParameter K8S_AWS_SSM_PARAMETER_NAME)) wf) Hentries)
    as (w' & Hloop & _ & _ & _ & Hrestored).
  { intros k key Hkey. rewrite live_set_calls, Hlive_k.
    by destruct (captured (selected k) key). }
  assert (Hk8s_up : ScaleUp.k8s wf = (Ok tt, w')).
  { apply (k8s_restore_run L); [|exact Hloop]. by rewrite Hssm_f, Hssm_1. }
  assert (Hall : forall k res, res ∈ selected k ->
            Kind.live k w' !! workload_id res = Some (w_replicas res)).
  { intros k res Hres. destruct (Hsel k res Hres) as [Hfree Hlive0].
    destruct (Hrestored k (workload_id res)) as [Hw0|[Hsame Hnone]].
    - apply list_elem_of_fmap. by exists res.
    - by rewrite Hw0.
    - rewrite Hsame, live_set_calls, Hlive_k.
      destruct (captured (selected k) (workload_id res)) eqn:Hcap; [|done].
      exfalso. apply captured_true in Hcap as (res' & Hres' & Hid & Hr').
      destruct (Hcovered _ (Hkeys k res' Hres' Hr')) as (v & HinL & Hin_data).
      rewrite Forall_forall in Hdata'.
      destruct (Hdata' _ Hin_data) as (k2 & res2 & Hres2 & _ & Heq).
      injection Heq as Hkey ->.
      destruct (Hsel k res' Hres') as [Hfree' _].
      destruct (Hsel k2 res2 Hres2) as [Hfree2 _].
      destruct (workload_key_inj k k2 res' res2 Hfree' Hfree2 Hkey) as [<- Hid2].
      apply (Hnone res2 Hfree2); [|by rewrite <- Hid2].
      unfold capture_pair. by rewrite <- Hkey. }
  exists (ScaleUp.resume w').2. split_and!.
  - unfold scale_up. rewrite bind_run, Hfleet, bind_run, Hk8s_up.
    rewrite resume_run. reflexivity.
  - intros res Hres. destruct (Hsel KDeployment res Hres) as [_ Hlive0].
    split; [exact Hlive0|]. rewrite resume_run. simpl.
    rewrite patched_cronjobs_deployments. apply (Hall KDeployment res Hres).
  - intros res Hres. destruct (Hsel KStatefulSet res Hres) as [_ Hlive0].
    split; [exact Hlive0|]. rewrite resume_run. simpl.
    rewrite patched_cronjobs_statefulsets. apply (Hall KStatefulSet res Hres).
Qed.

Lemma valid_names_check (w : World) :
  forallb (fun kv => Str.free_of "/" kv.1.1 && Str.free_of "/" kv.1.2)
          (map_to_list (deployments w) ++ map_to_list (statefulsets w)) = true ->
  valid_names w.
Proof.
  rewrite forallb_forall. intros Hcheck namespace name Hlive.
  assert (exists r, In ((namespace, name), r)
                       (map_to_list (deployments w) ++ map_to_list (statefulsets w)))
    as [r Hin].
  { destruct Hlive as [[r Hr]|[r Hr]]; exists r; apply in_or_app; [left | right];
      by apply list_elem_of_In, elem_of_map_to_list. }
  apply Hcheck, andb_true_iff in Hin. exact Hin.
Qed.

(** A second evening: the store still holds what was captured for "web"
    the evening before, and an entry for "batch", which exists and which
    this run excludes. *)
Definition second_evening : World :=
  MkWorld
    {[K8S_AWS_SSM_PARAMETER_NAME :=
        JObj [("deployment/default/web", JNum 3); ("deployment/ops/batch", JNum 4)]]}
    (<[("default", "web") := 5]> (<[("default", "api") := 0]> {[("ops", "batch") := 1]}))
    {[("db", "pg") := 2]}
    {[("default", "nightly") := false]}
    {[ "ng-1" := Asg 1 2 3 ]} [].

Definition exclude_batch : option (list resource_ref) :=
  Some [ResourceRef "ops" "Deployment" "batch"].

Lemma scale_down_then_scale_up_witness :
  exists w2 : World,
    scale_up (scale_down None None exclude_batch None second_evening).2 = (Ok tt, w2)
    /\ (forall res,
          res ∈ filter_excluded_k8s_resources "Deployment"
                  (Client.workloads_of (deployments second_evening)) exclude_batch ->
          deployments second_evening !! workload_id res = Some (w_replicas res)
          /\ deployments w2 !! workload_id res = Some (w_replicas res))
    /\ (forall res,
          res ∈ filter_excluded_k8s_resources "StatefulSet"
                  (Client.workloads_of (statefulsets second_evening)) exclude_batch ->
          statefulsets second_evening !! workload_id res = Some (w_replicas res)
          /\ statefulsets w2 !! workload_id res = Some (w_replicas res)).
Proof.
  apply (scale_down_then_scale_up None None exclude_batch None
           second_evening
           (ScaleDown.fetch None second_evening).2
           (scale_down None None exclude_batch None second_evening).2
           (ScaleUp.aws (scale_down None None exclude_batch None second_evening).2).2
           (Client.workloads_of (deployments second_evening))
           (Client.workloads_of (statefulsets second_evening))
           (Client.cronjobs_of (cronjobs second_evening))
           [("deployment/default/web", JNum 3); ("deployment/ops/batch", JNum 4)]).
  - vm_compute. reflexivity.
  - vm_compute. reflexivity.
  - apply valid_names_check. vm_compute. reflexivity.
  - reflexivity.
  - split.
    + apply (bool_decide_unpack _). vm_compute. exact I.
    + repeat apply Forall_cons_2; [| |apply Forall_nil_2].
      * left. exists KDeployment, (Workload "default" "web" 5). split_and!.
        -- apply list_elem_of_In. vm_compute. auto.
        -- simpl. lia.
        -- reflexivity.
      * right. exists "deployment", "ops", "batch". split; [reflexivity|].
        intros [] Hkind; [|discriminate]. exists 4. split_and!.
        -- reflexivity.
        -- vm_compute. by eexists.
        -- intros Hin. apply list_elem_of_In in Hin. vm_compute in Hin.
           intuition discriminate.
  - vm_compute. reflexivity.
Defined.


(** * Further properties of the script *)

(** ** [scale_down] on everything *)

Lemma fetch_all (k8s_resources : option (list resource_ref)) (w : World) :
  py_not k8s_resources = true ->
  ScaleDown.fetch k8s_resources w
  = (Ok (Client.workloads_of (deployments w), Client.workloads_of (statefulsets w),
         Client.cronjobs_of (cronjobs w)),
     set_calls (fun past => ListCronJobs :: ListStatefulSets :: ListDeployments :: past) w).
Proof.
  intros Hnot. unfold ScaleDown.fetch. rewrite Hnot.
  unfold Client.list_deployment_for_all_namespaces,
    Client.list_stateful_set_for_all_namespaces, Client.list_cron_job_for_all_namespaces.
  run. reflexivity.
Qed.

Lemma filter_nothing {A : Type} `{Metadata A} (kind : string) (resources : list A)
    (exclude_list : option (list resource_ref)) :
  py_not exclude_list = true ->
  filter_excluded_k8s_resources kind resources exclude_list = resources.
Proof. intros Hnot. unfold filter_excluded_k8s_resources. by rewrite Hnot. Qed.

Lemma workloads_of_elem (m : gmap (string * string) Z) (res : workload) :
  res ∈ Client.workloads_of m <-> m !! workload_id res = Some (w_replicas res).
Proof.
  unfold Client.workloads_of. rewrite list_elem_of_fmap. split.
  - intros ([[ns n] r] & -> & Hkv). by apply elem_of_map_to_list in Hkv.
  - intros Hres. exists (workload_id res, w_replicas res). split; [by destruct res|].
    by apply elem_of_map_to_list.
Qed.

(** Listing everything, the capture loop sets to zero exactly the objects
    with positive replicas. *)
Lemma captured_all (m : gmap (string * string) Z) (key : string * string) :
  captured (Client.workloads_of m) key
  = from_option (fun r => (0 <? r)%Z) false (m !! key).
Proof.
  destruct (captured _ key) eqn:Hcap.
  - apply captured_true in Hcap as (res & Hres & <- & Hr).
    apply workloads_of_elem in Hres. rewrite Hres. simpl. symmetry. by apply Z.ltb_lt.
  - destruct (m !! key) as [r|] eqn:Hkey; [|done]. simpl.
    destruct (Z.ltb_spec 0 r) as [Hr|]; [|done].
    assert (captured (Client.workloads_of m) key = true) as Hyes; [|congruence].
    apply captured_true. exists (Workload key.1 key.2 r). split_and!; [|by destruct key|done].
    apply workloads_of_elem. by destruct key.
Qed.

(** X1.  With no list of resources and no exclusion list, a [scale_down]
    that completes leaves every Deployment and StatefulSet that had
    positive replicas at zero and the others as they were, every CronJob
    suspended, and every group of the first page of groups that passed the
    test of line 138 at [{0, 0, 0}]; the other groups of that page, and
    the groups beyond it, are as they were.  When there are at most
    [page_size] groups, this is every group.  No object appears or
    disappears. *)
Theorem scale_down_everything
    (k8s_resources : option (list resource_ref)) (aws_asg_resources : option (list string))
    (exclude_k8s_resources : option (list resource_ref))
    (exclude_aws_asg_resources : option (list string)) (w0 w1 : World) :
  py_not k8s_resources = true -> py_not aws_asg_resources = true ->
  py_not exclude_k8s_resources = true -> py_not exclude_aws_asg_resources = true ->
  scale_down k8s_resources aws_asg_resources exclude_k8s_resources
             exclude_aws_asg_resources w0 = (Ok tt, w1) ->
  (forall key, deployments w1 !! key
               = (fun r => if (0 <? r)%Z then 0 else r) <$> deployments w0 !! key)
  /\ (forall key, statefulsets w1 !! key
                  = (fun r => if (0 <? r)%Z then 0 else r) <$> statefulsets w0 !! key)
  /\ (forall key, cronjobs w1 !! key = (fun _ => true) <$> cronjobs w0 !! key)
  /\ (forall asg_name,
        asgs w1 !! asg_name
        = if bool_decide (asg_name ∈ Client.first_page (asgs w0))
          then (fun group => if not_all_zero group then Asg 0 0 0 else group)
                 <$> asgs w0 !! asg_name
          else asgs w0 !! asg_name)
  /\ ((size (asgs w0) <= Client.page_size)%nat ->
      forall asg_name,
        asgs w1 !! asg_name
        = (fun group => if not_all_zero group then Asg 0 0 0 else group)
            <$> asgs w0 !! asg_name).
Proof.
  intros Hk Ha Hek Hea Hrun. unfold scale_down in Hrun. rewrite bind_run in Hrun.
  destruct (ScaleDown.k8s k8s_resources exclude_k8s_resources w0)
    as [[[]|e] wk] eqn:Hk8s; [|discriminate].
  destruct (k8s_pass_inv _ _ _ _ Hk8s)
    as (ds & ss & cs & wa & data & Hfetch & _ & _ & _ & Hd_k & Hs_k & Hc_k & Ha_k & _).
  rewrite (fetch_all _ _ Hk) in Hfetch. injection Hfetch as <- <- <- _.
  rewrite !(filter_nothing _ _ _ Hek) in *.
  destruct (aws_pass_inv _ _ _ _ Hrun) as (_ & Hd_1 & Hs_1 & Hc_1 & _ & Ha_1).
  split_and!.
  - intros key. rewrite Hd_1, Hd_k, captured_all.
    destruct (deployments w0 !! key) as [r|]; [|done]. simpl. by destruct (0 <? r)%Z.
  - intros key. rewrite Hs_1, Hs_k, captured_all.
    destruct (statefulsets w0 !! key) as [r|]; [|done]. simpl. by destruct (0 <? r)%Z.
  - intros key. rewrite Hc_1, Hc_k. case_bool_decide as Hkey.
    + apply cronjobs_of_key in Hkey as [b ->]. done.
    + destruct (cronjobs w0 !! key) as [b|] eqn:Hb; [|done].
      exfalso. apply Hkey, cronjobs_of_key. by eexists.
  - intros asg_name. rewrite Ha_1. unfold zeroes, asg_names.
    rewrite Ha, Ha_k. unfold filter_excluded_asgs. rewrite Hea.
    case_bool_decide as Hin; [|done].
    apply first_page_exists in Hin as [group Hgroup]. rewrite Hgroup. simpl.
    by destruct (not_all_zero group).
  - intros Hsize asg_name. rewrite Ha_1. unfold zeroes, asg_names.
    rewrite Ha, Ha_k. unfold filter_excluded_asgs. rewrite Hea.
    destruct (asgs w0 !! asg_name) as [group|] eqn:Hgroup; simpl.
    + rewrite bool_decide_eq_true_2 by (apply first_page_all; [done | by eexists]).
      simpl. by destruct (not_all_zero group).
    + by rewrite andb_false_r.
Qed.

Lemma scale_down_everything_witness :
  (forall key, deployments (scale_down None None None None cluster_example).2 !! key
               = (fun r => if (0 <? r)%Z then 0 else r) <$> deployments cluster_example !! key)
  /\ (forall key, statefulsets (scale_down None None None None cluster_example).2 !! key
                  = (fun r => if (0 <? r)%Z then 0 else r)
                      <$> statefulsets cluster_example !! key)
  /\ (forall key, cronjobs (scale_down None None None None cluster_example).2 !! key
                  = (fun _ => true) <$> cronjobs cluster_example !! key)
  /\ (forall asg_name,
        asgs (scale_down None None None None cluster_example).2 !! asg_name
        = if bool_decide (asg_name ∈ Client.first_page (asgs cluster_example))
          then (fun group => if not_all_zero group then Asg 0 0 0 else group)
                 <$> asgs cluster_example !! asg_name
          else asgs cluster_example !! asg_name)
  /\ ((size (asgs cluster_example) <= Client.page_size)%nat ->
      forall asg_name,
        asgs (scale_down None None None None cluster_example).2 !! asg_name
        = (fun group => if not_all_zero group then Asg 0 0 0 else group)
            <$> asgs cluster_example !! asg_name).
Proof.
  apply (scale_down_everything None None None None cluster_example).
  - reflexivity.
  - reflexivity.
  - reflexivity.
  - reflexivity.
  - vm_compute. reflexivity.
Defined.

(** ** What [scale_down] leaves in the store *)

(** [k8s_pass_inv], for the two kinds of workload at once. *)
Lemma k8s_pass_facts (k8s_resources exclude_k8s_resources : option (list resource_ref))
    (w0 wa wk : World) (ds ss : list workload) (cs : list cronjob) :
  ScaleDown.k8s k8s_resources exclude_k8s_resources w0 = (Ok tt, wk) ->
  ScaleDown.fetch k8s_resources w0 = (Ok (ds, ss, cs), wa) ->
  (forall k, consistent k w0 (selected_workloads ds ss exclude_k8s_resources k))
  /\ (forall k key,
        Kind.live k wk !! key
        = if captured (selected_workloads ds ss exclude_k8s_resources k) key
          then Some 0 else Kind.live k w0 !! key)
  /\ asgs wk = asgs w0
  /\ exists data : Dict.t json,
       Forall (fun kv => exists k res,
                 res ∈ selected_workloads ds ss exclude_k8s_resources k
                 /\ 0 < w_replicas res /\ kv = capture_pair k res) data
       /\ (forall k res,
             res ∈ selected_workloads ds ss exclude_k8s_resources k ->
             0 < w_replicas res -> workload_key (Kind.name k) res ∈ Dict.keys data)
       /\ NoDup (Dict.keys data)
       /\ ((data = [] /\ ssm wk = ssm w0)
           \/ (exists E, stored_object w0 K8S_AWS_SSM_PARAMETER_NAME = Some E
                         /\ ssm wk = <[K8S_AWS_SSM_PARAMETER_NAME
                                        := JObj (Dict.update E data)]> (ssm w0))).
Proof.
  intros Hk8s Hfetch.
  destruct (k8s_pass_inv _ _ _ _ Hk8s)
    as (ds' & ss' & cs' & wa' & data & Hfetch' & Hcd & Hcs & _ & Hd_k & Hs_k & _ & Ha_k
        & Hdata & Hkeys_d & Hkeys_s & Hnd_data & Hstore).
  rewrite Hfetch in Hfetch'. injection Hfetch' as <- <- <- <-.
  split_and!.
  - intros []; by apply consistent_filter.
  - intros [] key; [apply Hd_k | apply Hs_k].
  - exact Ha_k.
  - exists data. split_and!; [|intros []; [apply Hkeys_d | apply Hkeys_s]|done|done].
    eapply Forall_impl; [exact Hdata|].
    intros kv [(res & ? & ? & ?)|(res & ? & ? & ?)];
      [exists KDeployment, res | exists KStatefulSet, res]; done.
Qed.

Lemma selected_slash_free (w0 : World) (k : wkind) (l : list workload) (res : workload) :
  valid_names w0 -> consistent k w0 l -> res ∈ l -> slash_free res.
Proof.
  intros Hvalid Hcons Hres. unfold consistent in Hcons. rewrite Forall_forall in Hcons.
  specialize (Hcons _ Hres). apply Hvalid.
  destruct k; [left | right]; simpl in Hcons; unfold workload_id in Hcons;
    rewrite Hcons; by eexists.
Qed.

(** X2.  After a [scale_down] that completes, a selected Deployment or
    StatefulSet that had positive replicas is at zero, and the workload
    parameter holds, under the key made of its kind, namespace and name,
    the replicas it had.  The keys the parameter held before are all still
    there. *)
Theorem scale_down_records_replicas
    (k8s_resources : option (list resource_ref)) (aws_asg_resources : option (list string))
    (exclude_k8s_resources : option (list resource_ref))
    (exclude_aws_asg_resources : option (list string))
    (w0 wa w1 : World) (ds ss : list workload) (cs : list cronjob)
    (k : wkind) (res : workload) :
  ScaleDown.fetch k8s_resources w0 = (Ok (ds, ss, cs), wa) ->
  scale_down k8s_resources aws_asg_resources exclude_k8s_resources
             exclude_aws_asg_resources w0 = (Ok tt, w1) ->
  valid_names w0 ->
  res ∈ selected_workloads ds ss exclude_k8s_resources k ->
  0 < w_replicas res ->
  Kind.live k w0 !! workload_id res = Some (w_replicas res)
  /\ Kind.live k w1 !! workload_id res = Some 0
  /\ exists E S : Dict.t json,
       stored_object w0 K8S_AWS_SSM_PARAMETER_NAME = Some E
       /\ ssm w1 !! K8S_AWS_SSM_PARAMETER_NAME = Some (JObj S)
       /\ Dict.get (workload_key (Kind.name k) res) S = Some (JNum (w_replicas res))
       /\ forall key, key ∈ Dict.keys E -> key ∈ Dict.keys S.
Proof.
  intros Hfetch Hrun Hvalid Hres Hr. unfold scale_down in Hrun. rewrite bind_run in Hrun.
  destruct (ScaleDown.k8s k8s_resources exclude_k8s_resources w0)
    as [[[]|e] wk] eqn:Hk8s; [|discriminate].
  destruct (k8s_pass_facts _ _ _ _ _ _ _ _ Hk8s Hfetch)
    as (Hcons & Hlive & _ & data & Hdata & Hkeys & Hnd & Hstore).
  destruct (aws_pass_inv _ _ _ _ Hrun) as (_ & Hd_1 & Hs_1 & _ & Hssm_1 & _).
  assert (Hlive0 : Kind.live k w0 !! workload_id res = Some (w_replicas res)).
  { pose proof (Hcons k) as Hk. unfold consistent in Hk. rewrite Forall_forall in Hk.
    by apply Hk. }
  split_and!; [exact Hlive0 | |].
  - assert (Kind.live k w1 = Kind.live k wk) as -> by (by destruct k).
    rewrite Hlive.
    assert (captured (selected_workloads ds ss exclude_k8s_resources k) (workload_id res)
            = true) as ->; [|done].
    apply captured_true. by exists res.
  - pose proof (Hkeys k res Hres Hr) as Hkey.
    destruct Hstore as [[-> _]|(E & HE & Hssm)]; [by apply not_elem_of_nil in Hkey|].
    exists E, (Dict.update E data). split_and!; [done | | |].
    + rewrite Hssm_1, Hssm. apply lookup_insert_eq.
    + rewrite DictFacts.get_update by done.
      apply DictFacts.get_Some_keys in Hkey as [v Hv]. rewrite Hv.
      pose proof (dict_get_entry _ _ _ Hv) as Hin.
      rewrite Forall_forall in Hdata.
      destruct (Hdata _ Hin) as (k2 & res2 & Hres2 & _ & Heq).
      injection Heq as Hkey2 ->.
      pose proof (selected_slash_free w0 k _ res Hvalid (Hcons k) Hres) as Hfree.
      pose proof (selected_slash_free w0 k2 _ res2 Hvalid (Hcons k2) Hres2) as Hfree2.
      destruct (workload_key_inj k k2 res res2 Hfree Hfree2 Hkey2) as [<- Hid].
      pose proof (Hcons k) as Hk. unfold consistent in Hk. rewrite Forall_forall in Hk.
      pose proof (Hk _ Hres2) as Hlive2. rewrite <- Hid, Hlive0 in Hlive2.
      by injection Hlive2 as ->.
    + intros key HkeyE. apply DictFacts.keys_update. by left.
Qed.

Lemma scale_down_records_replicas_witness :
  Kind.live KDeployment second_evening !! workload_id (Workload "default" "web" 5)
  = Some (w_replicas (Workload "default" "web" 5))
  /\ Kind.live KDeployment (scale_down None None exclude_batch None second_evening).2
       !! workload_id (Workload "default" "web" 5) = Some 0
  /\ exists E S : Dict.t json,
       stored_object second_evening K8S_AWS_SSM_PARAMETER_NAME = Some E
       /\ ssm (scale_down None None exclude_batch None second_evening).2
            !! K8S_AWS_SSM_PARAMETER_NAME = Some (JObj S)
       /\ Dict.get (workload_key (Kind.name KDeployment) (Workload "default" "web" 5)) S
          = Some (JNum (w_replicas (Workload "default" "web" 5)))
       /\ forall key, key ∈ Dict.keys E -> key ∈ Dict.keys S.
Proof.
  apply (scale_down_records_replicas None None exclude_batch None
           second_evening (ScaleDown.fetch None second_evening).2
           (scale_down None None exclude_batch None second_evening).2
           (Client.workloads_of (deployments second_evening))
           (Client.workloads_of (statefulsets second_evening))
           (Client.cronjobs_of (cronjobs second_evening))).
  - vm_compute. reflexivity.
  - vm_compute. reflexivity.
  - apply valid_names_check. vm_compute. reflexivity.
  - apply list_elem_of_In. vm_compute. auto.
  - simpl. lia.
Defined.

(** ** Resources the exclusion lists name *)

(** X3.  A [scale_down] that completes has not changed any resource that
    its exclusion lists name: a Deployment, StatefulSet or CronJob named by
    an entry of [exclude_k8s_resources] (same namespace and name, same kind
    up to case) has the replicas or the suspend flag it had, and a group
    whose name is in [exclude_aws_asg_resources] has the capacities it
    had. *)
Theorem excluded_resources_untouched
    (k8s_resources : option (list resource_ref)) (aws_asg_resources : option (list string))
    (exclude_k8s_resources : option (list resource_ref))
    (exclude_aws_asg_resources : option (list string)) (w0 w1 : World) :
  scale_down k8s_resources aws_asg_resources exclude_k8s_resources
             exclude_aws_asg_resources w0 = (Ok tt, w1) ->
  (forall res : workload,
     existsb (excludes "Deployment" res) (items_of exclude_k8s_resources) = true ->
     deployments w1 !! workload_id res = deployments w0 !! workload_id res)
  /\ (forall res : workload,
        existsb (excludes "StatefulSet" res) (items_of exclude_k8s_resources) = true ->
        statefulsets w1 !! workload_id res = statefulsets w0 !! workload_id res)
  /\ (forall cj : cronjob,
        existsb (excludes "CronJob" cj) (items_of exclude_k8s_resources) = true ->
        cronjobs w1 !! cronjob_key cj = cronjobs w0 !! cronjob_key cj)
  /\ (forall asg_name,
        asg_name ∈ items_of exclude_aws_asg_resources ->
        asgs w1 !! asg_name = asgs w0 !! asg_name).
Proof.
  intros Hrun. unfold scale_down in Hrun. rewrite bind_run in Hrun.
  destruct (ScaleDown.k8s k8s_resources exclude_k8s_resources w0)
    as [[[]|e] wk] eqn:Hk8s; [|discriminate].
  destruct (k8s_pass_inv _ _ _ _ Hk8s)
    as (ds & ss & cs & wa & data & _ & _ & _ & _ & Hd_k & Hs_k & Hc_k & Ha_k & _).
  destruct (aws_pass_inv _ _ _ _ Hrun) as (_ & Hd_1 & Hs_1 & Hc_1 & _ & Ha_1).
  assert (Hskip : forall kind (l : list workload) (res : workload),
            existsb (excludes kind res) (items_of exclude_k8s_resources) = true ->
            captured (filter_excluded_k8s_resources kind l exclude_k8s_resources)
                     (workload_id res) = false).
  { intros kind l res Hex.
    destruct (captured _ (workload_id res)) eqn:Hcap; [|done].
    apply captured_true in Hcap as (res' & Hres' & Hid & _).
    apply filter_excluded_k8s_resources_In in Hres' as [_ Hkept].
    unfold workload_id in Hid. injection Hid as Hns Hn.
    rewrite <- Hkept, <- Hex. apply existsb_pointwise. intros entry.
    by apply excludes_same_id. }
  split_and!.
  - intros res Hex. by rewrite Hd_1, Hd_k, (Hskip _ _ _ Hex).
  - intros res Hex. by rewrite Hs_1, Hs_k, (Hskip _ _ _ Hex).
  - intros cj Hex. rewrite Hc_1, Hc_k. case_bool_decide as Hkey; [|done].
    apply list_elem_of_fmap in Hkey as (cj' & Hid & Hcj').
    apply filter_excluded_k8s_resources_In in Hcj' as [_ Hkept].
    unfold cronjob_key in Hid. injection Hid as Hns Hn.
    assert (existsb (excludes "CronJob" cj) (items_of exclude_k8s_resources)
            = existsb (excludes "CronJob" cj') (items_of exclude_k8s_resources)) as Heq.
    { apply existsb_pointwise. intros entry. by apply excludes_same_id. }
    congruence.
  - intros asg_name Hex. rewrite Ha_1, Ha_k. unfold zeroes.
    rewrite bool_decide_eq_false_2; [done|].
    intros [_ Hkept]%filter_excluded_asgs_In.
    assert (existsb (String.eqb asg_name) (items_of exclude_aws_asg_resources) = true)
      as Hyes; [|congruence].
    apply existsb_exists. exists asg_name. split; [by apply list_elem_of_In|].
    apply String.eqb_refl.
Qed.

Lemma excluded_resources_untouched_witness :
  (forall res : workload,
     existsb (excludes "Deployment" res) (items_of exclude_batch) = true ->
     deployments (scale_down None None exclude_batch None second_evening).2
       !! workload_id res = deployments second_evening !! workload_id res)
  /\ (forall res : workload,
        existsb (excludes "StatefulSet" res) (items_of exclude_batch) = true ->
        statefulsets (scale_down None None exclude_batch None second_evening).2
          !! workload_id res = statefulsets second_evening !! workload_id res)
  /\ (forall cj : cronjob,
        existsb (excludes "CronJob" cj) (items_of exclude_batch) = true ->
        cronjobs (scale_down None None exclude_batch None second_evening).2
          !! cronjob_key cj = cronjobs second_evening !! cronjob_key cj)
  /\ (forall asg_name,
        asg_name ∈ items_of (@None (list string)) ->
        asgs (scale_down None None exclude_batch None second_evening).2 !! asg_name
        = asgs second_evening !! asg_name).
Proof.
  apply (excluded_resources_untouched None None exclude_batch None second_evening).
  vm_compute. reflexivity.
Defined.

(** ** The list of resources to consider *)

(** A reference of the list names an object that does not exist. *)
Definition names_missing_object (w : World) (ref : resource_ref) : Prop :=
  (Str.lower (r_kind ref) = "deployment" /\ deployments w !! ref_id ref = None)
  \/ (Str.lower (r_kind ref) = "statefulset" /\ statefulsets w !! ref_id ref = None)
  \/ (Str.lower (r_kind ref) = "cronjob" /\ cronjobs w !! ref_id ref = None).

Lemma reads_exist (k : wkind) (refs : list resource_ref) (w wa : World)
    (l : list workload) :
  for_list (fun res => Kind.read k (r_name res) (r_namespace res)) refs w = (Ok l, wa) ->
  Forall (fun res => is_Some (Kind.live k w !! ref_id res)) refs.
Proof.
  revert w wa l. induction refs as [|res rest IH]; intros w wa l Hrun; [constructor|].
  cbn [for_list] in Hrun. rewrite bind_run in Hrun.
  destruct (Kind.live k w !! (r_namespace res, r_name res)) as [r|] eqn:Hlive;
    [|by rewrite read_workload_raise in Hrun].
  rewrite (read_workload_run _ _ _ _ _ Hlive), bind_run in Hrun.
  destruct (for_list _ rest _) as [[l'|e] w'] eqn:Hrest; [|discriminate].
  constructor; [by eexists|].
  apply IH in Hrest. eapply Forall_impl; [exact Hrest|].
  intros res'. simpl. by rewrite live_set_calls.
Qed.

Lemma cronjob_reads_exist (refs : list resource_ref) (w wa : World) (l : list cronjob) :
  for_list (fun res => Client.read_namespaced_cron_job (r_name res) (r_namespace res))
           refs w = (Ok l, wa) ->
  Forall (fun res => is_Some (cronjobs w !! ref_id res)) refs.
Proof.
  revert w wa l. induction refs as [|res rest IH]; intros w wa l Hrun; [constructor|].
  cbn [for_list] in Hrun. rewrite bind_run in Hrun.
  destruct (cronjobs w !! (r_namespace res, r_name res)) as [b|] eqn:Hlive;
    [|by rewrite read_cron_job_raise in Hrun].
  rewrite (read_cron_job_run _ _ _ _ Hlive), bind_run in Hrun.
  destruct (for_list _ rest _) as [[l'|e] w'] eqn:Hrest; [|discriminate].
  constructor; [by eexists|].
  apply IH in Hrest. exact Hrest.
Qed.

(** A fetch that succeeds has found every object the list names. *)
Lemma fetch_exist (k8s_resources : option (list resource_ref)) (w wa : World)
    (ds ss : list workload) (cs : list cronjob) (ref : resource_ref) :
  py_not k8s_resources = false ->
  ScaleDown.fetch k8s_resources w = (Ok (ds, ss, cs), wa) ->
  ref ∈ items_of k8s_resources ->
  ~ names_missing_object w ref.
Proof.
  intros Hnot Hrun Href. unfold ScaleDown.fetch in Hrun. rewrite Hnot in Hrun.
  rewrite bind_run in Hrun.
  destruct (for_list _ _ w) as [[l1|e] w1] eqn:H1; [|discriminate].
  rewrite bind_run in Hrun.
  destruct (for_list _ _ w1) as [[l2|e] w1'] eqn:H2; [|discriminate].
  rewrite bind_run in Hrun.
  destruct (for_list _ _ w1') as [[l3|e] w1''] eqn:H3; [|discriminate].
  destruct (reads_again KDeployment _ w w _ _ H1) as [Hw1 _]; [done|].
  destruct (reads_again KStatefulSet _ w1 w1 _ _ H2) as [Hw2 _]; [done|].
  apply state_eq in Hw1 as (_ & _ & Hs1 & Hc1 & _).
  apply state_eq in Hw2 as (_ & _ & _ & Hc2 & _).
  apply (reads_exist KDeployment) in H1. apply (reads_exist KStatefulSet) in H2.
  apply cronjob_reads_exist in H3.
  rewrite Forall_forall in H1, H2, H3.
  intros [[Hkind Hnone]|[[Hkind Hnone]|[Hkind Hnone]]].
  - destruct (H1 ref) as [r Hr]; [|simpl in Hr; congruence].
    apply list_elem_of_In, filter_In. split; [by apply list_elem_of_In|].
    by apply String.eqb_eq.
  - destruct (H2 ref) as [r Hr]; [|simpl in Hr; rewrite Hs1 in Hr; congruence].
    apply list_elem_of_In, filter_In. split; [by apply list_elem_of_In|].
    by apply String.eqb_eq.
  - destruct (H3 ref) as [r Hr]; [|rewrite Hc2, Hc1 in Hr; congruence].
    apply list_elem_of_In, filter_In. split; [by apply list_elem_of_In|].
    by apply String.eqb_eq.
Qed.

Lemma fetch_raises (k8s_resources : option (list resource_ref)) :
  raises_only (fun e => e = ApiException) (ScaleDown.fetch k8s_resources).
Proof.
  unfold ScaleDown.fetch, Client.list_deployment_for_all_namespaces,
    Client.list_stateful_set_for_all_namespaces, Client.list_cron_job_for_all_namespaces,
    Client.read_namespaced_deployment, Client.read_namespaced_stateful_set,
    Client.read_namespaced_cron_job.
  assert (Hlist : forall (A B : Type) (f : A -> M B) (l : list A),
            (forall x, raises_only (fun e => e = ApiException) (f x)) ->
            raises_only (fun e => e = ApiException) (for_list f l)).
  { intros A B f l Hf. induction l as [|x l IH]; simpl; [apply raises_only_ret|].
    apply raises_only_bind; [apply Hf|]. intros y.
    apply raises_only_bind; [apply IH|]. intros ys. apply raises_only_ret. }
  destruct (py_not k8s_resources).
  - raises_only_tac.
  - repeat (apply raises_only_bind; [apply Hlist; intros ?; raises_only_tac | intros ?]).
    apply raises_only_ret.
Qed.

(** X4.  When the list of resources names a Deployment, StatefulSet or
    CronJob that does not exist, [scale_down] ends with the [ApiException]
    of the read, before it has changed anything: the objects are read
    before the first patch, so replicas, suspend flags, capacities and the
    store are as they were. *)
Theorem missing_named_resource_aborts
    (k8s_resources : option (list resource_ref)) (aws_asg_resources : option (list string))
    (exclude_k8s_resources : option (list resource_ref))
    (exclude_aws_asg_resources : option (list string)) (w : World) (ref : resource_ref) :
  ref ∈ items_of k8s_resources ->
  names_missing_object w ref ->
  exists w',
    scale_down k8s_resources aws_asg_resources exclude_k8s_resources
               exclude_aws_asg_resources w = (Raise ApiException, w')
    /\ live_state w' = live_state w
    /\ ssm w' = ssm w.
Proof.
  intros Href Hmissing.
  assert (Hnot : py_not k8s_resources = false).
  { destruct k8s_resources as [[|x l]|]; simpl in Href; try done;
      by apply not_elem_of_nil in Href. }
  pose proof (fetch_quiet k8s_resources w) as [Hstate _].
  destruct (ScaleDown.fetch k8s_resources w) as [[[[ds ss] cs]|e] w'] eqn:Hfetch.
  { by destruct (fetch_exist _ _ _ _ _ _ ref Hnot Hfetch Href). }
  pose proof (fetch_raises k8s_resources w e w' Hfetch) as ->. simpl in Hstate.
  apply state_eq in Hstate as (Hssm & Hd & Hs & Hc & Ha).
  exists w'. split_and!; [|unfold live_state; by rewrite Hd, Hs, Hc, Ha|done].
  unfold scale_down, ScaleDown.k8s. rewrite bind_run, bind_run, Hfetch. reflexivity.
Qed.

Lemma missing_named_resource_aborts_witness :
  exists w',
    scale_down (Some [ResourceRef "default" "Deployment" "web";
                      ResourceRef "default" "deployment" "gone"])
               None None None cluster_example = (Raise ApiException, w')
    /\ live_state w' = live_state cluster_example
    /\ ssm w' = ssm cluster_example.
Proof.
  apply (missing_named_resource_aborts _ None None None cluster_example
           (ResourceRef "default" "deployment" "gone")).
  - right. left.
  - left. split; reflexivity.
Defined.

(** X5.  When the list of resources is not empty and names no Deployment,
    StatefulSet or CronJob, for instance because every kind in it is
    misspelt, the Kubernetes half of [scale_down] does nothing at all: it
    falls back neither on all resources nor on an error, and [scale_down]
    is its fleet half. *)
Theorem unknown_kinds_select_nothing
    (k8s_resources : option (list resource_ref)) (aws_asg_resources : option (list string))
    (exclude_k8s_resources : option (list resource_ref))
    (exclude_aws_asg_resources : option (list string)) (w : World) :
  py_not k8s_resources = false ->
  Forall (fun ref => Str.lower (r_kind ref) <> "deployment"
                     /\ Str.lower (r_kind ref) <> "statefulset"
                     /\ Str.lower (r_kind ref) <> "cronjob") (items_of k8s_resources) ->
  ScaleDown.k8s k8s_resources exclude_k8s_resources w = (Ok tt, w)
  /\ scale_down k8s_resources aws_asg_resources exclude_k8s_resources
                exclude_aws_asg_resources w
     = ScaleDown.aws aws_asg_resources exclude_aws_asg_resources w.
Proof.
  intros Hnot Hkinds.
  assert (Hnone : forall kind,
            kind = "deployment" \/ kind = "statefulset" \/ kind = "cronjob" ->
            List.filter (fun res => String.eqb (Str.lower (r_kind res)) kind)
                        (items_of k8s_resources) = []).
  { intros kind Hkind. induction Hkinds as [|ref l (Hd & Hs & Hc) _ IH]; simpl; [done|].
    destruct (String.eqb_spec (Str.lower (r_kind ref)) kind) as [Heq|_]; [|exact IH].
    destruct Hkind as [-> | [-> | ->]]; done. }
  assert (Hk8s : ScaleDown.k8s k8s_resources exclude_k8s_resources w = (Ok tt, w)).
  { unfold ScaleDown.k8s, ScaleDown.fetch. rewrite Hnot.
    rewrite !Hnone by tauto.
    unfold filter_excluded_k8s_resources.
    destruct (py_not exclude_k8s_resources); reflexivity. }
  split; [exact Hk8s|]. unfold scale_down. by rewrite bind_run, Hk8s.
Qed.

Lemma unknown_kinds_select_nothing_witness :
  ScaleDown.k8s (Some [ResourceRef "default" "deployments" "web"]) None cluster_example
  = (Ok tt, cluster_example)
  /\ scale_down (Some [ResourceRef "default" "deployments" "web"]) None None None
                cluster_example
     = ScaleDown.aws None None cluster_example.
Proof.
  apply (unknown_kinds_select_nothing (Some [ResourceRef "default" "deployments" "web"])).
  - reflexivity.
  - repeat constructor; discriminate.
Defined.

(** ** A store that cannot take the capture *)

Lemma update_ssm_parameter_not_object_run (parameter_name : string) (N : Dict.t json)
    (w : World) :
  stored_object w parameter_name = None ->
  update_ssm_parameter parameter_name N w
  = (Raise AttributeError, set_calls (cons (GetParameter parameter_name)) w).
Proof.
  unfold stored_object, update_ssm_parameter, try_except_ParameterNotFound,
    Client.get_parameter.
  intros Hstored. run.
  destruct (ssm w !! parameter_name) as [[]|]; simplify_eq; reflexivity.
Qed.

(** X6.  The capture is stored after the workloads are patched.  When the
    workload parameter holds a JSON value that is not an object,
    [scale_down] ends with [AttributeError] at the merge; a selected
    workload that had positive replicas is then at zero while the store is
    as it was, so its replicas are recorded nowhere.  The fleet half has
    not run. *)
Theorem capture_lost_when_store_unusable
    (k8s_resources : option (list resource_ref)) (aws_asg_resources : option (list string))
    (exclude_k8s_resources : option (list resource_ref))
    (exclude_aws_asg_resources : option (list string))
    (w0 wa : World) (ds ss : list workload) (cs : list cronjob)
    (k : wkind) (res : workload) :
  ScaleDown.fetch k8s_resources w0 = (Ok (ds, ss, cs), wa) ->
  stored_object w0 K8S_AWS_SSM_PARAMETER_NAME = None ->
  res ∈ selected_workloads ds ss exclude_k8s_resources k ->
  0 < w_replicas res ->
  exists w',
    scale_down k8s_resources aws_asg_resources exclude_k8s_resources
               exclude_aws_asg_resources w0 = (Raise AttributeError, w')
    /\ Kind.live k w0 !! workload_id res = Some (w_replicas res)
    /\ Kind.live k w' !! workload_id res = Some 0
    /\ ssm w' = ssm w0
    /\ asgs w' = asgs w0.
Proof.
  intros Hfetch Hstored Hres Hr.
  destruct (fetch_again _ _ w0 _ _ _ _ Hfetch (same_objects_refl w0))
    as (ds' & ss' & cs' & wa' & Hfetch' & Hwa & Hcd & Hcs & Hcc & _).
  rewrite Hfetch in Hfetch'. injection Hfetch' as <- <- <- <-.
  apply state_eq in Hwa as (Hssm_a & Hd_a & Hs_a & Hc_a & Ha_a).
  set (fd := filter_excluded_k8s_resources "Deployment" ds exclude_k8s_resources) in *.
  set (fs := filter_excluded_k8s_resources "StatefulSet" ss exclude_k8s_resources) in *.
  set (fc := filter_excluded_k8s_resources "CronJob" cs exclude_k8s_resources) in *.
  destruct (capture_loop_run KDeployment fd [] wa)
    as (data1 & wb & new1 & Hrun1 & _ & _ & Hssm_b & Hc_b & Ha_b & Hs_b
        & Hd_b & _ & Hkeys1 & _ & _).
  { apply (consistent_exists _ w0); [by apply consistent_filter | exact Hd_a]. }
  cbn [Kind.capture_step Kind.live Kind.other Kind.name] in *.
  destruct (capture_loop_run KStatefulSet fs data1 wb)
    as (data2 & wc & new2 & Hrun2 & _ & _ & Hssm_c & Hc_c & Ha_c & Hd_c
        & Hs_c & _ & Hkeys2 & Hold2 & _).
  { apply (consistent_exists _ w0); [by apply consistent_filter|].
    simpl. by rewrite Hs_b. }
  cbn [Kind.capture_step Kind.live Kind.other Kind.name] in *.
  set (wd := fold_left (patched_cronjob true) fc wc).
  assert (Hcron : for_each ScaleDown.cronjob_step fc wc = (Ok tt, wd)).
  { unfold ScaleDown.cronjob_step. apply (patch_cron_jobs_run true).
    pose proof (cronjobs_consistent_filter w0 "CronJob" cs exclude_k8s_resources Hcc)
      as Hfc.
    eapply Forall_impl; [exact Hfc|]. intros cj Hcj. simpl in Hcj.
    rewrite Hc_c, Hc_b, Hc_a, Hcj. by eexists. }
  assert (Hssm_d : ssm wd = ssm w0).
  { unfold wd. by rewrite patched_cronjobs_ssm, Hssm_c, Hssm_b. }
  assert (Hkey : workload_key (Kind.name k) res ∈ Dict.keys data2).
  { destruct k; simpl in Hres; [apply Hold2; by apply Hkeys1 | by apply Hkeys2]. }
  assert (Hstore : ScaleDown.store K8S_AWS_SSM_PARAMETER_NAME data2 wd
                   = (Raise AttributeError,
                      set_calls (cons (GetParameter K8S_AWS_SSM_PARAMETER_NAME)) wd)).
  { destruct data2 as [|kv data2]; [by apply not_elem_of_nil in Hkey|].
    apply update_ssm_parameter_not_object_run.
    unfold stored_object in *. by rewrite Hssm_d. }
  assert (Hconsistent : Kind.live k w0 !! workload_id res = Some (w_replicas res)).
  { assert (consistent k w0 (selected_workloads ds ss exclude_k8s_resources k)) as Hk
      by (destruct k; by apply consistent_filter).
    unfold consistent in Hk. rewrite Forall_forall in Hk. by apply Hk. }
  assert (Hcap : captured (selected_workloads ds ss exclude_k8s_resources k)
                          (workload_id res) = true).
  { apply captured_true. by exists res. }
  eexists. split_and!.
  - unfold scale_down, ScaleDown.k8s.
    rewrite bind_run, bind_run, Hfetch. cbv beta iota. fold fd fs fc.
    rewrite bind_run, Hrun1, bind_run, Hrun2, bind_run, Hcron, Hstore. reflexivity.
  - exact Hconsistent.
  - rewrite live_set_calls. unfold wd, fd, fs in *. destruct k; simpl in *.
    + by rewrite patched_cronjobs_deployments, Hd_c, Hd_b, Hcap.
    + by rewrite patched_cronjobs_statefulsets, Hs_c, Hcap.
  - exact Hssm_d.
  - simpl. unfold wd. by rewrite patched_cronjobs_asgs, Ha_c, Ha_b.
Qed.

(** The cluster of [cluster_example], with a list where the dictionary of
    replica counts should be. *)
Definition broken_store : World :=
  MkWorld {[K8S_AWS_SSM_PARAMETER_NAME := JArr []]}
    (deployments cluster_example) (statefulsets cluster_example)
    (cronjobs cluster_example) (asgs cluster_example) [].

Lemma capture_lost_when_store_unusable_witness :
  exists w',
    scale_down None None None None broken_store = (Raise AttributeError, w')
    /\ Kind.live KDeployment broken_store !! workload_id (Workload "default" "web" 5)
       = Some (w_replicas (Workload "default" "web" 5))
    /\ Kind.live KDeployment w' !! workload_id (Workload "default" "web" 5) = Some 0
    /\ ssm w' = ssm broken_store
    /\ asgs w' = asgs broken_store.
Proof.
  apply (capture_lost_when_store_unusable None None None None broken_store
           (ScaleDown.fetch None broken_store).2
           (Client.workloads_of (deployments broken_store))
           (Client.workloads_of (statefulsets broken_store))
           (Client.cronjobs_of (cronjobs broken_store))).
  - vm_compute. reflexivity.
  - reflexivity.
  - apply list_elem_of_In. vm_compute. auto.
  - simpl. lia.
Defined.

(** ** The fleet pass of [scale_up] *)

(** The capacities a stored configuration gives, when it has the three
    keys with integers. *)
Definition stored_capacity (config : json) : option asg :=
  match config with
  | JObj fields =>
      match Dict.get "MinSize" fields, Dict.get "DesiredCapacity" fields,
            Dict.get "MaxSize" fields with
      | Some (JNum lo), Some (JNum want), Some (JNum hi) => Some (Asg lo want hi)
      | _, _, _ => None
      end
  | _ => None
  end.

(** The world after the update of a group to stored capacities. *)
Definition restored_asg (asg_name : string) (group : asg) (w : World) : World :=
  set_asgs <[asg_name := group]>
    (set_calls (cons (UpdateAsg asg_name (JNum (MinSize group))
                                (JNum (DesiredCapacity group)) (JNum (MaxSize group)))) w).

Lemma asg_restore_step_run (asg_name : string) (config : json) (group : asg) (w : World) :
  stored_capacity config = Some group ->
  is_Some (asgs w !! asg_name) ->
  ScaleUp.asg_step (asg_name, config) w = (Ok tt, restored_asg asg_name group w).
Proof.
  unfold stored_capacity, ScaleUp.asg_step, subscript, Client.update_auto_scaling_group.
  intros Hconfig [live Hlive]. destruct config as [| | | | |fields]; try done.
  destruct (Dict.get "MinSize" fields) as [[]|]; try done.
  destruct (Dict.get "DesiredCapacity" fields) as [[]|]; try done.
  destruct (Dict.get "MaxSize" fields) as [[]|]; try done.
  injection Hconfig as <-. run. rewrite Hlive. reflexivity.
Qed.

Lemma asg_restore_step_inv (asg_name : string) (config : json) (w w1 : World) :
  ScaleUp.asg_step (asg_name, config) w = (Ok tt, w1) ->
  exists group,
    stored_capacity config = Some group
    /\ is_Some (asgs w !! asg_name)
    /\ w1 = restored_asg asg_name group w.
Proof.
  unfold stored_capacity, ScaleUp.asg_step, subscript, Client.update_auto_scaling_group.
  destruct config as [| | | | |fields]; try (run; intros Hx; discriminate Hx).
  destruct (Dict.get "MinSize" fields) as [lo|]; [|run; intros Hx; discriminate Hx].
  destruct (Dict.get "DesiredCapacity" fields) as [want|]; [|run; intros Hx; discriminate Hx].
  destruct (Dict.get "MaxSize" fields) as [hi|]; [|run; intros Hx; discriminate Hx].
  run. destruct lo, want, hi; try (intros Hx; discriminate Hx).
  run. destruct (asgs w !! asg_name) as [live|] eqn:Hlive; [|intros Hx; discriminate Hx].
  intros [= <-]. eexists. split_and!; [reflexivity | by eexists | reflexivity].
Qed.

(** The loop over the stored groups completes only when every group it is
    given exists. *)
Lemma asg_restore_loop_exists (l : list (string * json)) (w w' : World) :
  for_each ScaleUp.asg_step l w = (Ok tt, w') ->
  Forall (fun kv => is_Some (asgs w !! kv.1)) l.
Proof.
  revert w. induction l as [|[n config] rest IH]; intros w Hrun; [constructor|].
  cbn [for_each] in Hrun. rewrite bind_run in Hrun.
  destruct (ScaleUp.asg_step (n, config) w) as [[[]|e] w1] eqn:Hstep; [|discriminate].
  apply asg_restore_step_inv in Hstep as (group & _ & Hlive & ->).
  constructor; [exact Hlive|].
  apply IH in Hrun. eapply Forall_impl; [exact Hrun|]. intros [m c]. simpl.
  destruct (decide (n = m)) as [<-|Hne]; [done|]. by rewrite lookup_insert_ne.
Qed.

Lemma restore_aws_leaves_kubernetes :
  preserves
    (untouched (fun w => (ssm w, deployments w, statefulsets w, cronjobs w)) no_call)
    ScaleUp.aws.
Proof. unfold_script. preserves_with untouched_client. Qed.

(** X7.  [scale_up] restores the fleet first.  When the fleet parameter
    holds an entry for a group that does not exist, the run ends with an
    exception in that pass: no Deployment or StatefulSet is restored and no
    CronJob is resumed, whatever the workload parameter holds. *)
Theorem stale_group_blocks_scale_up
    (L : list (string * json)) (asg_name : string) (config : json) (w : World) :
  ssm w !! ASG_AWS_SSM_PARAMETER_NAME = Some (JObj L) ->
  (asg_name, config) ∈ L ->
  asgs w !! asg_name = None ->
  exists (e : exn) (w' : World),
    scale_up w = (Raise e, w')
    /\ deployments w' = deployments w
    /\ statefulsets w' = statefulsets w
    /\ cronjobs w' = cronjobs w
    /\ ssm w' = ssm w.
Proof.
  intros Hstored Hin Hgone.
  assert (Hloop : exists e w',
            for_each ScaleUp.asg_step L
              (set_calls (cons (GetParameter ASG_AWS_SSM_PARAMETER_NAME)) w)
            = (Raise e, w') /\ restore_exn e).
  { destruct (for_each _ L _) as [[[]|e] w'] eqn:Hrun.
    - apply asg_restore_loop_exists in Hrun. rewrite Forall_forall in Hrun.
      destruct (Hrun _ Hin) as [g Hg]. simpl in Hg. congruence.
    - exists e, w'. split; [done|].
      apply (raises_only_for_each restore_exn) in Hrun; [done|]. apply asg_step_raises. }
  destruct Hloop as (e & w' & Hloop & He).
  assert (Haws : ScaleUp.aws w = (Raise e, w')).
  { unfold ScaleUp.aws, try_except_ParameterNotFound, Client.get_parameter.
    run. rewrite Hstored. simpl. rewrite bind_run. simpl. rewrite Hloop.
    by destruct e. }
  pose proof (restore_aws_leaves_kubernetes w) as [Hframe _]. rewrite Haws in Hframe.
  simpl in Hframe. injection Hframe as Hssm Hd Hs Hc.
  exists e, w'. split_and!; try done.
  unfold scale_up. by rewrite bind_run, Haws.
Qed.

(** A cluster scaled down, whose fleet parameter still names a group that
    was replaced since. *)
Definition replaced_group : World :=
  MkWorld
    {[K8S_AWS_SSM_PARAMETER_NAME := JObj [("deployment/default/web", JNum 5)];
      ASG_AWS_SSM_PARAMETER_NAME := JObj [("ng-old", asg_record (Asg 1 2 3))]]}
    {[("default", "web") := 0]} ∅ {[("default", "nightly") := true]}
    {[ "ng-new" := Asg 0 0 0 ]} [].

Lemma stale_group_blocks_scale_up_witness :
  exists (e : exn) (w' : World),
    scale_up replaced_group = (Raise e, w')
    /\ deployments w' = deployments replaced_group
    /\ statefulsets w' = statefulsets replaced_group
    /\ cronjobs w' = cronjobs replaced_group
    /\ ssm w' = ssm replaced_group.
Proof.
  apply (stale_group_blocks_scale_up [("ng-old", asg_record (Asg 1 2 3))]
           "ng-old" (asg_record (Asg 1 2 3)) replaced_group).
  - vm_compute. reflexivity.
  - left.
  - vm_compute. reflexivity.
Defined.

(** ** The fleet, from [scale_down] to [scale_up] *)

(** What the fleet loop of [scale_down] records is what a group had when
    the loop started. *)
Lemma asg_loop_entries (names : list string) (data data' : Dict.t json) (w w' : World) :
  for_fold ScaleDown.asg_step names data w = (Ok data', w') ->
  Forall (fun kv => kv ∈ data
                    \/ exists group, asgs w !! kv.1 = Some group
                                     /\ not_all_zero group = true
                                     /\ kv.2 = asg_record group) data'
  /\ (NoDup (Dict.keys data) -> NoDup (Dict.keys data')).
Proof.
  revert data w. induction names as [|n rest IH]; intros data w Hrun.
  { injection Hrun as <- <-. split; [|done]. apply Forall_forall. by left. }
  cbn [for_fold] in Hrun. rewrite bind_run in Hrun.
  destruct (ScaleDown.asg_step data n w) as [[data1|e] w1] eqn:Hstep; [|discriminate].
  destruct (asg_step_describable _ _ _ _ _ Hstep) as [Hname [group Hgroup]].
  rewrite (asg_step_run _ _ _ _ Hname Hgroup) in Hstep.
  destruct (not_all_zero group) eqn:Hnz; injection Hstep as <- <-.
  - apply IH in Hrun as [Hentries Hnd]. split.
    + eapply Forall_impl; [exact Hentries|].
      intros [m v] [Hin|(g & Hg & Hgz & Hv)]; simpl in *.
      * apply dict_set_entries in Hin as [[= -> ->]|Hin]; [|by left].
        right. by exists group.
      * destruct (decide (n = m)) as [->|Hne].
        -- rewrite lookup_insert_eq in Hg. injection Hg as <-. done.
        -- rewrite lookup_insert_ne in Hg by done. right. by exists g.
    + intros Hdata. by apply Hnd, DictFacts.set_NoDup.
  - apply IH in Hrun as [Hentries Hnd]. split; [|done].
    eapply Forall_impl; [exact Hentries|]. intros kv [Hin|Hnew]; [by left | by right].
Qed.

(** What a completed fleet half of [scale_down] leaves in the store. *)
Lemma aws_pass_store (aws_asg_resources exclude_aws_asg_resources : option (list string))
    (w w' : World) :
  ScaleDown.aws aws_asg_resources exclude_aws_asg_resources w = (Ok tt, w') ->
  exists data : Dict.t json,
    Forall (fun kv => exists group, asgs w !! kv.1 = Some group
                                    /\ kv.2 = asg_record group) data
    /\ NoDup (Dict.keys data)
    /\ (forall asg_name,
          zeroes (filter_excluded_asgs (asg_names aws_asg_resources w)
                    exclude_aws_asg_resources) w asg_name = true ->
          asg_name ∈ Dict.keys data)
    /\ ((data = [] /\ ssm w' = ssm w)
        \/ (exists E, stored_object w ASG_AWS_SSM_PARAMETER_NAME = Some E
                      /\ ssm w' = <[ASG_AWS_SSM_PARAMETER_NAME
                                     := JObj (Dict.update E data)]> (ssm w))).
Proof.
  intros Hrun. unfold ScaleDown.aws in Hrun. rewrite bind_run in Hrun.
  destruct (asg_names_run aws_asg_resources w) as (wn & Hnames & Hquiet).
  rewrite Hnames in Hrun. rewrite bind_run in Hrun.
  destruct Hquiet as [Hstate _].
  apply state_eq in Hstate as (Hssm_n & _ & _ & _ & Ha_n).
  destruct (for_fold ScaleDown.asg_step _ [] wn) as [[data|e] wl] eqn:Hloop;
    [|discriminate].
  pose proof (asg_loop_exists _ _ _ _ _ Hloop) as Hexists.
  destruct (asg_loop_entries _ _ _ _ _ Hloop) as [Hentries Hnd].
  destruct (asg_loop_run _ [] wn Hexists)
    as (data' & wl' & new & Hloop' & _ & Hssm_l & _ & _ & _ & Hlookup).
  rewrite Hloop in Hloop'. injection Hloop' as <- <-.
  apply store_inv in Hrun as [_ Hstore].
  exists data. split_and!.
  - eapply Forall_impl; [exact Hentries|].
    intros kv [Hin|(g & Hg & _ & Hv)]; [by apply not_elem_of_nil in Hin|].
    exists g. by rewrite <- Ha_n.
  - apply Hnd. constructor.
  - intros asg_name Hz. destruct (Hlookup asg_name) as (Hget & _).
    unfold zeroes in *. rewrite Ha_n, Hz in Hget.
    apply DictFacts.get_Some_keys. rewrite Hget.
    apply andb_true_iff in Hz as [_ Hz].
    destruct (asgs w !! asg_name); [by eexists | discriminate].
  - destruct Hstore as [[-> ->]|(E & HE & ->)].
    + left. by rewrite Hssm_l.
    + right. exists E. unfold stored_object in *. by rewrite Hssm_l, Hssm_n in *.
Qed.

(** ** What [scale_down] records of a group *)

Definition is_fleet_update (c : call) : Prop :=
  match c with
  | UpdateAsg _ _ _ _ => True
  | _ => False
  end.

Ltac fleet_kept_client :=
  first [ untouched_client
        | apply untouched_modify;
          [intros ?; simpl; f_equal; by apply lookup_insert_ne | intros ?; reflexivity] ].

(** The Kubernetes half leaves the groups and the fleet parameter alone,
    and updates no group. *)
Lemma k8s_half_leaves_groups
    (k8s_resources exclude_k8s_resources : option (list resource_ref)) :
  preserves
    (untouched (fun w => (asgs w, ssm w !! ASG_AWS_SSM_PARAMETER_NAME)) is_fleet_update)
    (ScaleDown.k8s k8s_resources exclude_k8s_resources).
Proof.
  unfold ScaleDown.k8s, ScaleDown.fetch, ScaleDown.deployment_step,
    ScaleDown.statefulset_step, ScaleDown.cronjob_step, ScaleDown.store,
    update_ssm_parameter,
    Client.list_deployment_for_all_namespaces, Client.list_stateful_set_for_all_namespaces,
    Client.list_cron_job_for_all_namespaces, Client.read_namespaced_cron_job,
    Client.put_parameter.
  unfold_script. preserves_with fleet_kept_client.
Qed.

Lemma names_update_nothing (aws_asg_resources : option (list string)) :
  preserves (untouched state is_fleet_update)
    (if py_not aws_asg_resources then Client.describe_auto_scaling_group_names
     else mret (items_of aws_asg_resources)).
Proof.
  unfold Client.describe_auto_scaling_group_names.
  destruct (py_not aws_asg_resources); preserves_with untouched_client.
Qed.

Lemma store_updates_nothing (parameter_name : string) (data : Dict.t json) :
  preserves (untouched live_state is_fleet_update) (ScaleDown.store parameter_name data).
Proof.
  unfold ScaleDown.store, update_ssm_parameter, Client.put_parameter. unfold_script.
  preserves_with untouched_client.
Qed.

(** What a completed fleet half of [scale_down] has done of a group it
    selected. *)
Lemma aws_pass_record (aws_asg_resources exclude_aws_asg_resources : option (list string))
    (w w' : World) (asg_name : string) :
  ScaleDown.aws aws_asg_resources exclude_aws_asg_resources w = (Ok tt, w') ->
  asg_name ∈ filter_excluded_asgs (asg_names aws_asg_resources w)
               exclude_aws_asg_resources ->
  exists (group : asg) (new : list call),
    asgs w !! asg_name = Some group
    /\ calls w' = new ++ calls w
    /\ if not_all_zero group
       then (exists S, ssm w' !! ASG_AWS_SSM_PARAMETER_NAME = Some (JObj S)
                       /\ Dict.get asg_name S = Some (asg_record group))
            /\ asgs w' !! asg_name = Some (Asg 0 0 0)
            /\ zero_call asg_name ∈ new
       else stored_object w' ASG_AWS_SSM_PARAMETER_NAME ≫= Dict.get asg_name
            = stored_object w ASG_AWS_SSM_PARAMETER_NAME ≫= Dict.get asg_name
            /\ asgs w' !! asg_name = Some group
            /\ Forall (fun c => ~ is_update_of asg_name c) new.
Proof.
  intros Hrun Hsel. unfold ScaleDown.aws in Hrun. rewrite bind_run in Hrun.
  destruct (asg_names_run aws_asg_resources w) as (wn & Hnames & _).
  destruct (names_update_nothing aws_asg_resources w) as [Hstate (nn & Hcalls_n & Hnn)].
  rewrite Hnames in Hrun, Hstate, Hcalls_n. simpl in Hstate, Hcalls_n.
  apply state_eq in Hstate as (Hssm_n & _ & _ & _ & Ha_n).
  rewrite bind_run in Hrun.
  destruct (for_fold ScaleDown.asg_step _ [] wn) as [[data|e] wl] eqn:Hloop; [|discriminate].
  pose proof (asg_loop_exists _ _ _ _ _ Hloop) as Hexists.
  destruct (asg_loop_entries _ _ _ _ _ Hloop) as [_ Hnd].
  specialize (Hnd (NoDup_nil_2 (A:=string))).
  destruct (asg_loop_run _ [] wn Hexists)
    as (data' & wl' & nl & Hloop' & Hcalls_l & Hssm_l & _ & _ & _ & Hlookup).
  rewrite Hloop in Hloop'. injection Hloop' as <- <-.
  destruct (Hlookup asg_name) as (Hget & Hasg & Hnew).
  unfold zeroes in Hget, Hasg, Hnew. rewrite bool_decide_eq_true_2 in Hget, Hasg, Hnew by done.
  rewrite Forall_forall in Hexists. destruct (Hexists _ Hsel) as [_ [group Hgroup]].
  rewrite Hgroup in Hget, Hasg, Hnew. simpl in Hget, Hasg, Hnew.
  destruct (store_updates_nothing ASG_AWS_SSM_PARAMETER_NAME data wl)
    as [Hlive (ns & Hcalls_s & Hns)].
  rewrite Hrun in Hlive, Hcalls_s. simpl in Hlive, Hcalls_s.
  injection Hlive as _ _ _ Ha_s.
  apply store_inv in Hrun as [_ Hstore].
  assert (Hstored : stored_object wl ASG_AWS_SSM_PARAMETER_NAME
                    = stored_object w ASG_AWS_SSM_PARAMETER_NAME).
  { unfold stored_object. by rewrite Hssm_l, Hssm_n. }
  exists group, (ns ++ nl ++ nn). split_and!.
  - by rewrite <- Ha_n.
  - by rewrite Hcalls_s, Hcalls_l, Hcalls_n, <- !(assoc_L (++)).
  - destruct (not_all_zero group); split_and!.
    + destruct Hstore as [[-> _] | (E & HE & Hssm)]; [discriminate Hget|].
      exists (Dict.update E data). rewrite Hssm, lookup_insert_eq. split; [done|].
      by rewrite (DictFacts.get_update _ _ _ Hnd), Hget.
    + by rewrite Ha_s.
    + apply elem_of_app. right. apply elem_of_app. by left.
    + destruct Hstore as [[_ ->] | (E & HE & Hssm)]; [by rewrite Hstored|].
      rewrite <- Hstored, HE. unfold stored_object at 1.
      rewrite Hssm, lookup_insert_eq. simpl.
      by rewrite (DictFacts.get_update _ _ _ Hnd), Hget.
    + by rewrite Ha_s.
    + apply Forall_app. split; [|apply Forall_app; split; [exact Hnew|]].
      * eapply Forall_impl; [exact Hns|]. intros [] Hc; simpl in *; tauto.
      * eapply Forall_impl; [exact Hnn|]. intros [] Hc; simpl in *; tauto.
Qed.

(** C8.  In a [scale_down] that completes, every selected group exists.
    When one of its three capacities is not already zero ([MinSize > 0],
    or [DesiredCapacity] or [MaxSize] not 0), the fleet parameter holds
    under the name of the group the three capacities it had, the group is
    at [{0, 0, 0}], and an update call with three zeroes was made for it.
    When the three are zero, the run has made no update call for the
    group, the group is as it was, and the fleet parameter holds under its
    name what it held before the run, or nothing as before. *)
Theorem fleet_groups_captured_unless_zero
    (k8s_resources : option (list resource_ref)) (aws_asg_resources : option (list string))
    (exclude_k8s_resources : option (list resource_ref))
    (exclude_aws_asg_resources : option (list string))
    (w0 w1 : World) (asg_name : string) :
  scale_down k8s_resources aws_asg_resources exclude_k8s_resources
             exclude_aws_asg_resources w0 = (Ok tt, w1) ->
  asg_name ∈ filter_excluded_asgs (asg_names aws_asg_resources w0)
               exclude_aws_asg_resources ->
  exists (group : asg) (new : list call),
    asgs w0 !! asg_name = Some group
    /\ calls w1 = new ++ calls w0
    /\ if ((0 <? MinSize group) || negb (DesiredCapacity group =? 0)
           || negb (MaxSize group =? 0))%Z
       then (exists S,
               ssm w1 !! ASG_AWS_SSM_PARAMETER_NAME = Some (JObj S)
               /\ Dict.get asg_name S
                  = Some (JObj [("MinSize", JNum (MinSize group));
                                ("DesiredCapacity", JNum (DesiredCapacity group));
                                ("MaxSize", JNum (MaxSize group))]))
            /\ asgs w1 !! asg_name = Some (Asg 0 0 0)
            /\ UpdateAsg asg_name (JNum 0) (JNum 0) (JNum 0) ∈ new
       else stored_object w1 ASG_AWS_SSM_PARAMETER_NAME ≫= Dict.get asg_name
            = stored_object w0 ASG_AWS_SSM_PARAMETER_NAME ≫= Dict.get asg_name
            /\ asgs w1 !! asg_name = Some group
            /\ forall min desired max, UpdateAsg asg_name min desired max ∉ new.
Proof.
  intros Hrun Hsel. unfold scale_down in Hrun. rewrite bind_run in Hrun.
  destruct (ScaleDown.k8s k8s_resources exclude_k8s_resources w0)
    as [[[]|e] wk] eqn:Hk8s; [|discriminate].
  destruct (k8s_half_leaves_groups k8s_resources exclude_k8s_resources w0)
    as [Hkept (nk & Hcalls_k & Hnk)].
  rewrite Hk8s in Hkept, Hcalls_k. simpl in Hkept, Hcalls_k.
  injection Hkept as Hasgs Hssm.
  assert (Hnames : asg_names aws_asg_resources wk = asg_names aws_asg_resources w0).
  { unfold asg_names. by rewrite Hasgs. }
  rewrite <- Hnames in Hsel.
  destruct (aws_pass_record _ _ _ _ _ Hrun Hsel) as (group & new & Hgroup & Hcalls & Hdone).
  assert (Hstored : stored_object wk ASG_AWS_SSM_PARAMETER_NAME
                    = stored_object w0 ASG_AWS_SSM_PARAMETER_NAME).
  { unfold stored_object. by rewrite Hssm. }
  exists group, (new ++ nk). split_and!.
  - by rewrite <- Hasgs.
  - by rewrite Hcalls, Hcalls_k, <- (assoc_L (++)).
  - change ((0 <? MinSize group) || negb (DesiredCapacity group =? 0)
            || negb (MaxSize group =? 0))%Z with (not_all_zero group).
    destruct (not_all_zero group) eqn:Hnz.
    + destruct Hdone as (Hrecord & Hzero & Hupdate). split_and!; [exact Hrecord | done |].
      apply elem_of_app. left. exact Hupdate.
    + destruct Hdone as (Hrecord & Hsame & Hquiet). split_and!.
      * by rewrite Hrecord, Hstored.
      * exact Hsame.
      * intros min desired max [Hin | Hin]%elem_of_app.
        -- rewrite Forall_forall in Hquiet. by apply (Hquiet _ Hin).
        -- rewrite Forall_forall in Hnk. by apply (Hnk _ Hin).
Qed.

Lemma fleet_groups_captured_unless_zero_witness :
  (exists (group : asg) (new : list call),
     asgs fleet_example !! "ng-1" = Some group
     /\ calls (scale_down None None None None fleet_example).2
        = new ++ calls fleet_example
     /\ if ((0 <? MinSize group) || negb (DesiredCapacity group =? 0)
            || negb (MaxSize group =? 0))%Z
        then (exists S,
                ssm (scale_down None None None None fleet_example).2
                  !! ASG_AWS_SSM_PARAMETER_NAME = Some (JObj S)
                /\ Dict.get "ng-1" S
                   = Some (JObj [("MinSize", JNum (MinSize group));
                                 ("DesiredCapacity", JNum (DesiredCapacity group));
                                 ("MaxSize", JNum (MaxSize group))]))
             /\ asgs (scale_down None None None None fleet_example).2 !! "ng-1"
                = Some (Asg 0 0 0)
             /\ UpdateAsg "ng-1" (JNum 0) (JNum 0) (JNum 0) ∈ new
        else stored_object (scale_down None None None None fleet_example).2
               ASG_AWS_SSM_PARAMETER_NAME ≫= Dict.get "ng-1"
             = stored_object fleet_example ASG_AWS_SSM_PARAMETER_NAME ≫= Dict.get "ng-1"
             /\ asgs (scale_down None None None None fleet_example).2 !! "ng-1" = Some group
             /\ forall min desired max, UpdateAsg "ng-1" min desired max ∉ new)
  /\ (exists (group : asg) (new : list call),
        asgs fleet_example !! "ng-0" = Some group
        /\ calls (scale_down None None None None fleet_example).2
           = new ++ calls fleet_example
        /\ if ((0 <? MinSize group) || negb (DesiredCapacity group =? 0)
               || negb (MaxSize group =? 0))%Z
           then (exists S,
                   ssm (scale_down None None None None fleet_example).2
                     !! ASG_AWS_SSM_PARAMETER_NAME = Some (JObj S)
                   /\ Dict.get "ng-0" S
                      = Some (JObj [("MinSize", JNum (MinSize group));
                                    ("DesiredCapacity", JNum (DesiredCapacity group));
                                    ("MaxSize", JNum (MaxSize group))]))
                /\ asgs (scale_down None None None None fleet_example).2 !! "ng-0"
                   = Some (Asg 0 0 0)
                /\ UpdateAsg "ng-0" (JNum 0) (JNum 0) (JNum 0) ∈ new
           else stored_object (scale_down None None None None fleet_example).2
                  ASG_AWS_SSM_PARAMETER_NAME ≫= Dict.get "ng-0"
                = stored_object fleet_example ASG_AWS_SSM_PARAMETER_NAME ≫= Dict.get "ng-0"
                /\ asgs (scale_down None None None None fleet_example).2 !! "ng-0"
                   = Some group
                /\ forall min desired max, UpdateAsg "ng-0" min desired max ∉ new).
Proof.
  split.
  - apply (fleet_groups_captured_unless_zero None None None None fleet_example).
    + vm_compute. reflexivity.
    + apply list_elem_of_In. vm_compute. auto.
  - apply (fleet_groups_captured_unless_zero None None None None fleet_example).
    + vm_compute. reflexivity.
    + apply list_elem_of_In. vm_compute. auto.
Defined.

(** *** The restore of the fleet *)

Lemma stored_capacity_record (group : asg) : stored_capacity (asg_record group) = Some group.
Proof. by destruct group. Qed.

(** An entry for a group of [w0] that is not among the [protected] ones,
    with three integers. *)
Definition foreign_fleet_entry (w0 : World) (protected : string -> Prop)
    (kv : string * json) : Prop :=
  exists group, stored_capacity kv.2 = Some group
                /\ is_Some (asgs w0 !! kv.1) /\ ~ protected kv.1.

(** The restore loop over entries that were recorded from [w0] or are
    foreign, in a world that has the groups of [w0], completes, and a
    protected group is then as it was in [w0], or has no entry and is as it
    was before the loop. *)
Lemma asg_restore_loop_run (w0 : World) (protected : string -> Prop)
    (l : list (string * json)) (w : World) :
  Forall (fun kv => (exists group, asgs w0 !! kv.1 = Some group
                                   /\ kv.2 = asg_record group)
                    \/ foreign_fleet_entry w0 protected kv) l ->
  (forall n, is_Some (asgs w0 !! n) -> is_Some (asgs w !! n)) ->
  exists w',
    for_each ScaleUp.asg_step l w = (Ok tt, w')
    /\ forall n, protected n ->
                 asgs w' !! n = asgs w0 !! n
                 \/ (asgs w' !! n = asgs w !! n /\ n ∉ Dict.keys l).
Proof.
  revert w. induction l as [|[m config] rest IH]; intros w Hl Hdom.
  { exists w. split; [done|]. intros n _. right. split; [done | apply not_elem_of_nil]. }
  apply Forall_cons in Hl as [Hkv Hrest]. simpl in Hkv.
  assert (exists group, stored_capacity config = Some group
                        /\ is_Some (asgs w0 !! m)
                        /\ (protected m -> asgs w0 !! m = Some group))
    as (group & Hconfig & Hlive0 & Hprot).
  { destruct Hkv as [(g & Hg & ->)|(g & Hg & Hlive & Hnot)].
    - exists g. split_and!; [apply stored_capacity_record | by eexists | done].
    - exists g. split_and!; [done | done | done]. }
  cbn [for_each]. rewrite bind_run.
  rewrite (asg_restore_step_run m config group w Hconfig (Hdom _ Hlive0)).
  destruct (IH (restored_asg m group w) Hrest) as (w' & Hrun & Hlive).
  { intros n Hn. simpl. destruct (decide (m = n)) as [->|Hne].
    - rewrite lookup_insert_eq. by eexists.
    - rewrite lookup_insert_ne by done. by apply Hdom. }
  exists w'. split; [exact Hrun|]. intros n Hn.
  destruct (Hlive n Hn) as [Hw0|[Hsame Hnone]]; [by left|]. simpl in Hsame.
  destruct (decide (m = n)) as [->|Hne].
  - left. rewrite Hsame, lookup_insert_eq. symmetry. by apply Hprot.
  - right. rewrite lookup_insert_ne in Hsame by done. split; [done|].
    unfold Dict.keys in *. simpl. rewrite not_elem_of_cons. done.
Qed.

(** The fleet pass of [scale_up] is the loop over the stored entries, when
    the loop completes. *)
Lemma aws_restore_run (L : list (string * json)) (w w' : World) :
  (ssm w !! ASG_AWS_SSM_PARAMETER_NAME = None /\ L = [])
  \/ ssm w !! ASG_AWS_SSM_PARAMETER_NAME = Some (JObj L) ->
  for_each ScaleUp.asg_step L
    (set_calls (cons (GetParameter ASG_AWS_SSM_PARAMETER_NAME)) w) = (Ok tt, w') ->
  ScaleUp.aws w = (Ok tt, w').
Proof.
  intros Hstored Hloop.
  unfold ScaleUp.aws, try_except_ParameterNotFound, Client.get_parameter. run.
  destruct Hstored as [[-> ->] | ->]; simpl.
  - simpl in Hloop. by injection Hloop as <-.
  - rewrite bind_run. simpl. by rewrite Hloop.
Qed.

(** The fleet entry of the store holds no conflicting key: it is a
    dictionary, and each of its entries is either for a selected group
    that this run sets to zero, and so records again, or a configuration of
    three integers for an existing group that is not selected. *)
Definition no_conflicting_groups (w0 : World) (selected : list string)
    (E : Dict.t json) : Prop :=
  NoDup (Dict.keys E)
  /\ Forall (fun kv => zeroes selected w0 kv.1 = true
                       \/ foreign_fleet_entry w0 (fun n => n ∈ selected) kv) E.

(** X8.  After a [scale_down] that completes, where the fleet entry of the
    store held no conflicting key, the fleet pass of [scale_up] completes
    and every selected group has again the three capacities it had before
    the [scale_down]. *)
Theorem fleet_restored_after_scale_down
    (k8s_resources : option (list resource_ref)) (aws_asg_resources : option (list string))
    (exclude_k8s_resources : option (list resource_ref))
    (exclude_aws_asg_resources : option (list string))
    (w0 w1 : World) (E : Dict.t json) :
  scale_down k8s_resources aws_asg_resources exclude_k8s_resources
             exclude_aws_asg_resources w0 = (Ok tt, w1) ->
  stored_object w0 ASG_AWS_SSM_PARAMETER_NAME = Some E ->
  no_conflicting_groups w0
    (filter_excluded_asgs (asg_names aws_asg_resources w0) exclude_aws_asg_resources) E ->
  exists wf : World,
    ScaleUp.aws w1 = (Ok tt, wf)
    /\ forall asg_name,
         asg_name ∈ filter_excluded_asgs (asg_names aws_asg_resources w0)
                      exclude_aws_asg_resources ->
         is_Some (asgs w0 !! asg_name)
         /\ asgs wf !! asg_name = asgs w0 !! asg_name.
Proof.
  intros Hrun HE [Hnd_E Hentries_E]. unfold scale_down in Hrun. rewrite bind_run in Hrun.
  destruct (ScaleDown.k8s k8s_resources exclude_k8s_resources w0)
    as [[[]|e] wk] eqn:Hk8s; [|discriminate].
  destruct (k8s_pass_inv _ _ _ _ Hk8s)
    as (ds & ss & cs & wa & kdata & _ & _ & _ & _ & _ & _ & _ & Ha_k & _ & _ & _ & _
        & Hstore_k).
  assert (Hssm_k : ssm wk !! ASG_AWS_SSM_PARAMETER_NAME
                   = ssm w0 !! ASG_AWS_SSM_PARAMETER_NAME).
  { destruct Hstore_k as [[_ ->]|(E' & _ & ->)]; [done|]. by rewrite lookup_insert_ne. }
  assert (Hnames : asg_names aws_asg_resources wk = asg_names aws_asg_resources w0).
  { unfold asg_names. by rewrite Ha_k. }
  destruct (aws_pass_inv _ _ _ _ Hrun) as (Hexists & _ & _ & _ & _ & Ha_1).
  destruct (aws_pass_store _ _ _ _ Hrun) as (data & Hentries & Hnd & Hcover & Hstore).
  rewrite Hnames in *.
  set (selected := filter_excluded_asgs (asg_names aws_asg_resources w0)
                     exclude_aws_asg_resources) in *.
  assert (Hz : forall n, zeroes selected wk n = zeroes selected w0 n).
  { intros n. unfold zeroes. by rewrite Ha_k. }
  rewrite Forall_forall in Hentries, Hentries_E.
  assert (Hrecorded : forall kv, kv ∈ data ->
            exists group, asgs w0 !! kv.1 = Some group /\ kv.2 = asg_record group).
  { intros kv (g & Hg & Hv)%Hentries. exists g. by rewrite <- Ha_k. }
  assert (HL : exists L : list (string * json),
            ((ssm w1 !! ASG_AWS_SSM_PARAMETER_NAME = None /\ L = [])
             \/ ssm w1 !! ASG_AWS_SSM_PARAMETER_NAME = Some (JObj L))
            /\ Forall (fun kv => (exists group, asgs w0 !! kv.1 = Some group
                                                /\ kv.2 = asg_record group)
                                 \/ foreign_fleet_entry w0 (fun n => n ∈ selected) kv) L
            /\ forall n, n ∈ Dict.keys data -> n ∈ Dict.keys L).
  { destruct Hstore as [[-> Hssm]|(E' & HE' & Hssm)].
    - exists E. split_and!.
      + rewrite Hssm, Hssm_k. unfold stored_object in HE.
        destruct (ssm w0 !! ASG_AWS_SSM_PARAMETER_NAME) as [[]|]; simplify_eq;
          [by right | by left].
      + apply Forall_forall. intros kv [Hzero|Hforeign]%Hentries_E; [|by right].
        rewrite <- Hz in Hzero. by apply Hcover, not_elem_of_nil in Hzero.
      + intros n Hn. by apply not_elem_of_nil in Hn.
    - assert (E' = E) as ->.
      { unfold stored_object in *. rewrite Hssm_k in HE'. congruence. }
      exists (Dict.update E data). split_and!.
      + right. rewrite Hssm. apply lookup_insert_eq.
      + apply Forall_forall. intros [n v] Hkv.
        destruct (dict_update_entries _ _ _ Hkv) as [Hin|Hin]; [left; by apply Hrecorded|].
        destruct (Hentries_E _ Hin) as [Hzero|Hforeign]; [|by right].
        left. apply Hrecorded. simpl in Hzero. rewrite <- Hz in Hzero.
        apply Hcover, DictFacts.get_Some_keys in Hzero as [v' Hv'].
        assert (Dict.get n (Dict.update E data) = Some v) as Hget.
        { apply dict_entry_get; [by apply DictFacts.update_NoDup | done]. }
        rewrite DictFacts.get_update, Hv' in Hget by done. injection Hget as <-.
        by apply dict_get_entry.
      + intros n Hn. apply DictFacts.keys_update. by right. }
  destruct HL as (L & Hstored & HL & Hkeys).
  destruct (asg_restore_loop_run w0 (fun n => n ∈ selected) L
              (set_calls (cons (GetParameter ASG_AWS_SSM_PARAMETER_NAME)) w1) HL)
    as (wf & Hloop & Hrestored).
  { intros n Hn. simpl. rewrite Ha_1, Ha_k. by destruct (zeroes selected wk n). }
  exists wf. split; [by apply (aws_restore_run L)|].
  intros n Hn. split.
  { rewrite Forall_forall in Hexists. rewrite <- Ha_k. by apply Hexists. }
  destruct (Hrestored n Hn) as [Hw0|[Hsame Hnone]]; [done|].
  simpl in Hsame. rewrite Hsame, Ha_1, Ha_k.
  destruct (zeroes selected wk n) eqn:Hzero; [|done].
  exfalso. by apply Hnone, Hkeys, Hcover.
Qed.

Lemma fleet_restored_after_scale_down_witness :
  exists wf : World,
    ScaleUp.aws (scale_down None None None None cluster_example).2 = (Ok tt, wf)
    /\ forall asg_name,
         asg_name ∈ filter_excluded_asgs (asg_names None cluster_example) None ->
         is_Some (asgs cluster_example !! asg_name)
         /\ asgs wf !! asg_name = asgs cluster_example !! asg_name.
Proof.
  apply (fleet_restored_after_scale_down None None None None cluster_example
           (scale_down None None None None cluster_example).2 []).
  - vm_compute. reflexivity.
  - reflexivity.
  - split; constructor.
Defined.

(** ** [scale_up] twice *)

(** *** The workloads *)

Definition kind_of (kind : string) : option wkind :=
  if String.eqb kind "deployment" then Some KDeployment
  else if String.eqb kind "statefulset" then Some KStatefulSet
  else None.

(** The body of the restore loop, with its two branches as one. *)
Lemma k8s_step_eq (key : string) (replicas : json) (w : World) :
  ScaleUp.k8s_step (key, replicas) w
  = match Str.split "/" key with
    | [kind; namespace; name] =>
        match kind_of kind with
        | Some k => (Kind.read k name namespace ;; Kind.patch k name namespace replicas) w
        | None => (Ok tt, w)
        end
    | _ => (Raise ValueError, w)
    end.
Proof.
  unfold ScaleUp.k8s_step, kind_of.
  destruct (Str.split "/" key) as [|kind [|namespace [|name [|extra parts]]]]; try done.
  cbn [unpack3]. rewrite bind_run. cbn [mret M_ret].
  destruct (String.eqb kind "deployment"); [done|].
  by destruct (String.eqb kind "statefulset").
Qed.

Lemma patch_workload_inv (k : wkind) (namespace name : string) (replicas : json)
    (w w1 : World) :
  Kind.patch k name namespace replicas w = (Ok tt, w1) ->
  exists n, replicas = JNum n
            /\ is_Some (Kind.live k w !! (namespace, name))
            /\ w1 = patched_workload k namespace name n w.
Proof.
  destruct k; simpl;
    [unfold Client.patch_namespaced_deployment
    |unfold Client.patch_namespaced_stateful_set]; run.
  - destruct (deployments w !! (namespace, name)) as [r|], replicas;
      try (intros Hx; discriminate Hx).
    intros [= <-]. eexists. split_and!; [done | by eexists | done].
  - destruct (statefulsets w !! (namespace, name)) as [r|], replicas;
      try (intros Hx; discriminate Hx).
    intros [= <-]. eexists. split_and!; [done | by eexists | done].
Qed.

(** What a turn of the restore loop that returns has done: nothing, or
    the read and the patch of one object. *)
Definition k8s_effect : Type := option (wkind * string * string * Z).

Definition apply_k8s_effect (w : World) (eff : k8s_effect) : World :=
  match eff with
  | None => w
  | Some (k, namespace, name, n) =>
      patched_workload k namespace name n
        (set_calls (cons (Kind.read_call k namespace name)) w)
  end.

Definition k8s_effect_ok (eff : k8s_effect) (w : World) : Prop :=
  match eff with
  | None => True
  | Some (k, namespace, name, _) => is_Some (Kind.live k w !! (namespace, name))
  end.

Lemma k8s_step_effect (kv : string * json) (w w1 : World) :
  ScaleUp.k8s_step kv w = (Ok tt, w1) ->
  exists eff : k8s_effect,
    w1 = apply_k8s_effect w eff
    /\ k8s_effect_ok eff w
    /\ forall w2, k8s_effect_ok eff w2 ->
                  ScaleUp.k8s_step kv w2 = (Ok tt, apply_k8s_effect w2 eff).
Proof.
  destruct kv as [key replicas]. rewrite k8s_step_eq.
  destruct (Str.split "/" key) as [|kind [|namespace [|name [|extra parts]]]] eqn:Hsplit;
    try (intros Hx; discriminate Hx).
  destruct (kind_of kind) as [k|] eqn:Hkind.
  - rewrite bind_run.
    destruct (Kind.live k w !! (namespace, name)) as [r|] eqn:Hlive;
      [|rewrite read_workload_raise by done; intros Hx; discriminate Hx].
    rewrite (read_workload_run k _ _ r) by done.
    intros (n & -> & _ & ->)%patch_workload_inv.
    exists (Some (k, namespace, name, n)). split_and!; [done | by eexists |].
    intros w2 [r2 Hr2]. rewrite k8s_step_eq, Hsplit, Hkind, bind_run.
    rewrite (read_workload_run k _ _ r2) by done.
    apply patch_workload_run. rewrite live_set_calls. by eexists.
  - intros [= <-]. exists None. split_and!; [done | done |].
    intros w2 _. by rewrite k8s_step_eq, Hsplit, Hkind.
Qed.

Lemma k8s_effect_ok_mono (eff eff' : k8s_effect) (w : World) :
  k8s_effect_ok eff' w -> k8s_effect_ok eff w ->
  k8s_effect_ok eff (apply_k8s_effect w eff').
Proof.
  destruct eff as [[[[k ns] n] r]|], eff' as [[[[k' ns'] n'] r']|]; simpl; try done.
  intros _ Hlive. rewrite patched_workload_lookup, live_set_calls.
  case_decide; [by eexists | done].
Qed.

(** A loop that returns is the sequence of the effects of its turns, and
    returns again, with the same effects, from any world in which the
    objects of these effects exist. *)
Lemma k8s_loop_effects (l : list (string * json)) (w w' : World) :
  for_each ScaleUp.k8s_step l w = (Ok tt, w') ->
  exists effs : list k8s_effect,
    w' = fold_left apply_k8s_effect effs w
    /\ Forall (fun eff => k8s_effect_ok eff w) effs
    /\ forall w2, Forall (fun eff => k8s_effect_ok eff w2) effs ->
                  for_each ScaleUp.k8s_step l w2
                  = (Ok tt, fold_left apply_k8s_effect effs w2).
Proof.
  revert w. induction l as [|kv rest IH]; intros w Hrun.
  { injection Hrun as <-. exists []. by split_and!. }
  cbn [for_each] in Hrun. rewrite bind_run in Hrun.
  destruct (ScaleUp.k8s_step kv w) as [[[]|e] w1] eqn:Hstep; [|discriminate].
  apply k8s_step_effect in Hstep as (eff & -> & Hok & Hreplay).
  apply IH in Hrun as (effs & -> & Hoks & Hreplays).
  assert (Hback : forall eff0 w0, k8s_effect_ok eff w0 ->
            k8s_effect_ok eff0 (apply_k8s_effect w0 eff) -> k8s_effect_ok eff0 w0).
  { intros [[[[k0 ns0] n0] r0]|] w0 Hw0; simpl; [|done].
    destruct eff as [[[[k ns] n] r]|]; simpl in *; [|done].
    rewrite patched_workload_lookup, live_set_calls.
    case_decide as Hsame; [|done]. by destruct Hsame as [-> [= -> ->]]. }
  exists (eff :: effs). split_and!; [done | |].
  - constructor; [done|]. eapply Forall_impl; [exact Hoks|].
    intros eff0. by apply Hback.
  - intros w2 [Hok2 Hoks2]%Forall_cons. cbn [for_each fold_left].
    rewrite bind_run, (Hreplay w2 Hok2). apply Hreplays.
    eapply Forall_impl; [exact Hoks2|]. intros eff0. by apply k8s_effect_ok_mono.
Qed.

(** The last replicas a sequence of effects gives an object, if any. *)
Fixpoint last_replicas (k : wkind) (key : string * string) (effs : list k8s_effect)
    : option Z :=
  match effs with
  | [] => None
  | eff :: effs' =>
      match last_replicas k key effs' with
      | Some n => Some n
      | None =>
          match eff with
          | Some (k', namespace, name, n) =>
              if decide (k = k' /\ key = (namespace, name)) then Some n else None
          | None => None
          end
      end
  end.

Lemma k8s_effects_lookup (k : wkind) (key : string * string) (effs : list k8s_effect)
    (w : World) :
  Kind.live k (fold_left apply_k8s_effect effs w) !! key
  = match last_replicas k key effs with
    | Some n => Some n
    | None => Kind.live k w !! key
    end.
Proof.
  revert w. induction effs as [|eff effs IH]; intros w; [done|].
  cbn [fold_left last_replicas]. rewrite IH.
  destruct (last_replicas k key effs); [done|].
  destruct eff as [[[[k' ns] n] r]|]; simpl; [|done].
  rewrite patched_workload_lookup, live_set_calls. by case_decide.
Qed.

Lemma k8s_effects_rest (effs : list k8s_effect) (w : World) :
  ssm (fold_left apply_k8s_effect effs w) = ssm w
  /\ cronjobs (fold_left apply_k8s_effect effs w) = cronjobs w
  /\ asgs (fold_left apply_k8s_effect effs w) = asgs w.
Proof.
  revert w. induction effs as [|eff effs IH]; intros w; [done|].
  cbn [fold_left]. destruct (IH (apply_k8s_effect w eff)) as (-> & -> & ->).
  destruct eff as [[[[k ns] n] r]|]; [|done].
  cbn [apply_k8s_effect].
  destruct (patched_workload_rest k ns n r
              (set_calls (cons (Kind.read_call k ns n)) w)) as (-> & -> & ->).
  done.
Qed.

Lemma k8s_effects_again (k : wkind) (effs : list k8s_effect) (w w2 : World) :
  Kind.live k w2 = Kind.live k (fold_left apply_k8s_effect effs w) ->
  Kind.live k (fold_left apply_k8s_effect effs w2) = Kind.live k w2.
Proof.
  intros Hsame. apply map_eq. intros key.
  rewrite k8s_effects_lookup, Hsame, k8s_effects_lookup.
  by destruct (last_replicas k key effs).
Qed.

Lemma k8s_effects_ok_again (effs : list k8s_effect) (w w2 : World) :
  (forall k, Kind.live k w2 = Kind.live k (fold_left apply_k8s_effect effs w)) ->
  Forall (fun eff => k8s_effect_ok eff w) effs ->
  Forall (fun eff => k8s_effect_ok eff w2) effs.
Proof.
  intros Hsame Hoks. eapply Forall_impl; [exact Hoks|].
  intros [[[[k ns] n] r]|]; simpl; [|done].
  intros [live Hlive]. rewrite Hsame, k8s_effects_lookup, Hlive.
  by destruct (last_replicas k (ns, n) effs).
Qed.

(** *** The fleet *)

Definition apply_asg_effect (w : World) (eff : string * asg) : World :=
  restored_asg eff.1 eff.2 w.

Lemma asg_loop_effects (l : list (string * json)) (w w' : World) :
  for_each ScaleUp.asg_step l w = (Ok tt, w') ->
  exists effs : list (string * asg),
    w' = fold_left apply_asg_effect effs w
    /\ Forall (fun eff => is_Some (asgs w !! eff.1)) effs
    /\ forall w2, Forall (fun eff => is_Some (asgs w2 !! eff.1)) effs ->
                  for_each ScaleUp.asg_step l w2
                  = (Ok tt, fold_left apply_asg_effect effs w2).
Proof.
  revert w. induction l as [|[asg_name config] rest IH]; intros w Hrun.
  { injection Hrun as <-. exists []. by split_and!. }
  cbn [for_each] in Hrun. rewrite bind_run in Hrun.
  destruct (ScaleUp.asg_step (asg_name, config) w) as [[[]|e] w1] eqn:Hstep; [|discriminate].
  apply asg_restore_step_inv in Hstep as (group & Hconfig & Hlive & ->).
  apply IH in Hrun as (effs & -> & Hoks & Hreplays).
  assert (Hsame : forall w0 n, is_Some (asgs w0 !! asg_name) ->
            is_Some (asgs (restored_asg asg_name group w0) !! n) <-> is_Some (asgs w0 !! n)).
  { intros w0 n Hw0. simpl. destruct (decide (asg_name = n)) as [<-|Hne].
    - rewrite lookup_insert_eq. split; [done | by eexists].
    - by rewrite lookup_insert_ne. }
  exists ((asg_name, group) :: effs). split_and!; [done | |].
  - constructor; [done|]. eapply Forall_impl; [exact Hoks|].
    intros eff. by apply Hsame.
  - intros w2 [Hok2 Hoks2]%Forall_cons. cbn [for_each fold_left].
    rewrite bind_run, (asg_restore_step_run _ _ group) by done. apply Hreplays.
    eapply Forall_impl; [exact Hoks2|]. intros eff. by apply Hsame.
Qed.

(** The last capacities a sequence of effects gives a group, if any. *)
Fixpoint last_capacity (asg_name : string) (effs : list (string * asg)) : option asg :=
  match effs with
  | [] => None
  | eff :: effs' =>
      match last_capacity asg_name effs' with
      | Some group => Some group
      | None => if decide (asg_name = eff.1) then Some eff.2 else None
      end
  end.

Lemma asg_effects_lookup (asg_name : string) (effs : list (string * asg)) (w : World) :
  asgs (fold_left apply_asg_effect effs w) !! asg_name
  = match last_capacity asg_name effs with
    | Some group => Some group
    | None => asgs w !! asg_name
    end.
Proof.
  revert w. induction effs as [|[n group] effs IH]; intros w; [done|].
  cbn [fold_left last_capacity]. rewrite IH.
  destruct (last_capacity asg_name effs); [done|]. simpl.
  case_decide as Hn; [subst; apply lookup_insert_eq | by apply lookup_insert_ne].
Qed.

Lemma asg_effects_rest (effs : list (string * asg)) (w : World) :
  ssm (fold_left apply_asg_effect effs w) = ssm w
  /\ deployments (fold_left apply_asg_effect effs w) = deployments w
  /\ statefulsets (fold_left apply_asg_effect effs w) = statefulsets w
  /\ cronjobs (fold_left apply_asg_effect effs w) = cronjobs w.
Proof.
  revert w. induction effs as [|eff effs IH]; intros w; [done|].
  cbn [fold_left]. by destruct (IH (apply_asg_effect w eff)) as (-> & -> & -> & ->).
Qed.

Lemma asg_effects_again (effs : list (string * asg)) (w w2 : World) :
  asgs w2 = asgs (fold_left apply_asg_effect effs w) ->
  asgs (fold_left apply_asg_effect effs w2) = asgs w2.
Proof.
  intros Hsame. apply map_eq. intros asg_name.
  rewrite asg_effects_lookup, Hsame, asg_effects_lookup.
  by destruct (last_capacity asg_name effs).
Qed.

Lemma asg_effects_ok_again (effs : list (string * asg)) (w w2 : World) :
  asgs w2 = asgs (fold_left apply_asg_effect effs w) ->
  Forall (fun eff => is_Some (asgs w !! eff.1)) effs ->
  Forall (fun eff => is_Some (asgs w2 !! eff.1)) effs.
Proof.
  intros Hsame Hoks. eapply Forall_impl; [exact Hoks|]. intros [n group]. simpl.
  intros [live Hlive]. rewrite Hsame, asg_effects_lookup, Hlive.
  by destruct (last_capacity n effs).
Qed.

(** *** The two passes over the store *)

(** Lines 156-163 and 166-181 have one shape. *)
Definition restore_pass (name : string) (step : string * json -> M unit) : M unit :=
  try_except_ParameterNotFound
    (data ← Client.get_parameter name;
     entries ← dict_items data;
     for_each step entries)
    (mret tt).

(** A pass returns exactly when the parameter is missing, or holds a
    dictionary over whose entries the loop returns. *)
Lemma restore_pass_loop (name : string) (step : string * json -> M unit) (w w' : World) :
  (forall kv, raises_only restore_exn (step kv)) ->
  restore_pass name step w = (Ok tt, w')
  <-> exists L,
        ((ssm w !! name = None /\ L = []) \/ ssm w !! name = Some (JObj L))
        /\ for_each step L (set_calls (cons (GetParameter name)) w) = (Ok tt, w').
Proof.
  intros Hstep.
  unfold restore_pass, try_except_ParameterNotFound, Client.get_parameter. run.
  destruct (ssm w !! name) as [data|] eqn:Hdata; simpl.
  - rewrite bind_run.
    destruct data as [| | | | |L]; simpl;
      try (split; [intros Hx; discriminate Hx
                  | intros (L & [[Hx _] | Hx] & _); discriminate Hx]).
    destruct (for_each step L (set_calls (cons (GetParameter name)) w))
      as [[[]|e] w1] eqn:Hloop.
    + split.
      * intros [= <-]. exists L. split; [by right | done].
      * intros (L' & [[Hx _] | [= <-]] & Hrun); [discriminate Hx|].
        by rewrite Hloop in Hrun.
    + assert (restore_exn e) as He.
      { eapply (raises_only_for_each restore_exn step L Hstep), Hloop. }
      split.
      * destruct e; try (intros Hx; discriminate Hx). destruct He.
      * intros (L' & [[Hx _] | [= <-]] & Hrun); [discriminate Hx|].
        rewrite Hloop in Hrun. discriminate Hrun.
  - split.
    + intros [= <-]. exists []. split; [by left | done].
    + intros (L & [[_ ->] | Hx] & Hrun); [|discriminate Hx].
      by injection Hrun as <-.
Qed.

Lemma resumed_cronjobs_lookup (w : World) (key : string * string) :
  cronjobs (fold_left (patched_cronjob false) (Client.cronjobs_of (cronjobs w))
              (set_calls (cons ListCronJobs) w)) !! key
  = (fun _ => false) <$> cronjobs w !! key.
Proof. rewrite <- resume_cronjobs. by rewrite resume_run. Qed.

(** X9.  A [scale_up] that has completed can be run again: the second run
    completes too, and leaves every Deployment, StatefulSet, CronJob and
    group, and the store, as the first run left them. *)
Theorem scale_up_twice (w w1 : World) :
  scale_up w = (Ok tt, w1) ->
  exists w2 : World,
    scale_up w1 = (Ok tt, w2) /\ state w2 = state w1.
Proof.
  unfold scale_up. rewrite !bind_run.
  destruct (ScaleUp.aws w) as [[[]|ea] wa] eqn:Haws; [|intros Hx; discriminate Hx].
  rewrite bind_run.
  destruct (ScaleUp.k8s wa) as [[[]|ek] wk] eqn:Hk8s; [|intros Hx; discriminate Hx].
  rewrite resume_run. intros [= <-].
  apply (restore_pass_loop _ _ _ _ asg_step_raises) in Haws as (La & Hstored_a & Hloop_a).
  apply asg_loop_effects in Hloop_a as (effs_a & -> & Hok_a & Hreplay_a).
  apply (restore_pass_loop _ _ _ _ k8s_step_raises) in Hk8s as (Lk & Hstored_k & Hloop_k).
  apply k8s_loop_effects in Hloop_k as (effs_k & -> & Hok_k & Hreplay_k).
  set (w0 := set_calls (cons (GetParameter ASG_AWS_SSM_PARAMETER_NAME)) w) in *.
  set (wa := fold_left apply_asg_effect effs_a w0) in *.
  set (wa0 := set_calls (cons (GetParameter K8S_AWS_SSM_PARAMETER_NAME)) wa) in *.
  set (wk := fold_left apply_k8s_effect effs_k wa0) in *.
  set (w1 := fold_left (patched_cronjob false) (Client.cronjobs_of (cronjobs wk))
               (set_calls (cons ListCronJobs) wk)).
  destruct (asg_effects_rest effs_a w0) as (Hssm_a & Hdep_a & Hsts_a & Hcron_a).
  destruct (k8s_effects_rest effs_k wa0) as (Hssm_k & Hcron_k & Hasgs_k).
  fold wa in Hssm_a, Hdep_a, Hsts_a, Hcron_a. fold wk in Hssm_k, Hcron_k, Hasgs_k.
  assert (Hssm1 : ssm w1 = ssm w).
  { unfold w1. rewrite patched_cronjobs_ssm.
    change (ssm wk = ssm w). rewrite Hssm_k.
    change (ssm wa = ssm w). by rewrite Hssm_a. }
  assert (Hasgs1 : asgs w1 = asgs wa).
  { unfold w1. rewrite patched_cronjobs_asgs.
    change (asgs wk = asgs wa). by rewrite Hasgs_k. }
  assert (Hlive1 : forall k, Kind.live k w1 = Kind.live k wk).
  { intros []; unfold w1; simpl;
      [by rewrite patched_cronjobs_deployments | by rewrite patched_cronjobs_statefulsets]. }
  (* the fleet pass, again *)
  set (w10 := set_calls (cons (GetParameter ASG_AWS_SSM_PARAMETER_NAME)) w1).
  set (w1a := fold_left apply_asg_effect effs_a w10).
  assert (Haws2 : ScaleUp.aws w1 = (Ok tt, w1a)).
  { apply (restore_pass_loop _ _ _ _ asg_step_raises). exists La. split.
    - by rewrite Hssm1.
    - apply Hreplay_a. by apply (asg_effects_ok_again effs_a w0). }
  destruct (asg_effects_rest effs_a w10) as (Hssm_1a & Hdep_1a & Hsts_1a & Hcron_1a).
  fold w1a in Hssm_1a, Hdep_1a, Hsts_1a, Hcron_1a.
  assert (Hasgs_1a : asgs w1a = asgs w1).
  { change (asgs w1a = asgs w10). by apply (asg_effects_again effs_a w0). }
  assert (Hlive_1a : forall k, Kind.live k w1a = Kind.live k wk).
  { intros k. rewrite <- Hlive1. by destruct k. }
  (* the workload pass, again *)
  set (w1a0 := set_calls (cons (GetParameter K8S_AWS_SSM_PARAMETER_NAME)) w1a).
  set (w1k := fold_left apply_k8s_effect effs_k w1a0).
  assert (Hk8s2 : ScaleUp.k8s w1a = (Ok tt, w1k)).
  { apply (restore_pass_loop _ _ _ _ k8s_step_raises). exists Lk. split.
    - assert (ssm w1a = ssm wa) as ->; [|done].
      rewrite Hssm_1a, Hssm_a. exact Hssm1.
    - apply Hreplay_k. apply (k8s_effects_ok_again effs_k wa0); [|done].
      intros k. unfold w1a0. by rewrite live_set_calls. }
  destruct (k8s_effects_rest effs_k w1a0) as (Hssm_1k & Hcron_1k & Hasgs_1k).
  fold w1k in Hssm_1k, Hcron_1k, Hasgs_1k.
  assert (Hlive_1k : forall k, Kind.live k w1k = Kind.live k w1).
  { intros k. transitivity (Kind.live k w1a0).
    - apply (k8s_effects_again k effs_k wa0).
      unfold w1a0. rewrite live_set_calls. apply Hlive_1a.
    - unfold w1a0. by rewrite live_set_calls, Hlive_1a, Hlive1. }
  eexists. split.
  { rewrite Haws2, bind_run, Hk8s2. apply resume_run. }
  unfold state. rewrite patched_cronjobs_ssm, patched_cronjobs_deployments,
    patched_cronjobs_statefulsets, patched_cronjobs_asgs. simpl.
  f_equal; [f_equal; [f_equal; [f_equal|]|]|].
  - rewrite Hssm_1k. simpl. by rewrite Hssm_1a.
  - apply (Hlive_1k KDeployment).
  - apply (Hlive_1k KStatefulSet).
  - apply map_eq. intros key. rewrite resumed_cronjobs_lookup, Hcron_1k.
    change (cronjobs w1a0) with (cronjobs w1a). rewrite Hcron_1a.
    change (cronjobs w10) with (cronjobs w1). unfold w1.
    rewrite resumed_cronjobs_lookup. by destruct (cronjobs wk !! key).
  - rewrite Hasgs_1k. simpl. apply Hasgs_1a.
Qed.

Lemma scale_up_twice_witness :
  exists w2 : World,
    scale_up (scale_up (scale_down None None None None cluster_example).2).2 = (Ok tt, w2)
    /\ state w2 = state (scale_up (scale_down None None None None cluster_example).2).2.
Proof.
  apply (scale_up_twice (scale_down None None None None cluster_example).2).
  vm_compute. reflexivity.
Defined.

(** ** What [scale_up] restores, and what it leaves alone *)

Lemma split_pieces (sep : ascii) (s : string) : Str.split sep s <> [].
Proof.
  destruct s as [|c s]; [done|]. cbn [Str.split].
  destruct (Ascii.eqb c sep); [done|]. by destruct (Str.split sep s).
Qed.

(** [sep.join(s.split(sep))] is [s]. *)
Lemma split_concat (sep : ascii) (s : string) :
  String.concat (String sep "") (Str.split sep s) = s.
Proof.
  induction s as [|c s IH]; [done|]. cbn [Str.split].
  destruct (Ascii.eqb c sep) eqn:Hc.
  - apply Ascii.eqb_eq in Hc as ->. pose proof (split_pieces sep s) as Hpieces.
    destruct (Str.split sep s) as [|piece pieces]; [done|].
    simpl in *; by rewrite <- IH.
  - destruct (Str.split sep s) as [|piece [|piece' pieces]]; simpl in *; by rewrite <- IH.
Qed.

Lemma split_inj (sep : ascii) (s s' : string) :
  Str.split sep s = Str.split sep s' -> s = s'.
Proof.
  intros Hsame. rewrite <- (split_concat sep s), <- (split_concat sep s').
  by rewrite Hsame.
Qed.

Lemma kind_of_name (k : wkind) : kind_of (Kind.name k) = Some k.
Proof. by destruct k. Qed.

Lemma kind_of_Some (kind : string) (k : wkind) :
  kind_of kind = Some k -> kind = Kind.name k.
Proof.
  unfold kind_of. destruct (String.eqb kind "deployment") eqn:Hd.
  { apply String.eqb_eq in Hd as ->. by intros [= <-]. }
  destruct (String.eqb kind "statefulset") eqn:Hs; [|done].
  apply String.eqb_eq in Hs as ->. by intros [= <-].
Qed.

Section Frames.
Context (R : relation World) `{!PreOrder R}.

Lemma preserves_for_each_in {A : Type} (body : A -> M unit) (l : list A) :
  (forall x, x ∈ l -> preserves R (body x)) -> preserves R (for_each body l).
Proof.
  induction l as [|x l IH]; intros Hbody; simpl.
  - apply (preserves_ret R).
  - apply (preserves_bind R); [apply Hbody; left | intros _].
    apply IH. intros y Hy. apply Hbody. by right.
Qed.

(** A pass over a parameter keeps what the read of the parameter and the
    steps over its entries keep. *)
Lemma restore_pass_frame (name : string) (step : string * json -> M unit) (w : World) :
  preserves R (log (GetParameter name)) ->
  (forall L kv, ssm w !! name = Some (JObj L) -> kv ∈ L -> preserves R (step kv)) ->
  R w (restore_pass name step w).2.
Proof.
  intros Hlog Hstep. specialize (Hlog w). simpl in Hlog.
  unfold restore_pass, try_except_ParameterNotFound, Client.get_parameter. run.
  destruct (ssm w !! name) as [data|] eqn:Hdata; simpl; [|done].
  rewrite bind_run. destruct data as [| | | | |L]; simpl; try done.
  pose proof (preserves_for_each_in step L (fun kv => Hstep L kv eq_refl)
                (set_calls (cons (GetParameter name)) w)) as Hloop.
  destruct (for_each step L (set_calls (cons (GetParameter name)) w)) as [[[]|[]] w1];
    simpl in *; by etrans.
Qed.

Lemma bind_frame {A B : Type} (m : M A) (f : A -> M B) (w : World) :
  R w (m w).2 -> (forall a, R (m w).2 (f a (m w).2).2) -> R w ((m ≫= f) w).2.
Proof.
  intros Hm Hf. rewrite bind_run. destruct (m w) as [[a|e] w1]; simpl in *; [|done].
  etrans; [exact Hm | apply Hf].
Qed.

End Frames.

(** The capacities of one group, and the replicas of one workload. *)
Definition group_kept (asg_name : string) : relation World :=
  untouched (fun w => asgs w !! asg_name) no_call.

Definition workload_kept (k : wkind) (namespace name : string) : relation World :=
  untouched (fun w => Kind.live k w !! (namespace, name)) no_call.

Ltac group_kept_client :=
  first [ untouched_client
        | apply untouched_modify;
          [intros ?; simpl; by apply lookup_insert_ne | intros ?; reflexivity] ].

Ltac workload_kept_client k :=
  first [ apply untouched_log; [intros ? ?; by destruct k | unfold no_call; tauto]
        | apply untouched_modify;
          [intros ?; destruct k; simpl; try reflexivity; apply lookup_insert_ne; congruence
          |intros ?; reflexivity] ].

Lemma asg_step_frame (asg_name m : string) (config : json) :
  m <> asg_name -> preserves (group_kept asg_name) (ScaleUp.asg_step (m, config)).
Proof.
  intros Hne. unfold group_kept. unfold_script. preserves_with group_kept_client.
Qed.

Lemma group_kept_elsewhere (asg_name : string) :
  preserves (group_kept asg_name) ScaleUp.k8s
  /\ preserves (group_kept asg_name) ScaleUp.resume.
Proof. unfold group_kept. split; unfold_script; preserves_with group_kept_client. Qed.

Lemma workload_ops_frame (k k0 : wkind) (namespace name ns0 n0 : string) (replicas : json) :
  (k0, ns0, n0) <> (k, namespace, name) ->
  preserves (workload_kept k namespace name)
    (Kind.read k0 n0 ns0 ;; Kind.patch k0 n0 ns0 replicas).
Proof.
  intros Hne. unfold workload_kept.
  destruct k0; cbn [Kind.read Kind.patch]; unfold_script;
    preserves_with ltac:(workload_kept_client k).
Qed.

Lemma k8s_step_frame (k : wkind) (namespace name key : string) (replicas : json) :
  Str.split "/" key <> [Kind.name k; namespace; name] ->
  preserves (workload_kept k namespace name) (ScaleUp.k8s_step (key, replicas)).
Proof.
  intros Hne w. rewrite k8s_step_eq.
  destruct (Str.split "/" key) as [|kind [|ns0 [|n0 [|extra parts]]]]; try reflexivity.
  destruct (kind_of kind) as [k0|] eqn:Hkind; [|reflexivity].
  apply kind_of_Some in Hkind as ->.
  apply workload_ops_frame. intros [= -> -> ->]. by apply Hne.
Qed.

Lemma workload_kept_elsewhere (k : wkind) (namespace name : string) :
  preserves (workload_kept k namespace name) ScaleUp.aws
  /\ preserves (workload_kept k namespace name) ScaleUp.resume.
Proof.
  unfold workload_kept. split; unfold_script;
    preserves_with ltac:(workload_kept_client k).
Qed.

(** X10.  Whether it completes or not, [scale_up] changes no group that
    the fleet parameter does not name, and no Deployment or StatefulSet
    that no key of the workload parameter names. *)
Theorem scale_up_leaves_unnamed_alone (w : World) :
  (forall asg_name,
     (forall L, ssm w !! ASG_AWS_SSM_PARAMETER_NAME = Some (JObj L) ->
                asg_name ∉ Dict.keys L) ->
     asgs (scale_up w).2 !! asg_name = asgs w !! asg_name)
  /\ (forall k namespace name,
        (forall L key, ssm w !! K8S_AWS_SSM_PARAMETER_NAME = Some (JObj L) ->
                       key ∈ Dict.keys L ->
                       Str.split "/" key <> [Kind.name k; namespace; name]) ->
        Kind.live k (scale_up w).2 !! (namespace, name)
        = Kind.live k w !! (namespace, name)).
Proof.
  split.
  - intros asg_name Hnew.
    destruct (group_kept_elsewhere asg_name) as [Hk8s Hresume].
    cut (group_kept asg_name w (scale_up w).2); [by intros [? _]|].
    unfold scale_up. apply (bind_frame (group_kept asg_name)).
    + apply (restore_pass_frame (group_kept asg_name)).
      * unfold group_kept. group_kept_client.
      * intros L [m config] HL Hin. apply asg_step_frame. intros ->.
        apply (Hnew L HL). apply list_elem_of_fmap. by exists (asg_name, config).
    + intros _. apply (bind_frame (group_kept asg_name)); [apply Hk8s|].
      intros _. apply Hresume.
  - intros k namespace name Hnew.
    destruct (workload_kept_elsewhere k namespace name) as [Haws Hresume].
    cut (workload_kept k namespace name w (scale_up w).2); [by intros [? _]|].
    unfold scale_up. apply (bind_frame (workload_kept k namespace name)); [apply Haws|].
    intros _. apply (bind_frame (workload_kept k namespace name)); [|intros _; apply Hresume].
    apply (restore_pass_frame (workload_kept k namespace name)).
    + unfold workload_kept. workload_kept_client k.
    + intros L [key replicas] HL Hin. apply k8s_step_frame.
      destruct (aws_pass_leaves_store w) as [Hssm _]. rewrite Hssm in HL.
      apply (Hnew L key HL). apply list_elem_of_fmap. by exists (key, replicas).
Qed.

Definition evening_example : World :=
  MkWorld
    (<[ASG_AWS_SSM_PARAMETER_NAME := JObj [("ng-1", asg_record (Asg 1 2 3))]]>
       {[K8S_AWS_SSM_PARAMETER_NAME :=
           JObj [("deployment/default/web", JNum 3); ("job/default/web", JNum 9)]]})
    (<[("default", "web") := 0]> {[("default", "api") := 4]})
    {[("default", "web") := 2]}
    {[("default", "nightly") := true]}
    (<["ng-1" := Asg 0 0 0]> {["ng-2" := Asg 2 2 4]}) [].

Lemma scale_up_leaves_unnamed_alone_witness :
  asgs (scale_up evening_example).2 !! "ng-2" = asgs evening_example !! "ng-2"
  /\ Kind.live KStatefulSet (scale_up evening_example).2 !! ("default", "web")
     = Kind.live KStatefulSet evening_example !! ("default", "web").
Proof.
  split.
  - apply (proj1 (scale_up_leaves_unnamed_alone evening_example)).
    intros L [= <-]. vm_compute. by intros [[= ]|[]%elem_of_nil]%elem_of_cons.
  - apply (proj2 (scale_up_leaves_unnamed_alone evening_example)).
    intros L key [= <-] Hkey. vm_compute in Hkey.
    apply elem_of_cons in Hkey as [-> | Hkey]; [by vm_compute|].
    apply elem_of_cons in Hkey as [-> | Hkey]; [by vm_compute|].
    by apply elem_of_nil in Hkey.
Defined.

(** A loop over the stored groups that returns has given each group the
    capacities of its entry. *)
Lemma asg_loop_applies (l : list (string * json)) (w w' : World)
    (asg_name : string) (config : json) :
  for_each ScaleUp.asg_step l w = (Ok tt, w') ->
  NoDup (Dict.keys l) ->
  (asg_name, config) ∈ l ->
  exists group, stored_capacity config = Some group /\ asgs w' !! asg_name = Some group.
Proof.
  revert w. induction l as [|[m c] rest IH]; intros w Hrun Hkeys Hin.
  { by apply elem_of_nil in Hin. }
  cbn [for_each] in Hrun. rewrite bind_run in Hrun.
  destruct (ScaleUp.asg_step (m, c) w) as [[[]|e] w1] eqn:Hstep; [|discriminate].
  apply asg_restore_step_inv in Hstep as (group & Hconfig & _ & ->).
  apply NoDup_cons in Hkeys as [Hfresh Hkeys].
  apply elem_of_cons in Hin as [[= -> ->] | Hin]; [|by eapply IH].
  exists group. split; [done|].
  pose proof (preserves_for_each_in (group_kept m) ScaleUp.asg_step rest) as Hframe.
  destruct (Hframe) with (w := restored_asg m group w) as [Hkept _].
  - intros [m' c'] Hin. apply asg_step_frame. intros ->.
    apply Hfresh. apply list_elem_of_fmap. by exists (m, c').
  - rewrite Hrun in Hkept. simpl in Hkept. rewrite Hkept. apply lookup_insert_eq.
Qed.

(** A loop over the stored workloads that returns has given each
    Deployment and StatefulSet the replicas of its entry. *)
Lemma k8s_loop_applies (l : list (string * json)) (w w' : World)
    (key : string) (replicas : json) (k : wkind) (namespace name : string) :
  for_each ScaleUp.k8s_step l w = (Ok tt, w') ->
  NoDup (Dict.keys l) ->
  (key, replicas) ∈ l ->
  Str.split "/" key = [Kind.name k; namespace; name] ->
  exists n, replicas = JNum n /\ Kind.live k w' !! (namespace, name) = Some n.
Proof.
  intros Hrun Hkeys Hin Hsplit.
  revert w Hrun. induction l as [|[key0 v0] rest IH]; intros w Hrun.
  { by apply elem_of_nil in Hin. }
  cbn [for_each] in Hrun. rewrite bind_run in Hrun.
  destruct (ScaleUp.k8s_step (key0, v0) w) as [[[]|e] w1] eqn:Hstep; [|discriminate].
  apply NoDup_cons in Hkeys as [Hfresh Hkeys].
  apply elem_of_cons in Hin as [[= <- <-] | Hin]; [|by eapply IH].
  rewrite k8s_step_eq, Hsplit, kind_of_name, bind_run in Hstep.
  destruct (Kind.live k w !! (namespace, name)) as [r|] eqn:Hlive;
    [|by rewrite read_workload_raise in Hstep].
  rewrite (read_workload_run k _ _ r) in Hstep by done.
  apply patch_workload_inv in Hstep as (n & -> & _ & ->).
  exists n. split; [done|].
  pose proof (preserves_for_each_in (workload_kept k namespace name)
                ScaleUp.k8s_step rest) as Hframe.
  edestruct Hframe as [Hkept _].
  - intros [key' v'] Hin'. apply k8s_step_frame. rewrite <- Hsplit.
    intros ->%split_inj. apply Hfresh. apply list_elem_of_fmap. by exists (key, v').
  - rewrite Hrun in Hkept. simpl in Hkept. rewrite Hkept.
    rewrite patched_workload_lookup. by rewrite decide_True.
Qed.

(** X11.  After a [scale_up] that completes, every group the fleet
    parameter names has the capacities stored for it, and every Deployment
    and StatefulSet a key of the workload parameter names has the replicas
    stored under that key, where each parameter holds a key once. *)
Theorem scale_up_applies_every_entry (w w' : World) :
  scale_up w = (Ok tt, w') ->
  (forall L asg_name config,
     ssm w !! ASG_AWS_SSM_PARAMETER_NAME = Some (JObj L) ->
     NoDup (Dict.keys L) ->
     (asg_name, config) ∈ L ->
     exists group,
       stored_capacity config = Some group /\ asgs w' !! asg_name = Some group)
  /\ (forall L key replicas k namespace name,
        ssm w !! K8S_AWS_SSM_PARAMETER_NAME = Some (JObj L) ->
        NoDup (Dict.keys L) ->
        (key, replicas) ∈ L ->
        Str.split "/" key = [Kind.name k; namespace; name] ->
        exists n, replicas = JNum n /\ Kind.live k w' !! (namespace, name) = Some n).
Proof.
  unfold scale_up. rewrite bind_run.
  destruct (ScaleUp.aws w) as [[[]|ea] wa] eqn:Haws; [|intros Hx; discriminate Hx].
  rewrite bind_run.
  destruct (ScaleUp.k8s wa) as [[[]|ek] wk] eqn:Hk8s; [|intros Hx; discriminate Hx].
  rewrite resume_run. intros [= <-].
  assert (Hssm : ssm wa = ssm w).
  { destruct (aws_pass_leaves_store w) as [Hssm _]. by rewrite Haws in Hssm. }
  assert (Hasgs : asgs wk = asgs wa).
  { apply map_eq. intros asg_name.
    destruct (group_kept_elsewhere asg_name) as [Hkept _].
    destruct (Hkept wa) as [Hsame _]. by rewrite Hk8s in Hsame. }
  apply (restore_pass_loop _ _ _ _ asg_step_raises) in Haws as (La & Hstored_a & Hloop_a).
  apply (restore_pass_loop _ _ _ _ k8s_step_raises) in Hk8s as (Lk & Hstored_k & Hloop_k).
  rewrite Hssm in Hstored_k.
  split.
  - intros L asg_name config HL Hkeys Hin.
    destruct Hstored_a as [[Hx _] | Hx]; rewrite HL in Hx; [discriminate Hx|].
    injection Hx as <-.
    destruct (asg_loop_applies _ _ _ _ _ Hloop_a Hkeys Hin) as (group & Hconfig & Hlive).
    exists group. split; [done|]. rewrite patched_cronjobs_asgs.
    change (asgs wk !! asg_name = Some group). by rewrite Hasgs.
  - intros L key replicas k namespace name HL Hkeys Hin Hsplit.
    destruct Hstored_k as [[Hx _] | Hx]; rewrite HL in Hx; [discriminate Hx|].
    injection Hx as <-.
    destruct (k8s_loop_applies _ _ _ _ _ _ _ _ Hloop_k Hkeys Hin Hsplit)
      as (n & -> & Hlive).
    exists n. split; [done|]. rewrite <- Hlive.
    destruct k; simpl;
      [by rewrite patched_cronjobs_deployments | by rewrite patched_cronjobs_statefulsets].
Qed.

Lemma scale_up_applies_every_entry_witness :
  (exists group,
     stored_capacity (asg_record (Asg 1 2 3)) = Some group
     /\ asgs (scale_up evening_example).2 !! "ng-1" = Some group)
  /\ (exists n,
        JNum 3 = JNum n
        /\ Kind.live KDeployment (scale_up evening_example).2 !! ("default", "web") = Some n).
Proof.
  destruct (scale_up_applies_every_entry evening_example (scale_up evening_example).2)
    as [Hfleet Hworkloads].
  { vm_compute. reflexivity. }
  split.
  - apply (Hfleet [("ng-1", asg_record (Asg 1 2 3))]).
    + reflexivity.
    + apply NoDup_singleton.
    + left.
  - apply (Hworkloads [("deployment/default/web", JNum 3); ("job/default/web", JNum 9)]
             "deployment/default/web").
    + reflexivity.
    + apply NoDup_cons. split; [|apply NoDup_singleton].
      intros [= ]%list_elem_of_singleton.
    + left.
    + reflexivity.
Defined.

(** ** A group that does not exist, in [scale_down] *)

Lemma for_fold_app {A S : Type} (body : S -> A -> M S) (l1 l2 : list A) (s : S)
    (w : World) :
  for_fold body (l1 ++ l2) s w
  = match for_fold body l1 s w with
    | (Ok s', w1) => for_fold body l2 s' w1
    | (Raise e, w1) => (Raise e, w1)
    end.
Proof.
  revert s w. induction l1 as [|x l1 IH]; intros s w; [done|].
  cbn [app for_fold]. rewrite !bind_run.
  destruct (body s x w) as [[s'|e] w1]; [apply IH | done].
Qed.

(** The loop over the group names stops at the first name that is empty
    or has no group: the groups before it have been set to zero, and what
    was recorded of them is dropped with the exception. *)
Lemma asg_loop_missing (before after : list string) (missing : string)
    (data : Dict.t json) (w : World) :
  Forall (describable w) before ->
  missing = "" \/ asgs w !! missing = None ->
  exists w',
    for_fold ScaleDown.asg_step (before ++ missing :: after) data w
    = (Raise (if String.eqb missing "" then ParamValidationError else IndexError), w')
    /\ ssm w' = ssm w
    /\ forall asg_name,
         asgs w' !! asg_name
         = if zeroes before w asg_name then Some (Asg 0 0 0) else asgs w !! asg_name.
Proof.
  intros Hbefore Hmissing.
  destruct (asg_loop_run before data w Hbefore)
    as (data1 & w1 & new & Hrun & _ & Hssm & _ & _ & _ & Hgroups).
  rewrite for_fold_app, Hrun. cbn [for_fold]. rewrite bind_run.
  assert (Hstate : ssm (described_asg missing w1) = ssm w
                   /\ forall asg_name,
                        asgs (described_asg missing w1) !! asg_name
                        = if zeroes before w asg_name then Some (Asg 0 0 0)
                          else asgs w !! asg_name).
  { split; [exact Hssm|].
    intros asg_name. destruct (Hgroups asg_name) as (_ & <- & _). reflexivity. }
  destruct (String.eqb_spec missing "") as [-> | Hname].
  { rewrite asg_step_empty. by eexists. }
  destruct Hmissing as [-> | Hmissing]; [done|].
  assert (Hnone : asgs w1 !! missing = None).
  { destruct (Hgroups missing) as (_ & -> & _). unfold zeroes.
    by rewrite Hmissing, andb_false_r. }
  rewrite (asg_step_missing _ _ _ Hname Hnone). by eexists.
Qed.

Lemma k8s_half_leaves_fleet (k8s_resources exclude_k8s_resources : option (list resource_ref)) :
  preserves (untouched asgs no_call) (ScaleDown.k8s k8s_resources exclude_k8s_resources).
Proof.
  unfold ScaleDown.k8s, ScaleDown.fetch, ScaleDown.deployment_step,
    ScaleDown.statefulset_step, ScaleDown.cronjob_step, ScaleDown.store,
    update_ssm_parameter,
    Client.list_deployment_for_all_namespaces, Client.list_stateful_set_for_all_namespaces,
    Client.list_cron_job_for_all_namespaces, Client.read_namespaced_cron_job,
    Client.put_parameter.
  unfold_script. preserves_with untouched_client.
Qed.

(** X12.  The capacities of the groups are stored after the loop over the
    groups.  When the list of groups names, after groups that exist, the
    empty name or the name of a group that does not exist, a [scale_down]
    whose Kubernetes half completes ends with an exception, the
    [ParamValidationError] of the empty name or the [IndexError] of the
    missing group: the groups before that name are already at zero when
    they were not, and the store is as the Kubernetes half left it, so
    their capacities are recorded nowhere. *)
Theorem missing_group_loses_fleet_capture
    (k8s_resources exclude_k8s_resources : option (list resource_ref))
    (names : list string) (exclude_aws_asg_resources : option (list string))
    (before after : list string) (missing : string) (w0 wk : World) :
  ScaleDown.k8s k8s_resources exclude_k8s_resources w0 = (Ok tt, wk) ->
  names <> [] ->
  filter_excluded_asgs names exclude_aws_asg_resources = before ++ missing :: after ->
  Forall (fun asg_name => asg_name <> "" /\ is_Some (asgs w0 !! asg_name)) before ->
  missing = "" \/ asgs w0 !! missing = None ->
  exists w' : World,
    scale_down k8s_resources (Some names) exclude_k8s_resources
               exclude_aws_asg_resources w0
    = (Raise (if String.eqb missing "" then ParamValidationError else IndexError), w')
    /\ ssm w' = ssm wk
    /\ forall asg_name group,
         asg_name ∈ before ->
         asgs w0 !! asg_name = Some group ->
         asgs w' !! asg_name = Some (if not_all_zero group then Asg 0 0 0 else group).
Proof.
  intros Hk8s Hnames Hfilter Hbefore Hmissing.
  assert (Hasgs : asgs wk = asgs w0).
  { destruct (k8s_half_leaves_fleet k8s_resources exclude_k8s_resources w0) as [Hsame _].
    by rewrite Hk8s in Hsame. }
  rewrite <- Hasgs in Hbefore, Hmissing.
  destruct (asg_loop_missing before after missing [] wk Hbefore Hmissing)
    as (w' & Hloop & Hssm & Hgroups).
  exists w'. split_and!; [|exact Hssm|].
  - unfold scale_down. rewrite bind_run, Hk8s. unfold ScaleDown.aws.
    destruct names as [|n names]; [done|]. cbn [py_not items_of default].
    rewrite bind_run. cbn [mret M_ret id]. rewrite Hfilter, bind_run, Hloop. reflexivity.
  - intros asg_name group Hin Hgroup. rewrite Hgroups. unfold zeroes.
    rewrite bool_decide_eq_true_2 by done. rewrite Hasgs, Hgroup. simpl.
    by destruct (not_all_zero group).
Qed.

Definition typo_example : World :=
  MkWorld ∅ {[("default", "web") := 5]} ∅ ∅
    (<["ng-1" := Asg 1 2 3]> {["ng-2" := Asg 0 0 0]}) [].

Lemma missing_group_loses_fleet_capture_witness :
  (exists w' : World,
     scale_down None (Some ["ng-1"; "ng-2"; "ng-3"]) None None typo_example
     = (Raise IndexError, w')
     /\ ssm w' = ssm (ScaleDown.k8s None None typo_example).2
     /\ forall asg_name group,
          asg_name ∈ ["ng-1"; "ng-2"] ->
          asgs typo_example !! asg_name = Some group ->
          asgs w' !! asg_name = Some (if not_all_zero group then Asg 0 0 0 else group))
  /\ (exists w' : World,
        scale_down None (Some ["ng-1"; ""]) None None typo_example
        = (Raise ParamValidationError, w')
        /\ ssm w' = ssm (ScaleDown.k8s None None typo_example).2
        /\ forall asg_name group,
             asg_name ∈ ["ng-1"] ->
             asgs typo_example !! asg_name = Some group ->
             asgs w' !! asg_name = Some (if not_all_zero group then Asg 0 0 0 else group)).
Proof.
  split.
  - apply (missing_group_loses_fleet_capture None None ["ng-1"; "ng-2"; "ng-3"] None
             ["ng-1"; "ng-2"] [] "ng-3" typo_example).
    + vm_compute. reflexivity.
    + discriminate.
    + reflexivity.
    + repeat constructor; try discriminate; vm_compute; by eexists.
    + right. vm_compute. reflexivity.
  - apply (missing_group_loses_fleet_capture None None ["ng-1"; ""] None
             ["ng-1"] [] "" typo_example).
    + vm_compute. reflexivity.
    + discriminate.
    + reflexivity.
    + repeat constructor; try discriminate; vm_compute; by eexists.
    + by left.
Defined.

(** ** A workload that does not exist any more, in [scale_up] *)

(** The loop over the stored workloads returns only when every Deployment
    and StatefulSet a key names exists. *)
Lemma k8s_loop_needs_workload (l : list (string * json)) (w w' : World)
    (key : string) (replicas : json) (k : wkind) (namespace name : string) :
  for_each ScaleUp.k8s_step l w = (Ok tt, w') ->
  (key, replicas) ∈ l ->
  Str.split "/" key = [Kind.name k; namespace; name] ->
  is_Some (Kind.live k w !! (namespace, name)).
Proof.
  intros Hrun Hin Hsplit. revert w Hrun.
  induction l as [|[key0 v0] rest IH]; intros w Hrun.
  { by apply elem_of_nil in Hin. }
  cbn [for_each] in Hrun. rewrite bind_run in Hrun.
  destruct (ScaleUp.k8s_step (key0, v0) w) as [[[]|e] w1] eqn:Hstep; [|discriminate].
  apply elem_of_cons in Hin as [[= <- <-] | Hin].
  - rewrite k8s_step_eq, Hsplit, kind_of_name, bind_run in Hstep.
    destruct (Kind.live k w !! (namespace, name)) as [r|] eqn:Hlive; [by eexists|].
    by rewrite read_workload_raise in Hstep.
  - specialize (IH Hin w1 Hrun).
    apply k8s_step_effect in Hstep as (eff & -> & Hok & _).
    destruct eff as [[[[k0 ns0] n0] r0]|]; simpl in *; [|done].
    rewrite patched_workload_lookup, live_set_calls in IH.
    case_decide as Hsame; [|done]. by destruct Hsame as [-> [= -> ->]].
Qed.

(** X13.  When a key of the workload parameter names a Deployment or
    StatefulSet that does not exist, [scale_up] ends with an exception,
    and no CronJob has been resumed. *)
Theorem deleted_workload_blocks_scale_up
    (L : list (string * json)) (key : string) (replicas : json)
    (k : wkind) (namespace name : string) (w : World) :
  ssm w !! K8S_AWS_SSM_PARAMETER_NAME = Some (JObj L) ->
  (key, replicas) ∈ L ->
  Str.split "/" key = [Kind.name k; namespace; name] ->
  Kind.live k w !! (namespace, name) = None ->
  exists (e : exn) (w' : World) (new : list call),
    scale_up w = (Raise e, w')
    /\ cronjobs w' = cronjobs w
    /\ calls w' = new ++ calls w
    /\ forall cj_namespace cj_name suspend, PatchCronJob cj_namespace cj_name suspend ∉ new.
Proof.
  intros Hstored Hin Hsplit Hgone.
  assert (Hpre : exists e w', (ScaleUp.aws ;; ScaleUp.k8s) w = (Raise e, w')).
  { rewrite bind_run. pose proof (aws_pass_leaves_store w) as [Hssm _].
    destruct (workload_kept_elsewhere k namespace name) as [Hkept _].
    destruct (Hkept w) as [Hlive _].
    destruct (ScaleUp.aws w) as [[[]|e1] w1]; [|by eexists _, _].
    simpl in Hssm, Hlive.
    destruct (ScaleUp.k8s w1) as [[[]|e2] w2] eqn:Hk8s; [|by eexists _, _].
    exfalso.
    apply (restore_pass_loop _ _ _ _ k8s_step_raises) in Hk8s as (L' & HL' & Hloop).
    rewrite Hssm, Hstored in HL'. destruct HL' as [[Hx _] | [= <-]]; [discriminate Hx|].
    apply (k8s_loop_needs_workload _ _ _ _ _ _ _ _ Hloop Hin) in Hsplit as [r Hr].
    rewrite live_set_calls, Hlive, Hgone in Hr. discriminate Hr. }
  destruct Hpre as (e & w' & Hpre).
  destruct (restore_passes_leave_cronjobs w) as [Hcron (new & Hcalls & Hnew)].
  rewrite Hpre in Hcron, Hcalls. simpl in Hcron, Hcalls.
  exists e, w', new. split_and!; [|done|done|].
  - unfold scale_up.
    change ((ScaleUp.aws ≫= fun _ => ScaleUp.k8s ≫= fun _ => ScaleUp.resume) w
            = (Raise e, w')).
    rewrite <- bind_assoc. apply bind_raise, Hpre.
  - intros cj_namespace cj_name suspend Hin'. rewrite Forall_forall in Hnew.
    apply (Hnew _ Hin'). exact I.
Qed.

Definition deleted_example : World :=
  MkWorld
    {[K8S_AWS_SSM_PARAMETER_NAME :=
        JObj [("deployment/default/web", JNum 3); ("statefulset/db/pg", JNum 2)]]}
    {[("default", "web") := 0]} ∅ {[("default", "nightly") := true]} ∅ [].

Lemma deleted_workload_blocks_scale_up_witness :
  exists (e : exn) (w' : World) (new : list call),
    scale_up deleted_example = (Raise e, w')
    /\ cronjobs w' = cronjobs deleted_example
    /\ calls w' = new ++ calls deleted_example
    /\ forall cj_namespace cj_name suspend, PatchCronJob cj_namespace cj_name suspend ∉ new.
Proof.
  apply (deleted_workload_blocks_scale_up
           [("deployment/default/web", JNum 3); ("statefulset/db/pg", JNum 2)]
           "statefulset/db/pg" (JNum 2) KStatefulSet "db" "pg" deleted_example).
  - reflexivity.
  - right. left.
  - reflexivity.
  - reflexivity.
Defined.
